(** * gantt_chart.py: log parser and chart renderer

    A shallow embedding of [src/gantt_chart.py].  The script reads two run
    logs (a sequential and a parallel run of an RLE compression workload),
    parses each into a dictionary with the keys [meta], [threads] and
    [pc_samples], derives a few comparison metrics and draws a fixed
    multi-panel figure.

    Conventions of the embedding:
    - Python [str] is [string]; a character is a code point below 256.
    - Python [int] is [Z]; Python [float] is an IEEE-754 binary64 number,
      [spec_float] with precision 53 and maximal exponent 1024.
    - A Python exception is a value of [exn]; a computation that may raise
      returns [result A].
    - The record dictionaries ([meta], each thread, each sample) are
      [gmap string string]; [pc_samples], which the renderer iterates, is an
      association list in insertion order.
    - The builtins [int(s)], [float(s)] and [int(s, 16)] on strings are
      fields of the class [Builtins]; the development is parametric in them.
    - The plotting library is not modelled: a drawing call is recorded as an
      [artist] with the data-dependent arguments the script computes for it,
      and is taken not to raise.  The literal texts of the drawing calls are
      kept as the bytes of the source file.
    - Where both operands of an arithmetic operation are floats, or the
      divisor is a non-zero literal, the operation cannot raise and is
      written with the float operation itself ([fadd], [fmul], [fdiv]);
      every other operation goes through [py_truediv], [py_mul], [py_add],
      [py_sub], which convert int operands and raise as Python does.
    - Memory is not modelled: a list is as long as its definition makes
      it. *)

From Stdlib Require Import ZArith Bool Ascii String List Lia.
From Stdlib Require Import Floats.SpecFloat.
From stdpp Require Import base option list gmap strings.

Local Open Scope string_scope.
Local Open Scope list_scope.
Local Open Scope Z_scope.

(** ** Exceptions and fallible computations *)

Inductive exn : Type :=
| IndexError
| KeyError (key : string)
| ValueError
| ZeroDivisionError
| OverflowError
| OSError
| SystemExit (code : Z).

Inductive result (A : Type) : Type :=
| Ok (a : A)
| Raise (e : exn).
Arguments Ok {A} a.
Arguments Raise {A} e.

(** Sequencing: the first exception raised is the outcome. *)
#[global] Instance result_ret : MRet result := fun A a => Ok a.
#[global] Instance result_bind : MBind result := fun A B k m =>
  match m with
  | Ok a => k a
  | Raise e => Raise e
  end.

(** [[f(x) for x in l]]: the elements are evaluated left to right and the
    first exception aborts the comprehension. *)
Fixpoint rmap {A B : Type} (f : A → result B) (l : list A) : result (list B) :=
  match l with
  | [] => Ok []
  | x :: l' => y ← f x ; ys ← rmap f l' ; Ok (y :: ys)
  end.

(** A [for] loop whose body adds artists (or any list of outputs). *)
Definition rconcat_map {A B : Type} (f : A → result (list B)) (l : list A)
  : result (list B) :=
  ys ← rmap f l ; Ok (concat ys).

(** [len(l)] *)
Definition len {A : Type} (l : list A) : Z := Z.of_nat (length l).

(** [l[i]] for a Python list, negative indices counted from the end. *)
Definition py_index {A : Type} (l : list A) (i : Z) : result A :=
  let n := len l in
  let j := if i <? 0 then i + n else i in
  if (0 <=? j) && (j <? n) then
    match l !! Z.to_nat j with
    | Some x => Ok x
    | None => Raise IndexError
    end
  else Raise IndexError.

(** [d[k]] for a dictionary with string keys. *)
Definition py_getitem {V : Type} (d : gmap string V) (k : string) : result V :=
  match d !! k with
  | Some v => Ok v
  | None => Raise (KeyError k)
  end.

(** ** Strings: [str.strip] and [str.split] *)

(** [str.isspace] on the code points below 256. *)
Definition is_space (c : ascii) : bool :=
  let n := N_of_ascii c in
  ((9 <=? n) && (n <=? 13) || (28 <=? n) && (n <=? 32)
   || (n =? 133) || (n =? 160))%N.

Fixpoint lstrip (s : string) : string :=
  match s with
  | EmptyString => EmptyString
  | String c s' => if is_space c then lstrip s' else s
  end.

Fixpoint rstrip (s : string) : string :=
  match s with
  | EmptyString => EmptyString
  | String c s' =>
      match rstrip s' with
      | EmptyString => if is_space c then EmptyString else String c EmptyString
      | r => String c r
      end
  end.

(** [s.strip()] *)
Definition strip (s : string) : string := rstrip (lstrip s).

(** [s.split(sep)] for a non-empty separator: the fields between the
    non-overlapping occurrences of [sep], scanned from the left.  [skip]
    counts the characters of a matched separator still to be passed over. *)
Fixpoint split_from (sep : string) (skip : nat) (s : string) : list string :=
  match s with
  | EmptyString => [EmptyString]
  | String c s' =>
      match skip with
      | S k => split_from sep k s'
      | O =>
          if String.prefix sep s
          then EmptyString :: split_from sep (String.length sep - 1) s'
          else match split_from sep 0 s' with
               | f :: fs => String c f :: fs
               | [] => [String c EmptyString]
               end
      end
  end.

Definition split (sep s : string) : list string := split_from sep 0 s.

Definition nl : string := String (ascii_of_nat 10) EmptyString.
Definition blank_line : string := nl +:+ nl.
Definition comma : string := ",".

(** ** Numbers: [int] and [float] *)

(** binary64 *)
Definition prec : Z := 53.
Definition emax : Z := 1024.
Abbreviation float := spec_float.

Definition fadd : float → float → float := SFadd prec emax.
Definition fsub : float → float → float := SFsub prec emax.
Definition fmul : float → float → float := SFmul prec emax.
Definition fdiv : float → float → float := SFdiv prec emax.
Definition fneg : float → float := SFopp.
Definition feqb : float → float → bool := SFeqb.
Definition fltb : float → float → bool := SFltb.
Definition fzero : float := S754_zero false.
#[global] Arguments fadd : simpl never.
#[global] Arguments fsub : simpl never.
#[global] Arguments fmul : simpl never.
#[global] Arguments fdiv : simpl never.

Definition is_inf (f : float) : bool :=
  match f with S754_infinity _ => true | _ => false end.

(** An integer read as the (unnormalised) binary number [z * 2^0]. *)
Definition exact_int (z : Z) : float :=
  match z with
  | Z0 => S754_zero false
  | Zpos p => S754_finite false p 0
  | Zneg p => S754_finite true p 0
  end.

(** The quotient of two integers rounded once, to nearest even. *)
Definition ratio (a b : Z) : float := fdiv (exact_int a) (exact_int b).

(** A decimal literal of the source, [m * 10^-k], as the parser reads it. *)
Definition dec (m : Z) (k : nat) : float := ratio m (10 ^ Z.of_nat k).
#[global] Arguments ratio : simpl never.
#[global] Arguments dec : simpl never.

(** [float(z)] for an int, also the implicit conversion of an int operand
    of a float operation: rounded to nearest even, [OverflowError] when the
    result is out of range. *)
Definition int_as_float (z : Z) : float := binary_normalize prec emax z 0 false.
#[global] Arguments int_as_float : simpl never.
Definition float_of_int (z : Z) : result float :=
  let f := int_as_float z in
  if is_inf f then Raise OverflowError else Ok f.

(** [a / b] on two ints: the correctly rounded quotient. *)
Definition int_truediv (a b : Z) : result float :=
  if b =? 0 then Raise ZeroDivisionError
  else if a =? 0 then Ok (S754_zero (b <? 0))
  else
    let f := ratio a b in
    if is_inf f then Raise OverflowError else Ok f.

Inductive num : Type :=
| PyInt (z : Z)
| PyFloat (f : float).

Definition to_float (x : num) : result float :=
  match x with
  | PyInt z => float_of_int z
  | PyFloat f => Ok f
  end.

(** [a / b] *)
Definition py_truediv (a b : num) : result num :=
  match a, b with
  | PyInt x, PyInt y => f ← int_truediv x y; Ok (PyFloat f)
  | _, _ =>
      x ← to_float a;
      y ← to_float b;
      if feqb y fzero then Raise ZeroDivisionError else Ok (PyFloat (fdiv x y))
  end.

Definition arith (fz : Z → Z → Z) (ff : float → float → float) (a b : num)
  : result num :=
  match a, b with
  | PyInt x, PyInt y => Ok (PyInt (fz x y))
  | _, _ => x ← to_float a; y ← to_float b; Ok (PyFloat (ff x y))
  end.

(** [a * b], [a + b], [a - b] *)
Definition py_mul : num → num → result num := arith Z.mul fmul.
Definition py_add : num → num → result num := arith Z.add fadd.
Definition py_sub : num → num → result num := arith Z.sub fsub.

(** [a % b] and [a // b] on ints *)
Definition int_mod (a b : Z) : result Z :=
  if b =? 0 then Raise ZeroDivisionError else Ok (a mod b).
Definition int_floordiv (a b : Z) : result Z :=
  if b =? 0 then Raise ZeroDivisionError else Ok (a / b).

(** A float compared with an int, exactly (no conversion of the int). *)
Definition float_cmp_int (f : float) (z : Z) : option comparison :=
  match f with
  | S754_nan => None
  | S754_zero _ => Some (0 ?= z)
  | S754_infinity s => Some (if s then Lt else Gt)
  | S754_finite s m e =>
      let v := if s then Zneg m else Zpos m in
      Some (if 0 <=? e then (v * 2 ^ e ?= z) else (v ?= z * 2 ^ (- e)))
  end.

(** [a < b] and [a > b] *)
Definition py_lt (a b : num) : bool :=
  match a, b with
  | PyInt x, PyInt y => x <? y
  | PyFloat x, PyFloat y => fltb x y
  | PyFloat x, PyInt y =>
      match float_cmp_int x y with Some Lt => true | _ => false end
  | PyInt x, PyFloat y =>
      match float_cmp_int y x with Some Gt => true | _ => false end
  end.
Definition py_gt (a b : num) : bool := py_lt b a.

(** The builtins that read a number from a string; [None] is [ValueError]. *)
Class Builtins : Type := {
  py_int : string → option Z;        (* int(s) *)
  py_float : string → option float;  (* float(s) *)
  py_int16 : string → option Z;      (* int(s, 16) *)
}.

Definition conv {A : Type} (o : option A) : result A :=
  match o with
  | Some a => Ok a
  | None => Raise ValueError
  end.

(** ** The parsed log *)

(** A dictionary with string keys and values: [meta], a thread, a sample. *)
Abbreviation record := (gmap string string).

(** A dictionary with int keys, in insertion order (keys are distinct). *)
Definition odict (V : Type) : Type := list (Z * V).

Fixpoint od_get {V : Type} (k : Z) (d : odict V) : option V :=
  match d with
  | [] => None
  | (k', v) :: d' => if k' =? k then Some v else od_get k d'
  end.

Definition od_mem {V : Type} (k : Z) (d : odict V) : bool :=
  match od_get k d with Some _ => true | None => false end.

(** [d[k] = v]: replaces the value of a present key where it stands, adds
    an absent key at the end. *)
Fixpoint od_set {V : Type} (k : Z) (v : V) (d : odict V) : odict V :=
  match d with
  | [] => [(k, v)]
  | (k', v') :: d' => if k' =? k then (k', v) :: d' else (k', v') :: od_set k v d'
  end.

(** [data = {'meta': {}, 'threads': [], 'pc_samples': {}}] *)
Record RunLog : Type := {
  meta : record;
  threads : list record;
  pc_samples : odict (list record);
}.

(** ** [parse_csv] *)

(** [for k, v in zip(keys, vals): d[k.strip()] = v.strip()], from [d = {}] *)
Definition zip_record (keys vals : list string) : record :=
  foldl (fun d kv => <[strip kv.1 := strip kv.2]> d) ∅ (zip keys vals).

(** Lines 18-22: the first section, a line of keys and a line of values. *)
Definition parse_meta (section : string) : result record :=
  let lines := split nl (strip section) in
  l0 ← py_index lines 0;
  let keys := split comma l0 in
  l1 ← py_index lines 1;
  let vals := split comma l1 in
  Ok (zip_record keys vals).

(** Lines 24-31: the second section, a header and one row per thread. *)
Definition parse_threads (section : string) : result (list record) :=
  let lines := split nl (strip section) in
  l0 ← py_index lines 0;
  let header := split comma l0 in
  Ok ((fun line => zip_record header (split comma line)) <$> drop 1 lines).

Section Parse.
Context `{Builtins}.

(** The body of the loop over the rows of the third section (lines
    36-44): the row's record is appended to the list of its thread, which
    is created on the first row of that thread. *)
Definition add_sample (header : list string) (pc : odict (list record))
    (line : string) : result (odict (list record)) :=
  let vals := split comma line in
  let sample := zip_record header vals in
  s ← py_getitem sample "thread_id";
  tid ← conv (py_int s);
  let pc1 := if od_mem tid pc then pc else od_set tid [] pc in
  Ok (od_set tid (default [] (od_get tid pc1) ++ [sample]) pc1).

Fixpoint add_samples (header : list string) (pc : odict (list record))
    (lines : list string) : result (odict (list record)) :=
  match lines with
  | [] => Ok pc
  | line :: rest => pc' ← add_sample header pc line; add_samples header pc' rest
  end.

(** Lines 34-44: the third section, a header and one row per sample. *)
Definition parse_samples (section : string) : result (odict (list record)) :=
  let lines := split nl (strip section) in
  l0 ← py_index lines 0;
  let header := split comma l0 in
  add_samples header [] (drop 1 lines).

(** [parse_csv] from the text [f.read()] returned (lines 15-45). *)
Definition parse_text (text : string) : result RunLog :=
  let content := strip text in
  let sections := split blank_line content in
  s0 ← py_index sections 0;
  meta ← parse_meta s0;
  s1 ← py_index sections 1;
  threads ← parse_threads s1;
  pc ← (if 2 <? len sections
        then s2 ← py_index sections 2; parse_samples s2
        else Ok []);
  Ok {| meta := meta; threads := threads; pc_samples := pc |}.

(** The files the process can read: [None] when [open] or [read] fails. *)
Definition filesystem : Type := string → option string.

Definition parse_csv (fs : filesystem) (filepath : string) : result RunLog :=
  match fs filepath with
  | Some text => parse_text text
  | None => Raise OSError
  end.
End Parse.

(** ** What the renderer draws *)

Inductive axes : Type :=
| Fig | Ax1a | Ax1b | Ax2a | Ax2b | Ax3a | Ax3b | Ax4a | Ax4b | Ax5.

(** A piece of an f-string: literal text, an interpolated string, or a
    number with its format specification. *)
Inductive piece : Type :=
| Lit (s : string)
| Str (s : string)
| Fmt (x : num) (spec : string).

(** A drawing call with the arguments the script computes for it.  Calls
    whose arguments are all literals (styling, axis labels, static titles
    and legends) leave no artist. *)
Inductive artist : Type :=
| Title (ax : axes) (s : list piece)
| Barh (ax : axes) (y width left : num) (color : string)
| Text (ax : axes) (x y : num) (s : list piece)
| TextAtYLim (ax : axes) (x : num) (frac : float) (s : list piece)
| Marker (ax : axes) (x y : num) (style : string)
| Line (ax : axes) (xs ys : list num) (label : list piece)
| FillBetween (ax : axes) (xs ys : list num)
| Annotate (ax : axes) (s : string) (xy xytext : num * num)
| AxHLine (ax : axes) (y : num)
| XLim (ax : axes) (lo hi : num)
| YTicks (ax : axes) (ticks : list Z)
| YTickLabels (ax : axes) (labels : list (list piece)).

(** The palette [TC]. *)
Definition TC : list string :=
  [ "#E74C3C"; "#2ECC71"; "#3498DB"; "#F39C12";
    "#9B59B6"; "#1ABC9C"; "#E67E22"; "#95A5A6";
    "#C0392B"; "#27AE60"; "#2980B9"; "#D35400";
    "#8E44AD"; "#16A085"; "#F1C40F"; "#7F8C8D" ].

Definition ACC : string := "#F39C12".

(** [range(a, b)] *)
Definition range (a b : Z) : list Z := seqZ a (b - a).

(** [enumerate(l)] *)
Definition enumerate {A : Type} (l : list A) : list (Z * A) :=
  zip (seqZ 0 (len l)) l.

(** [min(l)] and [max(l)] of a list of ints: [ValueError] when empty. *)
Definition py_min (l : list Z) : result Z :=
  match l with
  | [] => Raise ValueError
  | x :: l' => Ok (foldl Z.min x l')
  end.
Definition py_max (l : list Z) : result Z :=
  match l with
  | [] => Raise ValueError
  | x :: l' => Ok (foldl Z.max x l')
  end.

(** ** The derived metrics (lines 63-69, 437-438, 481) *)

(** [wall_seq / wall_par if wall_par > 0 else 0] *)
Definition speedup (wall_seq wall_par : float) : result num :=
  if py_gt (PyFloat wall_par) (PyInt 0)
  then py_truediv (PyFloat wall_seq) (PyFloat wall_par)
  else Ok (PyInt 0).

(** [speedup / nt * 100] *)
Definition efficiency (speedup : num) (nt : Z) : result num :=
  q ← py_truediv speedup (PyInt nt);
  py_mul q (PyInt 100).

(** [total_bytes / 1024 / 1024] *)
Definition megabytes (total_bytes : Z) : result num :=
  kb ← py_truediv (PyInt total_bytes) (PyInt 1024);
  py_truediv kb (PyInt 1024).

(** [(total_bytes / 1024 / 1024) / (wall / 1000) if wall > 0 else 0] *)
Definition throughput (total_bytes : Z) (wall : float) : result num :=
  if py_gt (PyFloat wall) (PyInt 0)
  then mb ← megabytes total_bytes;
       s ← py_truediv (PyFloat wall) (PyInt 1000);
       py_truediv mb s
  else Ok (PyInt 0).

(** [p / total_px * 100 if total_px > 0 else 0] *)
Definition percent (p total_px : Z) : result num :=
  if py_gt (PyInt total_px) (PyInt 0)
  then q ← py_truediv (PyInt p) (PyInt total_px); py_mul q (PyInt 100)
  else Ok (PyInt 0).

Record metrics : Type := {
  nt : Z;
  wall_seq : float;
  wall_par : float;
  cpu_seq : float;
  cpu_par : float;
  m_speedup : num;
  m_efficiency : num;
}.

(** ** [generate_gantt] *)

Section Render.
Context `{Builtins}.

(** [float(r[k])], [int(r[k])], [int(r[k], 16)] *)
Definition get_float (r : record) (k : string) : result float :=
  s ← py_getitem r k; conv (py_float s).
Definition get_int (r : record) (k : string) : result Z :=
  s ← py_getitem r k; conv (py_int s).
Definition get_hex (r : record) (k : string) : result Z :=
  s ← py_getitem r k; conv (py_int16 s).

(** [TC[tid % len(TC)]] *)
Definition color_of (tid : Z) : result string :=
  i ← int_mod tid (len TC); py_index TC i.

(** [[float(s['timestamp_ms']) for s in samples]] *)
Definition timestamps (samples : list record) : result (list float) :=
  rmap (fun s => get_float s "timestamp_ms") samples.

(** Lines 63-69. *)
Definition derive (seq par : RunLog) : result metrics :=
  nt ← get_int (meta par) "num_threads";
  wall_seq ← get_float (meta seq) "wall_ms";
  wall_par ← get_float (meta par) "wall_ms";
  cpu_seq ← get_float (meta seq) "total_cpu_ms";
  cpu_par ← get_float (meta par) "total_cpu_ms";
  speedup ← speedup wall_seq wall_par;
  efficiency ← efficiency speedup nt;
  Ok {| nt := nt; wall_seq := wall_seq; wall_par := wall_par;
        cpu_seq := cpu_seq; cpu_par := cpu_par;
        m_speedup := speedup; m_efficiency := efficiency |}.

(** *** Row 1: the Gantt timelines *)

(** Lines 106-123. *)
Definition row1_sequential (seq : RunLog) (m : metrics) : result (list artist) :=
  let ws := wall_seq m in
  pid ← py_getitem (meta seq) "pid";
  t0 ← py_index (threads seq) 0;
  cpu_u ← get_float t0 "cpu_user_ms";
  t0 ← py_index (threads seq) 0;
  cpu_s ← get_float t0 "cpu_sys_ms";
  Ok [ Barh Ax1a (PyInt 0) (PyFloat ws) (PyInt 0) "#E74C3C";
       Text Ax1a (PyFloat (fdiv ws (dec 2 0))) (PyInt 0)
         [Lit "Hilo Principal (PID "; Str pid; Lit ")"; Lit nl;
          Fmt (PyFloat ws) ".2f"; Lit " ms"];
       Text Ax1a (PyFloat (fadd ws (fmul ws (dec 2 2)))) (PyInt 0)
         [Lit "CPU user: "; Fmt (PyFloat cpu_u) ".1f"; Lit " ms"; Lit nl;
          Lit "CPU sys:  "; Fmt (PyFloat cpu_s) ".1f"; Lit " ms"; Lit nl;
          Lit "1 core usado"];
       XLim Ax1a (PyFloat (fmul (fneg ws) (dec 2 2)))
                 (PyFloat (fmul ws (dec 14 1))) ].

(** The body of the loop of lines 141-158. *)
Definition row1_thread (m : metrics) (t : record) : result (list artist) :=
  tid ← get_int t "thread_id";
  start ← get_float t "start_ms";
  end_ ← get_float t "end_ms";
  cpu_u ← get_float t "cpu_user_ms";
  let duration := fsub end_ start in
  c ← color_of tid;
  let y := nt m - tid in
  Ok [ Barh Ax1b (PyInt y) (PyFloat duration) (PyFloat start) c;
       Barh Ax1b (PyInt y) (PyFloat cpu_u) (PyFloat start) c;
       Text Ax1b (PyFloat (fadd start (fdiv duration (dec 2 0)))) (PyInt y)
         [Lit "H-"; Fmt (PyInt tid) ""; Lit "  ";
          Fmt (PyFloat cpu_u) ".1f"; Lit "ms"] ].

(** Lines 136-183. *)
Definition row1_parallel (par : RunLog) (m : metrics) : result (list artist) :=
  let wp := wall_par m in
  bars ← rconcat_map (row1_thread m) (threads par);
  let yticks := range 0 (nt m + 1) in
  let ylabels :=
    [Lit "Padre"]
    :: ((fun i => [Lit "Hilo "; Fmt (PyInt i) ""]) <$> reverse (range 0 (nt m))) in
  Ok ([ Title Ax1b [Lit "PARALELO — "; Fmt (PyInt (nt m)) "";
                    Lit " Hilos de Ejecución"] ]
      ++ bars
      ++ [ Barh Ax1b (PyInt 0) (PyFloat wp) (PyInt 0) ACC;
           Text Ax1b (PyFloat (fdiv wp (dec 2 0))) (PyInt 0)
             [Lit "Padre (pthread_join) — "; Fmt (PyFloat wp) ".1f"; Lit " ms"];
           XLim Ax1b (PyFloat (fmul (fneg wp) (dec 2 2)))
                     (PyFloat (fmul wp (dec 11 1)));
           YTicks Ax1b yticks;
           YTickLabels Ax1b ylabels;
           Text Fig (PyFloat (dec 5 1)) (PyFloat (dec 88 2))
             [Lit "Speedup: "; Fmt (m_speedup m) ".2f"; Lit "x"] ]).

(** *** Row 2: the scheduler's CPU assignment *)

(** Lines 204-214: the bar of core 0 and the sparse sampling ticks, drawn
    only when thread 0 of the sequential log has samples. *)
Definition sampling_ticks (seq : RunLog) (m : metrics) : result (list artist) :=
  match od_get 0 (pc_samples seq) with
  | Some samples =>
      times ← timestamps samples;
      marks ← rconcat_map
        (fun it : Z * float =>
           step ← int_floordiv (len times) 20;
           r ← int_mod it.1 (step + 1);
           Ok (if r =? 0
               then [Marker Ax2a (PyFloat it.2) (PyInt 0) "|"]
               else []))
        (enumerate times);
      Ok (Barh Ax2a (PyInt 0) (PyFloat (wall_seq m)) (PyInt 0) "#E74C3C" :: marks)
  | None => Ok []
  end.

(** Lines 199-238. *)
Definition row2_sequential (seq : RunLog) (m : metrics) : result (list artist) :=
  let ws := wall_seq m in
  ticks ← sampling_ticks seq m;
  idle ← rmap
    (fun core =>
       d ← py_mul (PyInt core) (PyFloat (dec 15 2));
       y ← py_sub (PyFloat (fneg (dec 2 1))) d;
       Ok (Barh Ax2a y (PyFloat ws) (PyInt 0) "#333"))
    (range 1 (Z.min (nt m) 4));
  Ok (ticks
      ++ [ XLim Ax2a (PyFloat (fmul (fneg ws) (dec 2 2)))
                     (PyFloat (fmul ws (dec 105 2)));
           Text Ax2a (PyFloat (fmul ws (dec 5 1))) (PyFloat (dec 9 1))
             [Lit "Un solo hilo ocupa 1 core durante ";
              Fmt (PyFloat ws) ".1f"; Lit " ms"; Lit nl;
              Lit "Los otros "; Fmt (PyInt (nt m - 1)) "";
              Lit " cores permanecen OCIOSOS"] ]
      ++ idle).

(** Line 266:
    [(times[-1] - times[0]) / len(times) if len(times) > 1 else gap] *)
Definition average (times : list float) (gap : num) : result num :=
  if 1 <? len times
  then tl ← py_index times (-1);
       t0 ← py_index times 0;
       py_truediv (PyFloat (fsub tl t0)) (PyInt (len times))
  else Ok gap.

(** The body of the loop of lines 264-272 at index [j]. *)
Definition context_switch (times : list float) (core : Z) (j : Z)
  : result (list artist) :=
  tj ← py_index times j;
  tj1 ← py_index times (j - 1);
  let gap := PyFloat (fsub tj tj1) in
  avg ← average times gap;
  avg4 ← py_mul avg (PyInt 4);
  if py_gt gap avg4 && py_gt avg (PyInt 0)
  then
    let mid := fdiv (fadd tj1 tj) (dec 2 0) in
    y ← py_add (PyInt core) (PyFloat (dec 35 2));
    ytext ← py_add (PyInt core) (PyFloat (dec 42 2));
    Ok [ Annotate Ax2b "" (PyFloat tj, y) (PyFloat tj1, y);
         Text Ax2b (PyFloat mid) ytext [Lit "CS"] ]
  else Ok [].

(** Lines 261-272: the context-switch markers of one thread. *)
Definition context_switches (par : RunLog) (tid core : Z) : result (list artist) :=
  match od_get tid (pc_samples par) with
  | Some samples =>
      times ← timestamps samples;
      rconcat_map (context_switch times core) (range 1 (len times))
  | None => Ok []
  end.

(** The body of the loop of lines 246-272. *)
Definition row2_thread (par : RunLog) (m : metrics) (t : record)
  : result (list artist) :=
  tid ← get_int t "thread_id";
  start ← get_float t "start_ms";
  end_ ← get_float t "end_ms";
  c ← color_of tid;
  core ← int_mod tid (nt m);
  cs ← context_switches par tid core;
  Ok ([ Barh Ax2b (PyInt core) (PyFloat (fsub end_ start)) (PyFloat start) c;
        Text Ax2b (PyFloat (fadd start (fdiv (fsub end_ start) (dec 2 0))))
          (PyInt core) [Lit "H-"; Fmt (PyInt tid) ""] ]
      ++ cs).

(** Lines 241-290. *)
Definition row2_parallel (par : RunLog) (m : metrics) : result (list artist) :=
  let wp := wall_par m in
  bars ← rconcat_map (row2_thread par m) (threads par);
  y ← py_sub (PyInt (nt m)) (PyFloat (dec 3 1));
  Ok ([ Title Ax2b [Lit "PARALELO — Asignación de CPU por el Scheduler (";
                    Fmt (PyInt (nt m)) ""; Lit " cores)"] ]
      ++ bars
      ++ [ XLim Ax2b (PyFloat (fmul (fneg wp) (dec 2 2)))
                     (PyFloat (fmul wp (dec 105 2)));
           YTicks Ax2b (range 0 (nt m));
           YTickLabels Ax2b
             ((fun i => [Lit "Core "; Fmt (PyInt i) ""]) <$> range 0 (nt m));
           Text Ax2b (PyFloat (fmul wp (dec 5 1))) y
             [Fmt (PyInt (nt m)) ""; Lit " hilos distribuidos en ";
              Fmt (PyInt (nt m)) ""; Lit " cores por el planificador"; Lit nl;
              Lit "CS = Context Switch (cambio de contexto detectado)"] ]).

(** *** Row 3: the program counter over time *)

(** [[int(s['pc_addr'], 16) for s in samples]] *)
Definition pc_addrs (samples : list record) : result (list Z) :=
  rmap (fun s => get_hex s "pc_addr") samples.

(** Lines 303-335, drawn only when thread 0 of the sequential log has
    samples. *)
Definition pc_sequential (seq : RunLog) (m : metrics) : result (list artist) :=
  let ws := wall_seq m in
  match od_get 0 (pc_samples seq) with
  | Some samples =>
      times ← timestamps samples;
      pcs_raw ← pc_addrs samples;
      pc_base ← py_min pcs_raw;
      let pcs_offset := (fun p => p - pc_base) <$> pcs_raw in
      let xs := PyFloat <$> times in
      let ys := PyInt <$> pcs_offset in
      t0 ← py_index times 0;
      o0 ← py_index pcs_offset 0;
      tl ← py_index times (-1);
      ol ← py_index pcs_offset (-1);
      mx ← py_max pcs_offset;
      up ← py_mul (PyInt mx) (PyFloat (dec 3 1));
      y0 ← py_add (PyInt o0) up;
      down ← py_mul (PyInt mx) (PyFloat (dec 2 1));
      yl ← py_sub (PyInt ol) down;
      ybox ← py_mul (PyInt mx) (PyFloat (dec 85 2));
      th ← py_index (threads seq) 0;
      tid ← py_getitem th "tid";
      top ← py_max pcs_raw;
      th ← py_index (threads seq) 0;
      stack ← py_getitem th "stack_addr";
      Ok [ Line Ax3a xs ys [];
           FillBetween Ax3a xs ys;
           Marker Ax3a (PyFloat t0) (PyInt o0) "o";
           Marker Ax3a (PyFloat tl) (PyInt ol) "s";
           Annotate Ax3a ("INICIO" +:+ nl +:+ "PC = rle_compress()")
             (PyFloat t0, PyInt o0)
             (PyFloat (fadd t0 (fmul ws (dec 15 2))), y0);
           Annotate Ax3a ("FIN" +:+ nl +:+ "return")
             (PyFloat tl, PyInt ol)
             (PyFloat (fsub tl (fmul ws (dec 15 2))), yl);
           Text Ax3a (PyFloat (fmul ws (dec 7 1))) ybox
             [Lit "TCB del Hilo Principal:"; Lit nl;
              Lit "  TID:    "; Str tid; Lit nl;
              Lit "  Estado: RUNNING"; Lit nl;
              Lit "  PC:     0x"; Fmt (PyInt pc_base) "X"; Lit " → 0x";
              Fmt (PyInt top) "X"; Lit nl;
              Lit "  Stack:  "; Str stack] ]
  | None => Ok []
  end.

(** Lines 353-361: the smallest address over all threads' samples, 0 when
    there is none.  [base] is [None] while [all_pc_base is None]. *)
Fixpoint all_pc_base_from (base : option Z) (pc : odict (list record))
  : result Z :=
  match pc with
  | [] => Ok (default 0 base)
  | (tid_k, samples) :: pc' =>
      pcs ← pc_addrs samples;
      match pcs with
      | [] => all_pc_base_from base pc'
      | _ :: _ =>
          mn ← py_min pcs;
          let base' :=
            match base with
            | None => Some mn
            | Some b => if mn <? b then Some mn else Some b
            end in
          all_pc_base_from base' pc'
      end
  end.
Definition all_pc_base (par : RunLog) : result Z :=
  all_pc_base_from None (pc_samples par).

(** Lines 367-378: the curve of one thread, drawn only when the thread
    has samples. *)
Definition pc_curve (par : RunLog) (all_pc_base : Z) (t : record) (tid : Z)
  : result (list artist) :=
  match od_get tid (pc_samples par) with
  | Some samples =>
      times ← timestamps samples;
      pcs_raw ← pc_addrs samples;
      let pcs_offset := (fun p => p - all_pc_base) <$> pcs_raw in
      os_tid ← py_getitem t "tid";
      t0 ← py_index times 0;
      o0 ← py_index pcs_offset 0;
      tl ← py_index times (-1);
      ol ← py_index pcs_offset (-1);
      Ok [ Line Ax3b (PyFloat <$> times) (PyInt <$> pcs_offset)
             [Lit "H-"; Fmt (PyInt tid) ""; Lit " (TID "; Str os_tid; Lit ")"];
           Marker Ax3b (PyFloat t0) (PyInt o0) "o";
           Marker Ax3b (PyFloat tl) (PyInt ol) "s" ]
  | None => Ok []
  end.

(** The body of the loop of lines 363-378. *)
Definition pc_thread (par : RunLog) (all_pc_base : Z) (t : record)
  : result (list artist) :=
  tid ← get_int t "thread_id";
  c ← color_of tid;
  pc_curve par all_pc_base t tid.

(** Lines 347-399. *)
Definition row3_parallel (par : RunLog) (m : metrics) : result (list artist) :=
  base ← all_pc_base par;
  lines ← rconcat_map (pc_thread par base) (threads par);
  Ok ([ Title Ax3b [Lit "PARALELO — Evolución del PCI (";
                    Fmt (PyInt (nt m)) ""; Lit " hilos simultáneos)"; Lit nl;
                    Lit "Cada hilo tiene su propio PC en el TCB"] ]
      ++ lines
      ++ [ TextAtYLim Ax3b (PyFloat (fmul (wall_par m) (dec 65 2))) (dec 4 1)
             [Lit "Todos los hilos ejecutan"; Lit nl;
              Lit "rle_thread_func() pero cada"; Lit nl;
              Lit "TCB tiene su propio PC apuntando"; Lit nl;
              Lit "a una posición diferente del código"] ]).

(** *** Row 4: progress and throughput *)

(** [[int(s['pixels_at']) for s in samples]] then
    [[p / total_px * 100 if total_px > 0 else 0 for p in pixels]] *)
Definition progress (samples : list record) (total_px : Z) : result (list num) :=
  pixels ← rmap (fun s => get_int s "pixels_at") samples;
  rmap (fun p => percent p total_px) pixels.

(** Lines 411-423, drawn only when thread 0 of the sequential log has
    samples. *)
Definition progress_sequential (seq : RunLog) (m : metrics) : result (list artist) :=
  match od_get 0 (pc_samples seq) with
  | Some samples =>
      times ← timestamps samples;
      t0 ← py_index (threads seq) 0;
      total_px ← get_int t0 "pixels";
      pct ← progress samples total_px;
      Ok [ FillBetween Ax4a (PyFloat <$> times) pct;
           Line Ax4a (PyFloat <$> times) pct [Lit "Hilo 0 (único)"];
           AxHLine Ax4a (PyInt 100);
           Text Ax4a (PyFloat (fmul (wall_seq m) (dec 95 2))) (PyInt 102)
             [Lit "100%"] ]
  | None => Ok []
  end.

(** Lines 406-445; also returns [total_bytes], which row 4B reuses. *)
Definition row4_sequential (seq : RunLog) (m : metrics)
  : result (list artist * Z) :=
  let ws := wall_seq m in
  curve ← progress_sequential seq m;
  t0 ← py_index (threads seq) 0;
  px ← get_int t0 "pixels";
  let total_bytes := px * 3 in
  throughput_seq ← throughput total_bytes ws;
  mb ← megabytes total_bytes;
  Ok (curve
      ++ [ Text Ax4a (PyFloat (fmul ws (dec 5 1))) (PyInt 55)
             [Lit "Throughput: "; Fmt throughput_seq ".0f"; Lit " MB/s"; Lit nl;
              Lit "1 hilo procesa "; Fmt mb ".1f"; Lit " MB"; Lit nl;
              Lit "en "; Fmt (PyFloat ws) ".1f"; Lit " ms"] ],
      total_bytes).

(** Lines 458-464: the curve of one thread, drawn only when the thread
    has samples. *)
Definition progress_curve (par : RunLog) (tid total_px : Z)
  : result (list artist) :=
  match od_get tid (pc_samples par) with
  | Some samples =>
      times ← timestamps samples;
      pct ← progress samples total_px;
      Ok [ Line Ax4b (PyFloat <$> times) pct [Lit "H-"; Fmt (PyInt tid) ""] ]
  | None => Ok []
  end.

(** The body of the loop of lines 453-464. *)
Definition progress_thread (par : RunLog) (t : record) : result (list artist) :=
  tid ← get_int t "thread_id";
  c ← color_of tid;
  total_px ← get_int t "pixels";
  progress_curve par tid total_px.

(** Lines 448-488. *)
Definition row4_parallel (par : RunLog) (m : metrics) (total_bytes : Z)
  : result (list artist) :=
  let wp := wall_par m in
  curves ← rconcat_map (progress_thread par) (threads par);
  throughput_par ← throughput total_bytes wp;
  mb ← megabytes total_bytes;
  Ok ([ Title Ax4b [Lit "PARALELO — Progreso de Compresión (";
                    Fmt (PyInt (nt m)) ""; Lit " hilos)"] ]
      ++ curves
      ++ [ AxHLine Ax4b (PyInt 100);
           Text Ax4b (PyFloat (fmul wp (dec 95 2))) (PyInt 102) [Lit "100%"];
           Text Ax4b (PyFloat (fmul wp (dec 5 1))) (PyInt 55)
             [Lit "Throughput: "; Fmt throughput_par ".0f"; Lit " MB/s"; Lit nl;
              Fmt (PyInt (nt m)) ""; Lit " hilos procesan "; Fmt mb ".1f";
              Lit " MB"; Lit nl;
              Lit "en "; Fmt (PyFloat wp) ".1f"; Lit " ms  (";
              Fmt (m_speedup m) ".1f"; Lit "x más rápido)"] ]).

(** *** Row 5: the concept summary *)

(** The list [concepts] of lines 505-525: label, sequential text,
    parallel text. *)
Definition concepts (seq : RunLog) (m : metrics)
  : result (list (string * list piece * list piece)) :=
  let n := Fmt (PyInt (nt m)) "" in
  pid ← py_getitem (meta seq) "pid";
  Ok [ ("HILOS (Threads)",
        [Lit "1 hilo (main) ejecuta todo"],
        [n; Lit " hilos worker + 1 padre"]);
       ("PLANIFICADOR (Scheduler)",
        [Lit "Asigna 1 core, los demás ociosos"],
        [Lit "Distribuye "; n; Lit " hilos en "; n; Lit " cores"]);
       ("PCI (Program Counter)",
        [Lit "Avanza linealmente por rle_compress()"],
        [n; Lit " PCs avanzan simultáneamente"]);
       ("PCB / TCB",
        [Lit "1 PCB: PID="; Str pid; Lit ", 1 TID"],
        [Lit "1 PCB + "; n; Lit " TCBs con TID, PC, stack propios"]);
       ("CAMBIO DE CONTEXTO",
        [Lit "Mínimos (1 hilo en 1 core)"],
        [Lit "El SO conmuta hilos entre cores"]);
       ("CONCURRENCIA",
        [Lit "No hay: ejecución estrictamente secuencial"],
        [Lit "Hilos comparten TEXT/DATA, buffers privados"]) ].

(** The body of the loop of lines 527-539. *)
Definition concept_row (ic : Z * (string * list piece * list piece))
  : result (list artist) :=
  let '(i, (label, sec_val, par_val)) := ic in
  let left_x := dec 3 1 in
  let right_x := dec 53 1 in
  d ← py_mul (PyInt i) (PyFloat (dec 48 2));
  y ← py_sub (PyFloat (dec 30 1)) d;
  y' ← py_sub y (PyFloat (dec 18 2));
  Ok [ Text Ax5 (PyFloat left_x) y [Str label; Lit ":"];
       Text Ax5 (PyFloat (fadd left_x (dec 5 2))) y' (Lit "SEC: " :: sec_val);
       Text Ax5 (PyFloat right_x) y [Str label; Lit ":"];
       Text Ax5 (PyFloat (fadd right_x (dec 5 2))) y' (Lit "PAR: " :: par_val) ].

(** Lines 493-549. *)
Definition row5 (seq : RunLog) (m : metrics) : result (list artist) :=
  cs ← concepts seq m;
  rows ← rconcat_map concept_row (enumerate cs);
  Ok (rows
      ++ [ Text Ax5 (PyInt 5) (PyFloat (dec 25 2))
             [Lit "Wall: "; Fmt (PyFloat (wall_seq m)) ".1f"; Lit "ms vs ";
              Fmt (PyFloat (wall_par m)) ".1f"; Lit "ms  |  ";
              Lit "Speedup: "; Fmt (m_speedup m) ".2f"; Lit "x  |  ";
              Lit "Eficiencia: "; Fmt (m_efficiency m) ".1f"; Lit "%  |  ";
              Lit "CPU total: "; Fmt (PyFloat (cpu_seq m)) ".1f"; Lit "ms vs ";
              Fmt (PyFloat (cpu_par m)) ".1f"; Lit "ms"] ]).

(** *** The whole figure (lines 63-549) *)

Definition render (seq par : RunLog) : result (list artist) :=
  m ← derive seq par;
  a1a ← row1_sequential seq m;
  a1b ← row1_parallel par m;
  a2a ← row2_sequential seq m;
  a2b ← row2_parallel par m;
  a3a ← pc_sequential seq m;
  a3b ← row3_parallel par m;
  a4a ← row4_sequential seq m;
  a4b ← row4_parallel par m a4a.2;
  a5 ← row5 seq m;
  Ok (a1a ++ a1b ++ a2a ++ a2b ++ a3a ++ a3b ++ a4a.1 ++ a4b ++ a5).

(** *** The process: what it reads, writes and prints *)

Inductive event : Type :=
| Open (path : string)                       (* open(path, 'r') *)
| SaveFig (path : string) (fig : list artist) (* plt.savefig(path, ...) *)
| Print (s : list piece).

Record world : Type := {
  matplotlib_installed : bool;
  files : filesystem;
}.

(** A run: the events in order and how it ended. *)
Definition run : Type := list event * result unit.

(** Lines 48-555. *)
Definition generate_gantt (w : world) (seq_csv par_csv output_path : string)
  : run :=
  if negb (matplotlib_installed w)
  then ([Print [Lit "Error: pip3 install matplotlib"]], Raise (SystemExit 1))
  else
    match parse_csv (files w) seq_csv with
    | Raise e => ([Open seq_csv], Raise e)
    | Ok seq =>
        match parse_csv (files w) par_csv with
        | Raise e => ([Open seq_csv; Open par_csv], Raise e)
        | Ok par =>
            match render seq par with
            | Raise e => ([Open seq_csv; Open par_csv], Raise e)
            | Ok fig =>
                ([ Open seq_csv; Open par_csv; SaveFig output_path fig;
                   Print [Lit nl; Lit "  Diagrama de Gantt generado: ";
                          Str output_path] ],
                 Ok ())
            end
        end
    end.

(** Lines 558-562, [argv] being [sys.argv]. *)
Definition main (w : world) (argv : list string) : run :=
  if len argv <? 4
  then
    match py_index argv 0 with
    | Ok prog =>
        ([Print [Lit "Uso: "; Str prog;
                 Lit " <csv_secuencial> <csv_paralelo> <output.png>"]],
         Raise (SystemExit 1))
    | Raise e => ([], Raise e)
    end
  else
    match py_index argv 1, py_index argv 2, py_index argv 3 with
    | Ok a1, Ok a2, Ok a3 => generate_gantt w a1 a2 a3
    | _, _, _ => ([], Raise IndexError)
    end.

(** The exit status of the process. *)
Definition exit_status (r : run) : Z :=
  match r.2 with
  | Ok _ => 0
  | Raise (SystemExit code) => code
  | Raise _ => 1
  end.

Definition opened (r : run) : list string :=
  omap (fun ev => match ev with Open p => Some p | _ => None end) r.1.

Definition saved (r : run) : list string :=
  omap (fun ev => match ev with SaveFig p _ => Some p | _ => None end) r.1.
End Render.

(** ** A reference instance of the builtins

    Plain numerals only: an optional sign and decimal digits for [int(s)],
    the same with an optional fraction for [float(s)], hexadecimal digits
    with an optional [0x] for [int(s, 16)].  Python accepts more spellings
    (underscores, exponents, [inf], [nan]); the instance serves to run the
    model on concrete logs, the theorems hold for every instance. *)

Module Reference.

Definition digit (c : ascii) : option Z :=
  let n := Z.of_N (N_of_ascii c) in
  if (48 <=? n) && (n <=? 57) then Some (n - 48) else None.

Definition hexdigit (c : ascii) : option Z :=
  let n := Z.of_N (N_of_ascii c) in
  if (48 <=? n) && (n <=? 57) then Some (n - 48)
  else if (97 <=? n) && (n <=? 102) then Some (n - 87)
  else if (65 <=? n) && (n <=? 70) then Some (n - 55)
  else None.

(** The value of a non-empty run of digits in base [b], after [acc]. *)
Fixpoint digits (d : ascii → option Z) (b acc : Z) (s : string) : option Z :=
  match s with
  | EmptyString => Some acc
  | String c s' =>
      match d c with
      | Some v => digits d b (b * acc + v) s'
      | None => None
      end
  end.

Definition natural (d : ascii → option Z) (b : Z) (s : string) : option Z :=
  match s with
  | EmptyString => None
  | _ => digits d b 0 s
  end.

Definition signed {A : Type} (neg : A → A) (body : string → option A)
    (s : string) : option A :=
  match s with
  | String "-" s' => neg <$> body s'
  | String "+" s' => body s'
  | _ => body s
  end.

Definition int10 (s : string) : option Z := signed Z.opp (natural digit 10) s.

Definition int16 (s : string) : option Z :=
  signed Z.opp
    (fun s => match s with
              | String "0" (String "x" s') => natural hexdigit 16 s'
              | _ => natural hexdigit 16 s
              end) s.

(** [whole.frac] as [(digits of whole and frac) * 10^-length frac]. *)
Definition decimal (s : string) : option float :=
  match split "." s with
  | [whole] => (fun m => dec m 0) <$> natural digit 10 whole
  | [whole; frac] =>
      (fun m => dec m (String.length frac)) <$> natural digit 10 (whole +:+ frac)
  | _ => None
  end.

Definition float10 (s : string) : option float := signed fneg decimal s.

#[export] Instance builtins : Builtins :=
  {| py_int := int10; py_float := float10; py_int16 := int16 |}.

End Reference.


(** ** Example logs *)

Definition text_of (lines : list string) : string :=
  foldr (fun l rest => l +:+ nl +:+ rest) "" lines.

(** The metadata section of the round-trip example. *)
Definition meta_example : string :=
  text_of ["pid,wall_ms,total_cpu_ms"; "123,45.5,40.2"].

(** The thread table of the order-and-mapping example. *)
Definition threads_example : string :=
  text_of ["thread_id,tid,start_ms,end_ms"; "0,1001,0.0,10.0"; "1,1002,0.0,12.0"].

(** A sample trace whose rows of threads 0 and 1 are interleaved. *)
Definition samples_example : string :=
  text_of
    [ "thread_id,timestamp_ms,pc_addr,pixels_at";
      "0,0.0,0x1000,0"; "1,0.5,0x2000,0"; "0,1.0,0x1010,10"; "1,1.5,0x2010,20" ].

(** A sequential log with one thread and a sample trace. *)
Definition seq_log : string :=
  text_of
    [ "pid,wall_ms,total_cpu_ms"; "123,45.5,40.2"; "";
      "thread_id,tid,start_ms,end_ms,cpu_user_ms,cpu_sys_ms,pixels,stack_addr";
      "0,1001,0.0,45.5,40.0,0.2,1000000,0x7ffd"; "";
      "thread_id,timestamp_ms,pc_addr,pixels_at";
      "0,0.0,0x1000,0"; "0,10.0,0x1010,250000"; "0,45.0,0x1004,1000000" ].

(** A parallel log with two threads whose samples are interleaved. *)
Definition par_log : string :=
  text_of
    [ "pid, num_threads ,wall_ms,total_cpu_ms"; "124,2,25.0,44.0"; "";
      "thread_id,tid,start_ms,end_ms,cpu_user_ms,cpu_sys_ms,pixels,stack_addr";
      "0,1001,0.0,20.0,19.0,0.2,500000,0x7ffd";
      "1,1002,0.5,25.0,20.0,0.2,500000,0x7ffe"; "";
      "thread_id,timestamp_ms,pc_addr,pixels_at";
      "0,0.0,0x1000,0"; "1,0.5,0x1000,0"; "0,1.0,0x1010,250000";
      "1,1.5,0x1010,250000"; "0,2.0,0x1010,250000"; "0,3.0,0x1010,250000";
      "0,4.0,0x1010,250000"; "0,5.0,0x1010,250000"; "0,6.0,0x1010,250000";
      "0,60.0,0x1004,1000000"; "1,20.0,0x1010,250000" ].

(** The same two logs without their third section. *)
Definition seq_log_no_samples : string :=
  text_of
    [ "pid,wall_ms,total_cpu_ms"; "123,45.5,40.2"; "";
      "thread_id,tid,start_ms,end_ms,cpu_user_ms,cpu_sys_ms,pixels,stack_addr";
      "0,1001,0.0,45.5,40.0,0.2,1000000,0x7ffd" ].

Definition par_log_no_samples : string :=
  text_of
    [ "pid,num_threads,wall_ms,total_cpu_ms"; "124,2,25.0,44.0"; "";
      "thread_id,tid,start_ms,end_ms,cpu_user_ms,cpu_sys_ms,pixels,stack_addr";
      "0,1001,0.0,20.0,19.0,0.2,500000,0x7ffd";
      "1,1002,0.5,25.0,20.0,0.2,500000,0x7ffe" ].

(** A sequential log whose thread table has a header and no row. *)
Definition seq_log_no_threads : string :=
  text_of
    [ "pid,wall_ms,total_cpu_ms"; "123,45.5,40.2"; "";
      "thread_id,tid,start_ms,end_ms,cpu_user_ms,cpu_sys_ms,pixels,stack_addr" ].

(** The log a text parses to under the reference builtins (an empty log
    when the parse raises). *)
Definition parsed (text : string) : RunLog :=
  match parse_text (H := Reference.builtins) text with
  | Ok log => log
  | Raise _ => {| meta := ∅; threads := []; pc_samples := [] |}
  end.

Definition example_files : filesystem := fun path =>
  if String.eqb path "seq.csv" then Some seq_log
  else if String.eqb path "par.csv" then Some par_log
  else if String.eqb path "seq2.csv" then Some seq_log_no_samples
  else if String.eqb path "par2.csv" then Some par_log_no_samples
  else if String.eqb path "seq3.csv" then Some seq_log_no_threads
  else None.

Definition example_world : world :=
  {| matplotlib_installed := true; files := example_files |}.

(** The same files on a machine without matplotlib. *)
Definition bare_world : world :=
  {| matplotlib_installed := false; files := example_files |}.

(** The metadata of a pair of runs with speedup 4 on 4 threads, and of a
    parallel run that reports no thread at all. *)
Definition seq_100 : RunLog :=
  {| meta := {[ "pid" := "1"; "wall_ms" := "100.0"; "total_cpu_ms" := "99.0" ]};
     threads := []; pc_samples := [] |}.
Definition par_25 (num_threads : string) : RunLog :=
  {| meta := {[ "pid" := "2"; "num_threads" := num_threads; "wall_ms" := "25.0";
                "total_cpu_ms" := "98.0" ]};
     threads := []; pc_samples := [] |}.

(** ** Definitions used to state the properties *)

(** The assignments of [zip_record], started from any dictionary. *)
Definition assign (d : record) (l : list (string * string)) : record :=
  foldl (fun d kv => <[strip kv.1 := strip kv.2]> d) d l.

(** A finite, non-zero float of sign [s]. *)
Definition finite_with (s : bool) (f : float) : Prop :=
  ∃ m e, f = S754_finite s m e.

(** The context-switch rule as the specification words it, on the list of
    a thread's timestamps: the gap before sample [j] exceeds 4 times the
    average gap, and the average is positive, where the average is
    [(last - first) / number of samples]. *)
Definition at_index (times : list float) (j : Z) : float :=
  default fzero (times !! Z.to_nat j).

Definition average_gap (times : list float) : float :=
  fdiv (fsub (default fzero (last times)) (default fzero (head times)))
       (int_as_float (len times)).

Definition is_context_switch (times : list float) (j : Z) : bool :=
  let gap := fsub (at_index times j) (at_index times (j - 1)) in
  fltb (fmul (average_gap times) (dec 4 0)) gap && fltb fzero (average_gap times).

(** The arrow and the label "CS" between samples [j - 1] and [j]. *)
Definition cs_marker (times : list float) (core : Z) (j : Z) : list artist :=
  let tj := at_index times j in
  let tj1 := at_index times (j - 1) in
  let y := PyFloat (fadd (int_as_float core) (dec 35 2)) in
  [ Annotate Ax2b "" (PyFloat tj, y) (PyFloat tj1, y);
    Text Ax2b (PyFloat (fdiv (fadd tj1 tj) (dec 2 0)))
      (PyFloat (fadd (int_as_float core) (dec 42 2))) [Lit "CS"] ].

(** The throughput as the specification words it: [total_bytes / 1_048_576]
    over [wall / 1000], and 0 when [wall] is 0.  Only used to compare with
    [throughput]. *)
Definition throughput_claimed (total_bytes : Z) (wall : float) : result num :=
  if feqb wall fzero then Ok (PyInt 0)
  else mb ← py_truediv (PyInt total_bytes) (PyInt 1048576);
       s ← py_truediv (PyFloat wall) (PyInt 1000);
       py_truediv mb s.

(** The text of the throughput annotation of panel 4A. *)
Definition throughput_text_sequential (ws : float) (v mb : num) : artist :=
  Text Ax4a (PyFloat (fmul ws (dec 5 1))) (PyInt 55)
    [Lit "Throughput: "; Fmt v ".0f"; Lit " MB/s"; Lit nl;
     Lit "1 hilo procesa "; Fmt mb ".1f"; Lit " MB"; Lit nl;
     Lit "en "; Fmt (PyFloat ws) ".1f"; Lit " ms"].

(** The text of the throughput annotation of panel 4B. *)
Definition throughput_text_parallel (m : metrics) (v mb : num) : artist :=
  Text Ax4b (PyFloat (fmul (wall_par m) (dec 5 1))) (PyInt 55)
    [Lit "Throughput: "; Fmt v ".0f"; Lit " MB/s"; Lit nl;
     Fmt (PyInt (nt m)) ""; Lit " hilos procesan "; Fmt mb ".1f";
     Lit " MB"; Lit nl;
     Lit "en "; Fmt (PyFloat (wall_par m)) ".1f"; Lit " ms  (";
     Fmt (m_speedup m) ".1f"; Lit "x más rápido)"].

Section Statements.
Context `{Builtins}.

(** [int(sample['thread_id'])] for the row [line] under [header]. *)
Definition row_tid (header : list string) (line : string) : result Z :=
  get_int (zip_record header (split comma line)) "thread_id".

(** The records of the rows of thread [t], in the order of the rows. *)
Definition samples_of (header : list string) (rows : list string) (t : Z)
  : list record :=
  omap (fun line =>
          match row_tid header line with
          | Ok tid => if tid =? t then Some (zip_record header (split comma line))
                      else None
          | Raise _ => None
          end) rows.

(** The field [k] of [t] is missing, or holds a text that [conv] does not
    read as a number. *)
Definition lacks_number {A : Type} (conv : string → option A) (t : record)
    (k : string) : Prop :=
  match t !! k with
  | None => True
  | Some s => conv s = None
  end.

(** The sequential log has no thread, or its first thread lacks one of the
    numbers the renderer reads from it. *)
Definition first_thread_unusable (seq : RunLog) : Prop :=
  match threads seq with
  | [] => True
  | t0 :: _ =>
      lacks_number py_float t0 "cpu_user_ms"
      ∨ lacks_number py_float t0 "cpu_sys_ms"
      ∨ lacks_number py_int t0 "pixels"
  end.

End Statements.

(** ** Definitions used to state further properties *)

(** A string without leading or trailing whitespace. *)
Definition stripped (s : string) : Prop := strip s = s.

(** The number of samples held by [pc_samples], over all threads. *)
Definition sample_count (pc : odict (list record)) : nat :=
  sum_list (length <$> pc.*2).


(** A log whose metadata field [k] is set to [v]. *)
Definition set_meta (log : RunLog) (k v : string) : RunLog :=
  {| meta := <[k := v]> (meta log);
     threads := threads log;
     pc_samples := pc_samples log |}.

(** The exceptions that the computations of the script can raise, as
    opposed to [OSError] (reading a file) and [SystemExit]. *)
Definition script_error (e : exn) : Prop :=
  match e with
  | IndexError | KeyError _ | ValueError | ZeroDivisionError | OverflowError => True
  | OSError | SystemExit _ => False
  end.

(** [m] raises nothing but exceptions among [P]. *)
Definition raises_only {A : Type} (P : exn → Prop) (m : result A) : Prop :=
  ∀ e, m = Raise e → P e.

(** No thread of [pc_samples] has an empty list of samples. *)
Definition samples_nonempty (log : RunLog) : Prop :=
  ∀ k l, od_get k (pc_samples log) = Some l → l ≠ [].

(** *** Further example logs *)

(** A third section whose header names no [thread_id]. *)
Definition samples_untagged : string :=
  text_of ["timestamp_ms,pc_addr,pixels_at"; "0.0,0x1000,0"].

(** A log whose sample trace has no [thread_id] column. *)
Definition log_untagged : string :=
  text_of
    [ "pid,wall_ms"; "123,45.5"; "";
      "thread_id,tid"; "0,1001"; "";
      "timestamp_ms,pc_addr,pixels_at"; "0.0,0x1000,0" ].

(** A small log with padded fields and interleaved samples. *)
Definition log_small : string :=
  text_of
    [ " pid , wall_ms "; " 1 , 2.0 "; "";
      "thread_id"; "0"; "";
      "thread_id,timestamp_ms"; "0,0.0"; "1,0.5"; "0,1.0" ].

(** The same log followed by a fourth section. *)
Definition log_small_with_notes : string := log_small +:+ nl +:+ "notes".

Definition edge_files : filesystem := fun path =>
  if String.eqb path "blank.csv" then Some "  "
  else if String.eqb path "meta.csv" then Some meta_example
  else if String.eqb path "untagged.csv" then Some log_untagged
  else if String.eqb path "small.csv" then Some log_small
  else if String.eqb path "notes.csv" then Some log_small_with_notes
  else None.



(** The metrics of a pair of runs with speedup 4 on 2 threads. *)
Definition metrics_2 : metrics :=
  {| nt := 2; wall_seq := dec 100 0; wall_par := dec 25 0;
     cpu_seq := dec 99 0; cpu_par := dec 98 0;
     m_speedup := PyFloat (dec 4 0); m_efficiency := PyFloat (dec 200 0) |}.

(** A parallel log built by hand: two threads without samples. *)
Definition par_two_threads : RunLog :=
  {| meta := {[ "num_threads" := "2"; "wall_ms" := "25.0"; "total_cpu_ms" := "98.0" ]};
     threads :=
       [ {[ "thread_id" := "0"; "start_ms" := "0.0"; "end_ms" := "20.0";
            "cpu_user_ms" := "19.0" ]};
         {[ "thread_id" := "1"; "start_ms" := "0.5"; "end_ms" := "25.0";
            "cpu_user_ms" := "20.0" ]} ];
     pc_samples := [] |}.

(** The metadata of a sequential run that records no [pid]. *)
Definition seq_no_pid : RunLog :=
  {| meta := {[ "wall_ms" := "100.0"; "total_cpu_ms" := "99.0" ]};
     threads := []; pc_samples := [] |}.

(** *** Logs built by hand for the rendering examples *)

(** A sequential log without samples that the renderer accepts. *)
Definition seq_plain : RunLog :=
  {| meta := {[ "pid" := "1"; "wall_ms" := "100.0"; "total_cpu_ms" := "99.0" ]};
     threads :=
       [ {[ "thread_id" := "0"; "tid" := "1001"; "cpu_user_ms" := "90.0";
            "cpu_sys_ms" := "1.0"; "pixels" := "1000"; "stack_addr" := "0x7ffd" ]} ];
     pc_samples := [] |}.

(** The two threads of a parallel run. *)
Definition thread_0 : record :=
  {[ "thread_id" := "0"; "tid" := "1001"; "start_ms" := "0.0"; "end_ms" := "20.0";
     "cpu_user_ms" := "19.0"; "pixels" := "500" ]}.
Definition thread_1 : record :=
  {[ "thread_id" := "1"; "tid" := "1002"; "start_ms" := "0.5"; "end_ms" := "25.0";
     "cpu_user_ms" := "20.0"; "pixels" := "500" ]}.

Definition meta_par : record :=
  {[ "num_threads" := "2"; "wall_ms" := "25.0"; "total_cpu_ms" := "98.0" ]}.

(** A sample at [t] milliseconds. *)
Definition sample_at (t : string) : record :=
  {[ "timestamp_ms" := t; "pc_addr" := "0x1000"; "pixels_at" := "100" ]}.

(** Samples at 0, 1, ..., 6 and 60 ms: the average gap is 60 / 8 = 7.5 ms
    and only the last gap, 54 ms, exceeds 30 ms. *)
Definition samples_cs : list record :=
  sample_at <$> ["0.0"; "1.0"; "2.0"; "3.0"; "4.0"; "5.0"; "6.0"; "60.0"].
Definition times_cs : list float :=
  (fun z => dec z 1) <$> [0; 10; 20; 30; 40; 50; 60; 600].

(** A parallel log whose thread 0 has the samples [samples_cs]. *)
Definition par_cs : RunLog :=
  {| meta := meta_par; threads := [thread_0; thread_1];
     pc_samples := [(0, samples_cs)] |}.

(** The same pair of logs with samples for thread 0 and no [tid] in the
    record of that thread: in the sequential log, in the parallel log. *)
Definition seq_samples_no_tid : RunLog :=
  {| meta := meta seq_plain;
     threads :=
       [ {[ "thread_id" := "0"; "cpu_user_ms" := "90.0"; "cpu_sys_ms" := "1.0";
            "pixels" := "1000"; "stack_addr" := "0x7ffd" ]} ];
     pc_samples := [(0, [sample_at "0.0"; sample_at "50.0"])] |}.
Definition par_samples_no_tid : RunLog :=
  {| meta := meta_par;
     threads := [delete "tid" thread_0; thread_1];
     pc_samples := [(0, [sample_at "0.0"; sample_at "10.0"])] |}.

(** A parallel log whose second thread has no [pixels]. *)
Definition par_no_pixels : RunLog :=
  {| meta := meta_par; threads := [thread_0; delete "pixels" thread_1];
     pc_samples := [] |}.

(** Whether a computation returned. *)
Definition returned {A : Type} (m : result A) : bool :=
  match m with Ok _ => true | Raise _ => false end.

(** ** Proof automation *)

(** Finds an element in a list built with [::] and [++]. *)
Ltac find_elem :=
  solve [ repeat first [ by left | apply elem_of_app; right | right ] ].

(** No element of an explicit list has the shape of the one looked for. *)
Ltac no_elem H :=
  repeat (apply elem_of_cons in H as [?|H]; [done|]); by apply elem_of_nil in H.

(** Steps through the binds of a computation that returned. *)
Ltac bind_ok H :=
  repeat (match type of H with
          | mbind _ ?m = Ok _ =>
              let E := fresh "E" in
              destruct m eqn:E; cbn [mbind result_bind] in H; [|discriminate H]
          end).

(** Steps through the binds of a computation that is to raise. *)
Ltac bind_raise :=
  repeat first
    [ progress cbn [mbind result_bind]
    | solve [eauto]
    | match goal with
      | |- ∃ e, mbind _ ?m = Raise e => destruct m eqn:?
      end ].

(** * Properties *)

(** ** Lists and strings *)

Lemma py_index_lookup {A : Type} (l : list A) (i : nat) (x : A) :
  l !! i = Some x → py_index l (Z.of_nat i) = Ok x.
Proof.
  intros Hx. unfold py_index, len.
  pose proof (lookup_lt_Some _ _ _ Hx) as Hlt.
  destruct (Z.of_nat i <? 0) eqn:Hneg; [lia|].
  rewrite (proj2 (Z.leb_le _ _)), (proj2 (Z.ltb_lt _ _)) by lia.
  simpl. by rewrite Nat2Z.id, Hx.
Qed.

Lemma py_index_last {A : Type} (l : list A) (x : A) :
  last l = Some x → py_index l (-1) = Ok x.
Proof.
  intros Hx. unfold py_index, len.
  assert (Hlen : (0 < length l)%nat) by (destruct l; [done | simpl; lia]).
  rewrite last_lookup in Hx.
  replace (-1 <? 0) with true by done.
  rewrite (proj2 (Z.leb_le _ _)), (proj2 (Z.ltb_lt _ _)) by lia.
  simpl. replace (Z.to_nat (-1 + Z.of_nat (length l))) with (pred (length l)) by lia.
  by rewrite Hx.
Qed.

Lemma py_index_out_of_range {A : Type} (l : list A) (i : Z) :
  len l <= i → py_index l i = Raise IndexError.
Proof.
  intros Hi. unfold py_index. unfold len in *.
  destruct (i <? 0) eqn:Hneg; [lia|].
  rewrite (proj2 (Z.ltb_ge _ _)) by (unfold len; lia).
  by rewrite andb_false_r.
Qed.

Lemma split_from_nonempty sep skip s : split_from sep skip s ≠ [].
Proof.
  revert skip. induction s as [|c s IH]; intros skip; [done|].
  cbn [split_from]. destruct skip; [|apply IH].
  destruct (String.prefix sep (String c s)); [done|].
  by destruct (split_from sep 0 s).
Qed.

(** [s.split(sep)] always has a first field. *)
Lemma split_cons sep s : ∃ f fs, split sep s = f :: fs.
Proof.
  unfold split. pose proof (split_from_nonempty sep 0 s).
  destruct (split_from sep 0 s); [done | eauto].
Qed.

(** ** Positional pairing of a header with a row *)

Lemma assign_lookup_other d l x :
  (∀ kv, kv ∈ l → strip kv.1 ≠ x) → assign d l !! x = d !! x.
Proof.
  revert d. induction l as [|kv l IH]; intros d Hl; simpl; [done|].
  unfold assign in *. simpl. rewrite IH.
  - apply lookup_insert_ne, Hl. by left.
  - intros kv' Hin. apply Hl. by right.
Qed.

Lemma assign_lookup_last d l1 k v l2 :
  (∀ kv, kv ∈ l2 → strip kv.1 ≠ strip k) →
  assign d (l1 ++ (k, v) :: l2) !! strip k = Some (strip v).
Proof.
  intros Hl2. unfold assign. rewrite foldl_app. simpl.
  fold (assign (<[strip k:=strip v]> (foldl (fun d kv => <[strip kv.1:=strip kv.2]> d) d l1)) l2).
  rewrite assign_lookup_other by done. apply lookup_insert_eq.
Qed.

Lemma assign_lookup_Some d l x y :
  assign d l !! x = Some y →
  d !! x = Some y ∨ ∃ kv, kv ∈ l ∧ strip kv.1 = x ∧ strip kv.2 = y.
Proof.
  revert d. induction l as [|kv l IH]; intros d; simpl; [by left|].
  intros Hx. apply IH in Hx as [Hx|(kv' & Hin & Hk & Hv)].
  - destruct (decide (strip kv.1 = x)) as [<-|Hne].
    + rewrite lookup_insert_eq in Hx. injection Hx as <-.
      right. exists kv. split; [by left | done].
    + rewrite lookup_insert_ne in Hx by done. by left.
  - right. exists kv'. split; [by right | done].
Qed.

Lemma assign_lookup_is_Some d l x :
  is_Some (assign d l !! x) ↔ is_Some (d !! x) ∨ ∃ kv, kv ∈ l ∧ strip kv.1 = x.
Proof.
  revert d. induction l as [|kv l IH]; intros d; simpl.
  - split; [by left | intros [?|(kv & Hin & _)]; [done | by apply elem_of_nil in Hin]].
  - unfold assign in *. simpl. rewrite IH. split.
    + intros [Hs|(kv' & Hin & Hk)].
      * destruct (decide (strip kv.1 = x)) as [<-|Hne].
        -- right. exists kv. split; [by left | done].
        -- rewrite lookup_insert_ne in Hs by done. by left.
      * right. exists kv'. split; [by right | done].
    + intros [Hs|(kv' & Hin & Hk)].
      * left. destruct (decide (strip kv.1 = x)) as [<-|Hne].
        -- rewrite lookup_insert_eq. eauto.
        -- by rewrite lookup_insert_ne.
      * apply elem_of_cons in Hin as [->|Hin].
        -- left. rewrite <- Hk, lookup_insert_eq. eauto.
        -- right. eauto.
Qed.

Lemma elem_of_zip_drop (ks vs : list string) (i : nat) (kv : string * string) :
  kv ∈ drop (S i) (zip ks vs) →
  ∃ j, (i < j)%nat ∧ (j < length vs)%nat ∧ ks !! j = Some kv.1.
Proof.
  intros Hin. apply list_elem_of_lookup in Hin as [n Hn].
  rewrite lookup_drop in Hn.
  apply lookup_zip_with_Some in Hn as (k & v & -> & Hk & Hv).
  exists (S i + n)%nat. split; [lia|]. split; [|done].
  by apply lookup_lt_Some in Hv.
Qed.

(** The key at position [i] is mapped to the value at position [i], unless
    the same key stands again at a later paired position (the later
    assignment then replaces the value). *)
Lemma zip_record_positional (ks vs : list string) (i : nat) (k v : string) :
  ks !! i = Some k → vs !! i = Some v →
  (∀ j k', (i < j)%nat → (j < length vs)%nat → ks !! j = Some k' → strip k' ≠ strip k) →
  zip_record ks vs !! strip k = Some (strip v).
Proof.
  intros Hk Hv Hlater. unfold zip_record.
  assert (Hz : zip ks vs !! i = Some (k, v)).
  { apply lookup_zip_with_Some. eauto. }
  rewrite <- (take_drop_middle _ _ _ Hz).
  apply (assign_lookup_last ∅). intros kv Hin.
  apply elem_of_zip_drop in Hin as (j & Hij & Hj & Hkj). eauto.
Qed.

(** Every entry of the record is such a positional pair. *)
Lemma zip_record_entry (ks vs : list string) (x y : string) :
  zip_record ks vs !! x = Some y →
  ∃ i k v, ks !! i = Some k ∧ vs !! i = Some v ∧ strip k = x ∧ strip v = y.
Proof.
  intros Hx. apply (assign_lookup_Some ∅) in Hx as [Hx|(kv & Hin & Hk & Hv)].
  { by rewrite lookup_empty in Hx. }
  apply list_elem_of_lookup in Hin as [i Hi].
  apply lookup_zip_with_Some in Hi as (k & v & -> & Hki & Hvi).
  exists i, k, v. eauto.
Qed.

(** The keys of the record are the (stripped) header names at the positions
    that have a value. *)
Lemma zip_record_is_Some (ks vs : list string) (x : string) :
  is_Some (zip_record ks vs !! x)
  ↔ ∃ i k, ks !! i = Some k ∧ (i < length vs)%nat ∧ strip k = x.
Proof.
  unfold zip_record. fold (assign ∅ (zip ks vs)).
  rewrite assign_lookup_is_Some, lookup_empty. split.
  - intros [[? ?]|(kv & Hin & Hk)]; [done|].
    apply list_elem_of_lookup in Hin as [i Hi].
    apply lookup_zip_with_Some in Hi as (k & v & -> & Hki & Hvi).
    exists i, k. split; [done|]. split; [|done]. by apply lookup_lt_Some in Hvi.
  - intros (i & k & Hk & Hi & Hx). right.
    destruct (lookup_lt_is_Some_2 vs i Hi) as [v Hv].
    exists (k, v). split; [|done].
    apply list_elem_of_lookup. exists i. apply lookup_zip_with_Some. eauto.
Qed.

Lemma zip_take_r (ks vs : list string) :
  zip ks vs = zip ks (take (length ks) vs).
Proof.
  revert vs. induction ks as [|k ks IH]; intros [|v vs]; simpl; try done.
  by rewrite <- IH.
Qed.

(** Values beyond the number of header names play no part. *)
Lemma zip_record_extra_values (ks vs : list string) :
  zip_record ks vs = zip_record ks (take (length ks) vs).
Proof. unfold zip_record. by rewrite <- zip_take_r. Qed.

(** Header names without a value at their position are absent, unless the
    name also stands at a position that has one. *)
Lemma zip_record_missing (ks vs : list string) (x : string) :
  (∀ i k, (i < length vs)%nat → ks !! i = Some k → strip k ≠ x) →
  zip_record ks vs !! x = None.
Proof.
  intros Hx. apply eq_None_not_Some. rewrite zip_record_is_Some.
  intros (i & k & Hk & Hi & Hkx). by eapply Hx.
Qed.

(** ** [parse_csv]: the three sections *)

Lemma py_index_0 {A : Type} (x : A) (l : list A) : py_index (x :: l) 0 = Ok x.
Proof. by apply (py_index_lookup (x :: l) 0). Qed.

Lemma py_index_1 {A : Type} (x y : A) (l : list A) : py_index (x :: y :: l) 1 = Ok y.
Proof. by apply (py_index_lookup (x :: y :: l) 1). Qed.

Lemma py_index_2 {A : Type} (x y z : A) (l : list A) :
  py_index (x :: y :: z :: l) 2 = Ok z.
Proof. by apply (py_index_lookup (x :: y :: z :: l) 2). Qed.

Lemma parse_meta_lines (section l0 l1 : string) (rest : list string) :
  split nl (strip section) = l0 :: l1 :: rest →
  parse_meta section = Ok (zip_record (split comma l0) (split comma l1)).
Proof.
  intros Hl. unfold parse_meta. rewrite Hl, py_index_0, py_index_1. done.
Qed.

(** A first section of a single line has no line of values. *)
Lemma parse_meta_one_line (section l0 : string) :
  split nl (strip section) = [l0] → parse_meta section = Raise IndexError.
Proof. intros Hl. unfold parse_meta. by rewrite Hl. Qed.

Lemma parse_threads_lines (section l0 : string) (rows : list string) :
  split nl (strip section) = l0 :: rows →
  parse_threads section
  = Ok ((fun row => zip_record (split comma l0) (split comma row)) <$> rows).
Proof.
  intros Hl. unfold parse_threads. rewrite Hl, py_index_0. done.
Qed.

(** The second section never raises, whatever the shape of its rows. *)
Lemma parse_threads_total (section : string) :
  ∃ ts, parse_threads section = Ok ts.
Proof.
  destruct (split_cons nl (strip section)) as (l0 & rows & Hl).
  rewrite (parse_threads_lines _ _ _ Hl). eauto.
Qed.

Section ParseFacts.
Context `{Builtins}.

(** What a successful parse returned, section by section. *)
Lemma parse_text_Ok (text : string) (log : RunLog) :
  parse_text text = Ok log →
  ∃ s0 s1 more,
    split blank_line (strip text) = s0 :: s1 :: more
    ∧ parse_meta s0 = Ok (meta log)
    ∧ parse_threads s1 = Ok (threads log)
    ∧ match more with
      | [] => pc_samples log = []
      | s2 :: _ => parse_samples s2 = Ok (pc_samples log)
      end.
Proof.
  unfold parse_text.
  destruct (split blank_line (strip text)) as [|s0 [|s1 more]] eqn:Hs.
  - done.
  - rewrite py_index_0. cbn [mbind result_bind].
    destruct (parse_meta s0); cbn [mbind result_bind]; [|done].
    rewrite py_index_out_of_range by done. done.
  - rewrite py_index_0, py_index_1. simpl.
    destruct (parse_meta s0) as [m|] eqn:Hm; simpl; [|done].
    destruct (parse_threads s1) as [ts|] eqn:Ht; simpl; [|done].
    destruct more as [|s2 more].
    + simpl. intros [= <-]. exists s0, s1, []. done.
    + assert (Hlen : (2 <? len (s0 :: s1 :: s2 :: more)) = true).
      { apply Z.ltb_lt. unfold len. simpl length. lia. }
      rewrite Hlen, py_index_2. simpl.
      destruct (parse_samples s2) as [pc|] eqn:Hp; simpl; [|done].
      intros [= <-]. exists s0, s1, (s2 :: more). done.
Qed.

(** A text of exactly two sections. *)
Lemma parse_text_two_sections (text s0 s1 : string) :
  split blank_line (strip text) = [s0; s1] →
  parse_text text
  = (m ← parse_meta s0; ts ← parse_threads s1;
     Ok {| meta := m; threads := ts; pc_samples := [] |}).
Proof.
  intros Hs. unfold parse_text. rewrite Hs, py_index_0, py_index_1. simpl.
  destruct (parse_meta s0); simpl; [|done].
  by destruct (parse_threads s1).
Qed.

(** A text of three sections or more. *)
Lemma parse_text_three_sections (text s0 s1 s2 : string) (more : list string) :
  split blank_line (strip text) = s0 :: s1 :: s2 :: more →
  parse_text text
  = (m ← parse_meta s0; ts ← parse_threads s1; pc ← parse_samples s2;
     Ok {| meta := m; threads := ts; pc_samples := pc |}).
Proof.
  intros Hs. unfold parse_text. rewrite Hs, py_index_0, py_index_1.
  assert (Hlen : (2 <? len (s0 :: s1 :: s2 :: more)) = true).
  { apply Z.ltb_lt. unfold len. simpl length. lia. }
  rewrite Hlen, py_index_2. simpl.
  destruct (parse_meta s0); simpl; [|done].
  by destruct (parse_threads s1).
Qed.
End ParseFacts.

(** ** The sample trace: grouping by thread *)

Lemma od_get_set_eq {V : Type} (k : Z) (v : V) (d : odict V) :
  od_get k (od_set k v d) = Some v.
Proof.
  induction d as [|[k' v'] d IH]; simpl.
  - by rewrite Z.eqb_refl.
  - destruct (k' =? k) eqn:Hk; simpl; by rewrite Hk.
Qed.

Lemma od_get_set_ne {V : Type} (k k' : Z) (v : V) (d : odict V) :
  k ≠ k' → od_get k' (od_set k v d) = od_get k' d.
Proof.
  intros Hne. induction d as [|[k0 v0] d IH]; simpl.
  - by rewrite (proj2 (Z.eqb_neq _ _) Hne).
  - destruct (k0 =? k) eqn:Hk; simpl; [|by rewrite IH].
    apply Z.eqb_eq in Hk as ->. by rewrite (proj2 (Z.eqb_neq _ _) Hne).
Qed.

Section Grouping.
Context `{Builtins}.

Lemma add_sample_tid (header : list string) (pc : odict (list record))
    (line : string) :
  add_sample header pc line
  = (tid ← row_tid header line;
     let pc1 := if od_mem tid pc then pc else od_set tid [] pc in
     Ok (od_set tid (default [] (od_get tid pc1)
                      ++ [zip_record header (split comma line)]) pc1)).
Proof.
  unfold add_sample, row_tid, get_int.
  destruct (py_getitem _ _); simpl; [|done].
  by destruct (conv _).
Qed.

(** One row: the list of its thread grows by the row's record (a new list
    when the thread had none), every other thread keeps its list. *)
Lemma add_sample_get (header : list string) (pc pc' : odict (list record))
    (line : string) (tid t : Z) :
  row_tid header line = Ok tid →
  add_sample header pc line = Ok pc' →
  od_get t pc'
  = if tid =? t
    then Some (default [] (od_get t pc) ++ [zip_record header (split comma line)])
    else od_get t pc.
Proof.
  intros Htid. rewrite add_sample_tid, Htid. simpl. intros [= <-].
  destruct (tid =? t) eqn:Ht.
  - apply Z.eqb_eq in Ht as <-. rewrite od_get_set_eq. do 2 f_equal.
    unfold od_mem. destruct (od_get tid pc) eqn:Hg; [by rewrite Hg|].
    by rewrite od_get_set_eq.
  - apply Z.eqb_neq in Ht. rewrite od_get_set_ne by done.
    destruct (od_mem tid pc); [done|]. by rewrite od_get_set_ne.
Qed.

Lemma add_sample_Ok (header : list string) (pc : odict (list record))
    (line : string) (tid : Z) :
  row_tid header line = Ok tid → ∃ pc', add_sample header pc line = Ok pc'.
Proof. intros Htid. rewrite add_sample_tid, Htid. simpl. eauto. Qed.

(** All rows, from any dictionary [pc]. *)
Lemma add_samples_get (header : list string) (rows : list string) :
  ∀ pc : odict (list record),
  (∀ line, line ∈ rows → ∃ tid, row_tid header line = Ok tid) →
  ∃ pc', add_samples header pc rows = Ok pc'
    ∧ ∀ t, od_get t pc'
           = match samples_of header rows t with
             | [] => od_get t pc
             | l => Some (default [] (od_get t pc) ++ l)
             end.
Proof.
  induction rows as [|line rows IH]; intros pc Hrows; simpl.
  - eauto.
  - destruct (Hrows line) as [tid Htid]; [by left|].
    destruct (add_sample_Ok header pc line tid Htid) as [pc1 Hpc1].
    rewrite Hpc1. simpl.
    destruct (IH pc1) as (pc' & Hpc' & Hget).
    { intros l Hl. apply Hrows. by right. }
    exists pc'. split; [done|]. intros t. rewrite Hget.
    rewrite (add_sample_get _ _ _ _ _ t Htid Hpc1), Htid.
    destruct (tid =? t); simpl.
    + destruct (samples_of header rows t); simpl; [done|].
      by rewrite <- app_assoc.
    + done.
Qed.

(** A row whose [thread_id] is missing or is not an int stops the parse. *)
Lemma add_samples_Raise (header : list string) (good : list string)
    (bad : string) (rest : list string) (e : exn) :
  ∀ pc : odict (list record),
  (∀ line, line ∈ good → ∃ tid, row_tid header line = Ok tid) →
  row_tid header bad = Raise e →
  add_samples header pc (good ++ bad :: rest) = Raise e.
Proof.
  induction good as [|line good IH]; intros pc Hgood Hbad; simpl.
  - by rewrite add_sample_tid, Hbad.
  - destruct (Hgood line) as [tid Htid]; [by left|].
    destruct (add_sample_Ok header pc line tid Htid) as [pc1 Hpc1].
    rewrite Hpc1. simpl. apply IH; [|done].
    intros l Hl. apply Hgood. by right.
Qed.
End Grouping.

(** ** Floats: the conversion of an int *)

Lemma digits2_pos_size p : digits2_pos p = Pos.size p.
Proof. induction p; simpl; congruence. Qed.

Lemma Zdigits2_log2 m : 0 < m -> Zdigits2 m = Z.log2 m + 1.
Proof.
  destruct m as [|p|p]; try lia. intros _. simpl.
  rewrite digits2_pos_size. destruct p; simpl; lia.
Qed.

Lemma shr_1_m mrs : 0 <= shr_m mrs -> shr_m (shr_1 mrs) = Z.div2 (shr_m mrs).
Proof. destruct mrs as [[|[p|p|]|p] r s]; simpl; intros; try reflexivity; lia. Qed.

Lemma iter_shr_m p : forall mrs, 0 <= shr_m mrs ->
  shr_m (SpecFloat.iter_pos shr_1 p mrs) = Z.shiftr (shr_m mrs) (Zpos p).
Proof.
  assert (Hd : forall a, 0 <= a -> 0 <= Z.div2 a).
  { intros a Ha. rewrite Z.div2_div. apply Z.div_pos; lia. }
  assert (Hs : forall a n, 0 <= a -> 0 <= Z.shiftr a n).
  { intros a n Ha. apply Z.shiftr_nonneg. exact Ha. }
  induction p as [p IH|p IH|]; intros mrs Hm; simpl.
  - rewrite IH, IH, shr_1_m by (rewrite ?IH, ?shr_1_m; auto; rewrite ?shr_1_m; auto).
    rewrite Z.div2_spec, !Z.shiftr_shiftr by lia. f_equal. lia.
  - rewrite IH, IH by (rewrite ?IH; auto).
    rewrite !Z.shiftr_shiftr by lia. f_equal. lia.
  - apply shr_1_m in Hm. rewrite Hm. apply Z.div2_spec.
Qed.

Lemma fexp_ge_emin x : emin prec emax <= fexp prec emax x.
Proof. unfold fexp. lia. Qed.

Lemma shr_record_of_loc_m m l : shr_m (shr_record_of_loc m l) = m.
Proof. destruct l as [|[]]; reflexivity. Qed.

(** One alignment step of the rounding: the mantissa stays positive, the
    exponent becomes the larger of [e] and the canonical one, and the
    magnitude [log2 m + e] is kept. *)
Lemma shr_fexp_spec m e l :
  0 < m -> emin prec emax <= e ->
  0 < shr_m (fst (shr_fexp prec emax m e l))
  /\ snd (shr_fexp prec emax m e l) = Z.max e (fexp prec emax (Zdigits2 m + e))
  /\ Z.log2 (shr_m (fst (shr_fexp prec emax m e l))) + snd (shr_fexp prec emax m e l)
     = Z.log2 m + e.
Proof.
  intros Hm He. unfold shr_fexp, shr.
  rewrite (Zdigits2_log2 m Hm).
  pose proof (fexp_ge_emin (Z.log2 m + 1 + e)) as Hf.
  destruct (fexp prec emax (Z.log2 m + 1 + e) - e) as [|q|q] eqn:Hq; simpl;
    rewrite ?shr_record_of_loc_m; try (repeat split; lia).
  rewrite iter_shr_m by (rewrite shr_record_of_loc_m; lia).
  rewrite shr_record_of_loc_m.
  assert (Hfe : fexp prec emax (Z.log2 m + 1 + e) = Z.log2 m + 1 + e - prec).
  { unfold fexp in *. lia. }
  assert (Hqq : Z.pos q = Z.log2 m + 1 - prec) by lia.
  assert (Hlog : Z.log2 (Z.shiftr m (Z.pos q)) = Z.log2 m - Z.pos q).
  { rewrite Z.log2_shiftr by lia. unfold prec in *. lia. }
  assert (Hpos : 0 < Z.shiftr m (Z.pos q)).
  { rewrite Z.shiftr_div_pow2 by lia.
    apply Z.div_str_pos. split; [apply Z.pow_pos_nonneg; lia|].
    transitivity (2 ^ Z.log2 m).
    - apply Z.pow_le_mono_r; unfold prec in *; lia.
    - apply Z.log2_spec. lia. }
  repeat split; try lia.
Qed.

Lemma round_nearest_even_bounds m l :
  m <= round_nearest_even m l <= m + 1.
Proof. destruct l as [|[]]; simpl; try destruct (Z.even m); lia. Qed.

Lemma binary_round_aux_sign s m e l :
  0 < m -> emin prec emax <= e ->
  finite_with s (binary_round_aux prec emax s m e l)
  \/ binary_round_aux prec emax s m e l = S754_infinity s.
Proof.
  intros Hm He. unfold binary_round_aux.
  destruct (shr_fexp_spec m e l Hm He) as (H1 & H2 & H3).
  destruct (shr_fexp prec emax m e l) as [mrs1 e1]. simpl in *.
  pose proof (round_nearest_even_bounds (shr_m mrs1) (loc_of_shr_record mrs1)) as Hr.
  set (m2 := round_nearest_even (shr_m mrs1) (loc_of_shr_record mrs1)) in *.
  destruct (shr_fexp_spec m2 e1 loc_Exact) as (K1 & K2 & K3); [lia|lia|].
  destruct (shr_fexp prec emax m2 e1 loc_Exact) as [mrs2 e2]. simpl in *.
  destruct (shr_m mrs2) as [|p|p]; try lia.
  destruct (e2 <=? _); [left; eexists _, _; reflexivity | right; reflexivity].
Qed.

Lemma binary_round_aux_finite s m e l :
  0 < m -> emin prec emax <= e -> e <= emax - prec -> Z.log2 m + e <= emax - 2 ->
  finite_with s (binary_round_aux prec emax s m e l).
Proof.
  intros Hm He He' Hd. unfold binary_round_aux.
  destruct (shr_fexp_spec m e l Hm He) as (H1 & H2 & H3).
  rewrite (Zdigits2_log2 m Hm) in H2.
  destruct (shr_fexp prec emax m e l) as [mrs1 e1]. simpl in *.
  pose proof (round_nearest_even_bounds (shr_m mrs1) (loc_of_shr_record mrs1)) as Hr.
  set (m2 := round_nearest_even (shr_m mrs1) (loc_of_shr_record mrs1)) in *.
  assert (Hm2 : 0 < m2) by lia.
  assert (Hl2 : Z.log2 m2 <= Z.log2 (shr_m mrs1) + 1).
  { transitivity (Z.log2 (Z.succ (shr_m mrs1))).
    - apply Z.log2_le_mono. lia.
    - pose proof (Z.log2_succ_le (shr_m mrs1)). lia. }
  destruct (shr_fexp_spec m2 e1 loc_Exact) as (K1 & K2 & K3); [lia|lia|].
  rewrite (Zdigits2_log2 m2 Hm2) in K2.
  destruct (shr_fexp prec emax m2 e1 loc_Exact) as [mrs2 e2]. simpl in *.
  destruct (shr_m mrs2) as [|p|p]; try lia.
  assert (Hle : e2 <= emax - prec).
  { unfold fexp, emin, emax, prec in *. lia. }
  apply Z.leb_le in Hle. unfold emax, prec in Hle. simpl in Hle.
  destruct (e2 <=? _); [|done]. eexists _, _; reflexivity.
Qed.

Lemma pos_iter_xO p k : Z.pos (Pos.iter xO p k) = Z.pos p * 2 ^ Z.pos k.
Proof.
  induction k as [|k IH] using Pos.peano_ind.
  - simpl. lia.
  - rewrite Pos.iter_succ, Pos2Z.inj_xO, IH, Pos2Z.inj_succ, Z.pow_succ_r by lia. lia.
Qed.

Lemma shl_align_spec p e' :
  e' <= 0 ->
  let r := shl_align p 0 e' in
  snd r <= 0 /\ e' <= snd r /\ Z.log2 (Z.pos (fst r)) + snd r = Z.log2 (Z.pos p).
Proof.
  intros He. unfold shl_align. replace (e' - 0) with e' by lia.
  destruct e' as [|q|q]; cbn [fst snd]; try lia.
  rewrite pos_iter_xO, Z.log2_mul_pow2 by lia. lia.
Qed.

Lemma binary_round_int s p :
  (finite_with s (binary_round prec emax s p 0)
   \/ binary_round prec emax s p 0 = S754_infinity s)
  /\ (Z.pos p < 2 ^ (emax - 1) -> finite_with s (binary_round prec emax s p 0)).
Proof.
  unfold binary_round.
  set (e' := fexp prec emax (Z.pos (digits2_pos p) + 0)).
  pose proof (fexp_ge_emin (Z.pos (digits2_pos p) + 0)) as Hf. fold e' in Hf.
  destruct (Z.le_gt_cases e' 0) as [Hle|Hgt].
  - destruct (shl_align_spec p e' Hle) as (H1 & H2 & H3).
    destruct (shl_align p 0 e') as [mz ez]. cbn [fst snd] in *. split.
    + apply binary_round_aux_sign; lia.
    + intros Hp. apply binary_round_aux_finite; try lia.
      * unfold emax, prec. lia.
      * rewrite H3. apply Z.log2_lt_pow2 in Hp; unfold emax in *; lia.
  - unfold shl_align. replace (e' - 0) with e' by lia.
    destruct e' as [|q|q]; try lia. split.
    + apply binary_round_aux_sign; unfold emin, emax, prec; lia.
    + intros Hp.
      assert (Hlog : Z.log2 (Z.pos p) < emax - 1) by (apply Z.log2_lt_pow2; lia).
      apply binary_round_aux_finite; unfold emin, emax, prec in *; lia.
Qed.

(** The float of a non-zero int is a non-zero number of the same sign, or
    an infinity when the int is out of range; below [2^1023] in magnitude
    it is finite. *)
Lemma int_as_float_sign z :
  z <> 0 ->
  finite_with (z <? 0) (int_as_float z) \/ int_as_float z = S754_infinity (z <? 0).
Proof.
  intros Hz. unfold int_as_float, binary_normalize.
  destruct z as [|p|p]; try lia; apply binary_round_int.
Qed.

Lemma int_as_float_finite z :
  z <> 0 -> Z.abs z < 2 ^ (emax - 1) -> finite_with (z <? 0) (int_as_float z).
Proof.
  intros Hz Hb. unfold int_as_float, binary_normalize.
  destruct z as [|p|p]; try lia; apply binary_round_int; exact Hb.
Qed.

Lemma float_of_int_nonzero (z : Z) (f : float) :
  z ≠ 0 → float_of_int z = Ok f → feqb f fzero = false.
Proof.
  intros Hz. unfold float_of_int.
  destruct (int_as_float_sign z Hz) as [(m & e & ->)| ->]; simpl; [|done].
  intros [= <-]. by destruct (z <? 0).
Qed.

(** Below [2^1023] in magnitude the conversion does not overflow. *)
Lemma float_of_int_small (z : Z) :
  Z.abs z < 2 ^ 1023 → float_of_int z = Ok (int_as_float z).
Proof.
  intros Hz. unfold float_of_int.
  destruct (decide (z = 0)) as [->|Hne]; [done|].
  by destruct (int_as_float_finite z Hne Hz) as (m & e & ->).
Qed.

(** ** Floats: comparison with zero and division *)

(** [x > 0] on a float is the IEEE comparison with [0.0]. *)
Lemma py_gt_zero (f : float) : py_gt (PyFloat f) (PyInt 0) = fltb fzero f.
Proof.
  destruct f as [s|s| |s m e]; try done; simpl.
  - by destruct s.
  - unfold py_gt, py_lt, float_cmp_int, fltb, SFltb, SFcompare, fzero.
    destruct (0 <=? e) eqn:He.
    + apply Z.leb_le in He.
      assert (Hp : 0 < 2 ^ e) by (apply Z.pow_pos_nonneg; lia).
      destruct s.
      * assert (Hlt : (Z.neg m * 2 ^ e ?= 0) = Lt) by (apply Z.compare_lt_iff; nia).
        by rewrite Hlt.
      * assert (Hgt : (Z.pos m * 2 ^ e ?= 0) = Gt) by (apply Z.compare_gt_iff; nia).
        by rewrite Hgt.
    + by destruct s.
Qed.

(** A positive float is not zero: dividing by it cannot raise. *)
Lemma fltb_zero_nonzero (f : float) : fltb fzero f = true → feqb f fzero = false.
Proof. destruct f as [s|s| |s m e]; try done; by destruct s. Qed.

(** A zero or negative float, and a NaN, is not [> 0]. *)
Lemma not_positive (f : float) :
  feqb f fzero = true ∨ fltb f fzero = true → fltb fzero f = false.
Proof. destruct f as [s|s| |s m e]; try done; destruct s; simpl; intros [?|?]; done. Qed.

Lemma py_truediv_float (a b : float) :
  py_truediv (PyFloat a) (PyFloat b)
  = if feqb b fzero then Raise ZeroDivisionError else Ok (PyFloat (fdiv a b)).
Proof. done. Qed.

Lemma py_truediv_float_int (a : float) (z : Z) :
  py_truediv (PyFloat a) (PyInt z)
  = (b ← float_of_int z;
     if feqb b fzero then Raise ZeroDivisionError else Ok (PyFloat (fdiv a b))).
Proof. done. Qed.

(** Dividing a float by the int 0 raises. *)
Lemma py_truediv_float_zero (a : float) :
  py_truediv (PyFloat a) (PyInt 0) = Raise ZeroDivisionError.
Proof. done. Qed.

(** Dividing a float by a non-zero int converts the int, which is the only
    step that can raise. *)
Lemma py_truediv_float_nonzero (a : float) (z : Z) :
  z ≠ 0 →
  py_truediv (PyFloat a) (PyInt z)
  = (b ← float_of_int z; Ok (PyFloat (fdiv a b))).
Proof.
  intros Hz. rewrite py_truediv_float_int.
  destruct (float_of_int z) as [b|] eqn:Hb; simpl; [|done].
  by rewrite (float_of_int_nonzero z b Hz Hb).
Qed.

Lemma py_mul_float_100 (x : float) :
  py_mul (PyFloat x) (PyInt 100) = Ok (PyFloat (fmul x (dec 100 0))).
Proof.
  unfold py_mul, arith. cbn [to_float mbind result_bind].
  replace (float_of_int 100) with (Ok (dec 100 0)) by (vm_compute; reflexivity).
  done.
Qed.

(** ** The derived metrics *)

Lemma efficiency_zero (s : num) : efficiency s 0 = Raise ZeroDivisionError.
Proof. by destruct s. Qed.

Lemma efficiency_float (s : float) (n : Z) :
  n ≠ 0 →
  efficiency (PyFloat s) n
  = (f ← float_of_int n; Ok (PyFloat (fmul (fdiv s f) (dec 100 0)))).
Proof.
  intros Hn. unfold efficiency. rewrite py_truediv_float_nonzero by done.
  destruct (float_of_int n); cbn [mbind result_bind]; [|done].
  apply py_mul_float_100.
Qed.

Lemma efficiency_int_zero (n : Z) :
  0 < n → efficiency (PyInt 0) n = Ok (PyFloat fzero).
Proof.
  intros Hn. unfold efficiency, py_truediv, int_truediv.
  rewrite (proj2 (Z.eqb_neq n 0)) by lia.
  rewrite (proj2 (Z.ltb_ge n 0)) by lia.
  cbn [Z.eqb mbind result_bind]. rewrite py_mul_float_100. done.
Qed.

Lemma speedup_eq (ws wp : float) :
  speedup ws wp
  = if fltb fzero wp then Ok (PyFloat (fdiv ws wp)) else Ok (PyInt 0).
Proof.
  unfold speedup. rewrite py_gt_zero.
  destruct (fltb fzero wp) eqn:Hwp; [|done].
  by rewrite py_truediv_float, (fltb_zero_nonzero wp Hwp).
Qed.

Section Metrics.
Context `{Builtins}.

(** [derive] once the five metadata fields are read. *)
Lemma derive_fields (seq par : RunLog) (n : Z) (ws wp cs cp : float) :
  get_int (meta par) "num_threads" = Ok n →
  get_float (meta seq) "wall_ms" = Ok ws →
  get_float (meta par) "wall_ms" = Ok wp →
  get_float (meta seq) "total_cpu_ms" = Ok cs →
  get_float (meta par) "total_cpu_ms" = Ok cp →
  derive seq par
  = (s ← speedup ws wp;
     e ← efficiency s n;
     Ok {| nt := n; wall_seq := ws; wall_par := wp; cpu_seq := cs; cpu_par := cp;
           m_speedup := s; m_efficiency := e |}).
Proof.
  intros Hn Hws Hwp Hcs Hcp. unfold derive.
  rewrite Hn. cbn [mbind result_bind].
  rewrite Hws. cbn [mbind result_bind].
  rewrite Hwp. cbn [mbind result_bind].
  rewrite Hcs. cbn [mbind result_bind].
  rewrite Hcp. cbn [mbind result_bind]. done.
Qed.

(** What [derive] read and computed when it returned. *)
Lemma derive_Ok (seq par : RunLog) (m : metrics) :
  derive seq par = Ok m →
  get_int (meta par) "num_threads" = Ok (nt m)
  ∧ get_float (meta seq) "wall_ms" = Ok (wall_seq m)
  ∧ get_float (meta par) "wall_ms" = Ok (wall_par m)
  ∧ get_float (meta seq) "total_cpu_ms" = Ok (cpu_seq m)
  ∧ get_float (meta par) "total_cpu_ms" = Ok (cpu_par m)
  ∧ speedup (wall_seq m) (wall_par m) = Ok (m_speedup m)
  ∧ efficiency (m_speedup m) (nt m) = Ok (m_efficiency m).
Proof.
  unfold derive.
  destruct (get_int (meta par) "num_threads") as [n|]; [|done].
  destruct (get_float (meta seq) "wall_ms") as [ws|]; [|done].
  destruct (get_float (meta par) "wall_ms") as [wp|]; [|done].
  destruct (get_float (meta seq) "total_cpu_ms") as [cs|]; [|done].
  destruct (get_float (meta par) "total_cpu_ms") as [cp|]; [|done].
  cbn [mbind result_bind].
  destruct (speedup ws wp) as [s|] eqn:Hs; [|done].
  cbn [mbind result_bind].
  destruct (efficiency s n) as [e|] eqn:He; [|done].
  cbn [mbind result_bind]. intros [= <-]. done.
Qed.

(** C3: the speedup is [wall_seq / wall_par] when [wall_par > 0] and the
    int [0] otherwise, in particular when [wall_par] is zero or negative;
    the computation never raises, so a zero [wall_par] is no division
    fault.  The last part ties the function to the two logs: the speedup
    [derive] records is the one of the logs' [wall_ms] fields. *)
Theorem speedup_guarded (ws wp : float) :
  (fltb fzero wp = true → speedup ws wp = Ok (PyFloat (fdiv ws wp)))
  ∧ (fltb fzero wp = false → speedup ws wp = Ok (PyInt 0))
  ∧ (feqb wp fzero = true ∨ fltb wp fzero = true → speedup ws wp = Ok (PyInt 0))
  ∧ (∃ v, speedup ws wp = Ok v)
  ∧ (∀ seq par m,
       derive seq par = Ok m →
       get_float (meta seq) "wall_ms" = Ok ws →
       get_float (meta par) "wall_ms" = Ok wp →
       speedup ws wp = Ok (m_speedup m)).
Proof.
  rewrite speedup_eq. repeat split.
  - by intros ->.
  - by intros ->.
  - intros Hwp. by rewrite (not_positive wp Hwp).
  - destruct (fltb fzero wp); eauto.
  - intros seq par m Hm Hws Hwp.
    destruct (derive_Ok seq par m Hm) as (_ & Hws' & Hwp' & _ & _ & Hs & _).
    rewrite Hws in Hws'. rewrite Hwp in Hwp'.
    injection Hws' as ->. injection Hwp' as ->.
    by rewrite <- Hs, speedup_eq.
Qed.

(** C1: the efficiency is [speedup / nt * 100] with no guard on [nt].  For
    two logs whose metadata fields are read as [n], [ws], [wp], [cs], [cp]:
    when [n = 0] the division raises [ZeroDivisionError] and [derive], hence
    the rendering, fails (whatever the wall times, although the speedup
    division itself is guarded, last part); when [n > 0] no division by
    zero is possible and the efficiency is the float
    [speedup / float(n) * 100], where the conversion [float(n)] is the one
    Python makes for a float divided by an int (it is defined for every [n]
    below [2^1023], and raises [OverflowError] for an [n] beyond the range
    of floats); when [wall_par] is not positive the speedup is the int [0]
    and the efficiency is [0 / n * 100 = 0.0]. *)
Theorem efficiency_unguarded (seq par : RunLog) (n : Z) (ws wp cs cp : float) :
  get_int (meta par) "num_threads" = Ok n →
  get_float (meta seq) "wall_ms" = Ok ws →
  get_float (meta par) "wall_ms" = Ok wp →
  get_float (meta seq) "total_cpu_ms" = Ok cs →
  get_float (meta par) "total_cpu_ms" = Ok cp →
  (n = 0 → derive seq par = Raise ZeroDivisionError)
  ∧ (0 < n → fltb fzero wp = true →
     derive seq par
     = (f ← float_of_int n;
        Ok {| nt := n; wall_seq := ws; wall_par := wp; cpu_seq := cs; cpu_par := cp;
              m_speedup := PyFloat (fdiv ws wp);
              m_efficiency := PyFloat (fmul (fdiv (fdiv ws wp) f) (dec 100 0)) |}))
  ∧ (0 < n < 2 ^ 1023 → fltb fzero wp = true →
     derive seq par
     = Ok {| nt := n; wall_seq := ws; wall_par := wp; cpu_seq := cs; cpu_par := cp;
             m_speedup := PyFloat (fdiv ws wp);
             m_efficiency :=
               PyFloat (fmul (fdiv (fdiv ws wp) (int_as_float n)) (dec 100 0)) |})
  ∧ (0 < n → fltb fzero wp = false →
     derive seq par
     = Ok {| nt := n; wall_seq := ws; wall_par := wp; cpu_seq := cs; cpu_par := cp;
             m_speedup := PyInt 0; m_efficiency := PyFloat fzero |})
  ∧ speedup ws fzero = Ok (PyInt 0).
Proof.
  intros Hn Hws Hwp Hcs Hcp.
  rewrite (derive_fields seq par n ws wp cs cp Hn Hws Hwp Hcs Hcp), speedup_eq.
  repeat split.
  - intros ->. destruct (fltb fzero wp); cbn [mbind result_bind];
      by rewrite efficiency_zero.
  - intros Hpos ->. cbn [mbind result_bind].
    rewrite efficiency_float by lia. by destruct (float_of_int n).
  - intros Hpos ->. cbn [mbind result_bind].
    rewrite efficiency_float, float_of_int_small by lia. done.
  - intros Hpos ->. cbn [mbind result_bind].
    by rewrite efficiency_int_zero.
Qed.

End Metrics.

(** Speedup 4 on 4 threads is an efficiency of 100 percent; zero threads
    is a division by zero. *)
Lemma efficiency_unguarded_witness :
  derive (H := Reference.builtins) seq_100 (par_25 "4")
  = Ok {| nt := 4; wall_seq := dec 100 0; wall_par := dec 25 0;
          cpu_seq := dec 99 0; cpu_par := dec 98 0;
          m_speedup := PyFloat (dec 4 0); m_efficiency := PyFloat (dec 100 0) |}
  ∧ derive (H := Reference.builtins) seq_100 (par_25 "0") = Raise ZeroDivisionError.
Proof.
  split.
  - destruct (efficiency_unguarded (H := Reference.builtins) seq_100 (par_25 "4")
                4 (dec 100 0) (dec 25 0) (dec 99 0) (dec 98 0))
      as (_ & _ & Hsmall & _); [vm_compute; reflexivity ..|].
    rewrite Hsmall; [vm_compute; reflexivity | lia | vm_compute; reflexivity].
  - destruct (efficiency_unguarded (H := Reference.builtins) seq_100 (par_25 "0")
                0 (dec 100 0) (dec 25 0) (dec 99 0) (dec 98 0))
      as (Hzero & _); [vm_compute; reflexivity ..|].
    by apply Hzero.
Defined.

(** 100 ms against 25 ms is a speedup of 4; against 0 ms it is 0. *)
Lemma speedup_guarded_witness :
  speedup (dec 100 0) (dec 25 0) = Ok (PyFloat (dec 4 0))
  ∧ speedup (dec 100 0) fzero = Ok (PyInt 0).
Proof.
  split.
  - destruct (speedup_guarded (H := Reference.builtins) (dec 100 0) (dec 25 0))
      as (Hpos & _).
    rewrite Hpos; vm_compute; reflexivity.
  - destruct (speedup_guarded (H := Reference.builtins) (dec 100 0) fzero)
      as (_ & Hnot & _).
    apply Hnot. vm_compute. reflexivity.
Defined.

(** ** The claims about [parse_csv] *)

Section ParseClaims.
Context `{Builtins}.

Lemma parse_csv_text (fs : filesystem) (path text : string) :
  fs path = Some text → parse_csv fs path = parse_text text.
Proof. intros Hf. unfold parse_csv. by rewrite Hf. Qed.

(** C8: for a first section whose two lines are [l0] and [l1], [parse_csv]
    builds [meta] by pairing the comma-separated fields of [l0] and [l1]
    by position: the stripped key at position [i] is mapped to the stripped
    value at position [i] (a key that stands again at a later paired
    position takes the later value, as dictionary assignment does), [meta]
    has no other entry, and that dictionary is what [parse_csv] returns as
    [meta].  Keys and values are strings; no conversion of [Builtins] takes
    part in [parse_meta]. *)
Theorem parse_meta_positional (s0 l0 l1 : string) (rest : list string) :
  split nl (strip s0) = l0 :: l1 :: rest →
  let keys := split comma l0 in
  let vals := split comma l1 in
  parse_meta s0 = Ok (zip_record keys vals)
  ∧ (∀ i k v,
       keys !! i = Some k → vals !! i = Some v →
       (∀ j k', (i < j)%nat → (j < length vals)%nat → keys !! j = Some k' →
                strip k' ≠ strip k) →
       zip_record keys vals !! strip k = Some (strip v))
  ∧ (∀ x y,
       zip_record keys vals !! x = Some y →
       ∃ i k v, keys !! i = Some k ∧ vals !! i = Some v
                ∧ strip k = x ∧ strip v = y)
  ∧ (∀ fs path text more log,
       fs path = Some text →
       split blank_line (strip text) = s0 :: more →
       parse_csv fs path = Ok log →
       meta log = zip_record keys vals).
Proof.
  intros Hlines keys vals. repeat split.
  - by apply parse_meta_lines with rest.
  - apply zip_record_positional.
  - apply zip_record_entry.
  - intros fs path text more log Hf Hs Hlog.
    rewrite (parse_csv_text fs path text Hf) in Hlog.
    apply parse_text_Ok in Hlog as (s0' & s1 & more' & Hs' & Hm & _).
    rewrite Hs in Hs'. injection Hs' as <- _.
    rewrite (parse_meta_lines s0 l0 l1 rest Hlines) in Hm. by injection Hm.
Qed.

(** C4: for a second section whose lines are the header [l0] and [rows],
    [parse_csv] builds one record per row, in the order of the rows, and
    cannot raise there.  The record of a row pairs the stripped header
    names with the stripped cells by position; a header name whose
    position has no cell in the row is absent from the record (unless the
    same name also stands at a position that has one); cells beyond the
    number of header names play no part. *)
Theorem parse_threads_positional (s1 l0 : string) (rows : list string) :
  split nl (strip s1) = l0 :: rows →
  let header := split comma l0 in
  let row_record := fun row => zip_record header (split comma row) in
  parse_threads s1 = Ok (row_record <$> rows)
  ∧ (∀ row i k v,
       header !! i = Some k → split comma row !! i = Some v →
       (∀ j k', (i < j)%nat → (j < length (split comma row))%nat →
                header !! j = Some k' → strip k' ≠ strip k) →
       row_record row !! strip k = Some (strip v))
  ∧ (∀ row x,
       (∀ i k, (i < length (split comma row))%nat → header !! i = Some k →
               strip k ≠ x) →
       row_record row !! x = None)
  ∧ (∀ row,
       row_record row
       = zip_record header (take (length header) (split comma row)))
  ∧ (∀ fs path text s0 more log,
       fs path = Some text →
       split blank_line (strip text) = s0 :: s1 :: more →
       parse_csv fs path = Ok log →
       threads log = row_record <$> rows).
Proof.
  intros Hlines header row_record. repeat split.
  - by apply parse_threads_lines.
  - intros row. apply zip_record_positional.
  - intros row. apply zip_record_missing.
  - intros row. apply zip_record_extra_values.
  - intros fs path text s0 more log Hf Hs Hlog.
    rewrite (parse_csv_text fs path text Hf) in Hlog.
    apply parse_text_Ok in Hlog as (s0' & s1' & more' & Hs' & _ & Ht & _).
    rewrite Hs in Hs'. injection Hs' as <- <- _.
    rewrite (parse_threads_lines s1 l0 rows Hlines) in Ht. by injection Ht.
Qed.

End ParseClaims.

(** The round-trip example: the values stay strings. *)
Lemma parse_meta_positional_witness :
  parse_meta meta_example
  = Ok {[ "pid" := "123"; "wall_ms" := "45.5"; "total_cpu_ms" := "40.2" ]}.
Proof.
  destruct (parse_meta_positional (H := Reference.builtins) meta_example
              "pid,wall_ms,total_cpu_ms" "123,45.5,40.2" [])
    as (Hmeta & _); [vm_compute; reflexivity|].
  rewrite Hmeta. vm_compute. reflexivity.
Defined.

(** The thread table example, then a short row and a long row under the
    same header. *)
Lemma parse_threads_positional_witness :
  parse_threads threads_example
  = Ok [ {[ "thread_id" := "0"; "tid" := "1001"; "start_ms" := "0.0";
            "end_ms" := "10.0" ]};
         {[ "thread_id" := "1"; "tid" := "1002"; "start_ms" := "0.0";
            "end_ms" := "12.0" ]} ]
  ∧ zip_record (split comma "thread_id,tid,start_ms,end_ms") (split comma "0,1001")
      !! "end_ms" = None
  ∧ zip_record (split comma "thread_id,tid,start_ms,end_ms")
      (split comma "0,1001,0.0,10.0,extra")
    = zip_record (split comma "thread_id,tid,start_ms,end_ms")
        (split comma "0,1001,0.0,10.0").
Proof.
  destruct (parse_threads_positional (H := Reference.builtins) threads_example
              "thread_id,tid,start_ms,end_ms"
              ["0,1001,0.0,10.0"; "1,1002,0.0,12.0"])
    as (Hthreads & _ & Hshort & Hlong & _); [vm_compute; reflexivity|].
  split; [rewrite Hthreads; vm_compute; reflexivity|].
  split.
  - apply Hshort. intros i k Hi.
    vm_compute in Hi. destruct i as [|[|i]]; [| |lia];
      vm_compute; intros [= <-]; discriminate.
  - rewrite Hlong. vm_compute. reflexivity.
Defined.

Section SampleClaims.
Context `{Builtins}.

Lemma parse_samples_lines (s2 l0 : string) (rows : list string) :
  split nl (strip s2) = l0 :: rows →
  parse_samples s2 = add_samples (split comma l0) [] rows.
Proof. intros Hl. unfold parse_samples. by rewrite Hl, py_index_0. Qed.

(** C5: for a third section whose lines are the header [l0] and [rows].
    When every row has a [thread_id] that reads as an int, the parse
    succeeds and, for every thread [t], [pc_samples[t]] is the list of the
    records of the rows of thread [t] in the order of the rows (the key is
    present exactly when there is such a row); this is the [pc_samples]
    that [parse_csv] returns.  When some row, after rows that are in
    order, holds a [thread_id] that does not read as an int, the parse
    raises [ValueError] and so does [parse_csv]. *)
Theorem pc_samples_grouped (s2 l0 : string) (rows : list string) :
  split nl (strip s2) = l0 :: rows →
  let header := split comma l0 in
  ((∀ line, line ∈ rows → ∃ tid, row_tid header line = Ok tid) →
   ∃ pc,
     parse_samples s2 = Ok pc
     ∧ (∀ t, od_get t pc
             = match samples_of header rows t with
               | [] => None
               | l => Some l
               end)
     ∧ (∀ fs path text s0 s1 more log,
          fs path = Some text →
          split blank_line (strip text) = s0 :: s1 :: s2 :: more →
          parse_csv fs path = Ok log →
          pc_samples log = pc))
  ∧ (∀ good bad rest s,
       rows = good ++ bad :: rest →
       (∀ line, line ∈ good → ∃ tid, row_tid header line = Ok tid) →
       zip_record header (split comma bad) !! "thread_id" = Some s →
       py_int s = None →
       parse_samples s2 = Raise ValueError
       ∧ (∀ fs path text s0 s1 more m,
            fs path = Some text →
            split blank_line (strip text) = s0 :: s1 :: s2 :: more →
            parse_meta s0 = Ok m →
            parse_csv fs path = Raise ValueError)).
Proof.
  intros Hlines header. rewrite (parse_samples_lines s2 l0 rows Hlines).
  fold header. split.
  - intros Hrows.
    destruct (add_samples_get header rows [] Hrows) as (pc & Hpc & Hget).
    exists pc. split; [done|]. split.
    + intros t. rewrite Hget. simpl. by destruct (samples_of header rows t).
    + intros fs path text s0 s1 more log Hf Hs Hlog.
      rewrite (parse_csv_text fs path text Hf) in Hlog.
      apply parse_text_Ok in Hlog as (s0' & s1' & more' & Hs' & _ & _ & Hp).
      rewrite Hs in Hs'. injection Hs' as <- <- <-.
      rewrite (parse_samples_lines s2 l0 rows Hlines) in Hp. fold header in Hp.
      rewrite Hpc in Hp. by injection Hp.
  - intros good bad rest s -> Hgood Hs Hint.
    assert (Hbad : row_tid header bad = Raise ValueError).
    { unfold row_tid, get_int, py_getitem. rewrite Hs. simpl. by rewrite Hint. }
    assert (Hadd : add_samples header [] (good ++ bad :: rest) = Raise ValueError)
      by (by apply add_samples_Raise).
    split; [done|].
    intros fs path text s0 s1 more m Hf Hsec Hm.
    rewrite (parse_csv_text fs path text Hf).
    rewrite (parse_text_three_sections text s0 s1 s2 more Hsec), Hm.
    destruct (parse_threads_total s1) as [ts ->]. cbn [mbind result_bind].
    rewrite (parse_samples_lines s2 l0 (good ++ bad :: rest) Hlines).
    fold header. by rewrite Hadd.
Qed.

End SampleClaims.

(** Interleaved rows of threads 0 and 1 end up in two lists, each in the
    order of the rows. *)
Lemma pc_samples_grouped_witness :
  ∃ pc,
    parse_samples (H := Reference.builtins) samples_example = Ok pc
    ∧ od_get 0 pc
      = Some [ {[ "thread_id" := "0"; "timestamp_ms" := "0.0";
                  "pc_addr" := "0x1000"; "pixels_at" := "0" ]};
               {[ "thread_id" := "0"; "timestamp_ms" := "1.0";
                  "pc_addr" := "0x1010"; "pixels_at" := "10" ]} ]
    ∧ od_get 1 pc
      = Some [ {[ "thread_id" := "1"; "timestamp_ms" := "0.5";
                  "pc_addr" := "0x2000"; "pixels_at" := "0" ]};
               {[ "thread_id" := "1"; "timestamp_ms" := "1.5";
                  "pc_addr" := "0x2010"; "pixels_at" := "20" ]} ]
    ∧ od_get 2 pc = None.
Proof.
  destruct (pc_samples_grouped (H := Reference.builtins) samples_example
              "thread_id,timestamp_ms,pc_addr,pixels_at"
              ["0,0.0,0x1000,0"; "1,0.5,0x2000,0"; "0,1.0,0x1010,10"; "1,1.5,0x2010,20"])
    as (Hgood & _); [vm_compute; reflexivity|].
  destruct Hgood as (pc & Hpc & Hget & _).
  - intros line Hin.
    repeat (apply elem_of_cons in Hin as [->|Hin]; [eexists; vm_compute; reflexivity|]).
    by apply elem_of_nil in Hin.
  - exists pc. split; [done|]. rewrite !Hget.
    repeat split; vm_compute; reflexivity.
Defined.

(** ** Throughput *)

Lemma int_truediv_1024 (tb : Z) :
  int_truediv tb 1024
  = if is_inf (ratio tb 1024) then Raise OverflowError else Ok (ratio tb 1024).
Proof.
  unfold int_truediv. cbn [Z.eqb].
  destruct (tb =? 0) eqn:Htb; [|done].
  apply Z.eqb_eq in Htb as ->. done.
Qed.

Lemma py_truediv_float_1024 (x : float) :
  py_truediv (PyFloat x) (PyInt 1024) = Ok (PyFloat (fdiv x (dec 1024 0))).
Proof.
  rewrite py_truediv_float_nonzero by done.
  by replace (float_of_int 1024) with (Ok (dec 1024 0)) by (vm_compute; reflexivity).
Qed.

Lemma py_truediv_float_1000 (x : float) :
  py_truediv (PyFloat x) (PyInt 1000) = Ok (PyFloat (fdiv x (dec 1000 0))).
Proof.
  rewrite py_truediv_float_nonzero by done.
  by replace (float_of_int 1000) with (Ok (dec 1000 0)) by (vm_compute; reflexivity).
Qed.

(** The megabyte count: the kilobyte quotient is rounded once and may be
    out of range, the second division is by the float 1024. *)
Lemma megabytes_eq (tb : Z) :
  megabytes tb
  = if is_inf (ratio tb 1024) then Raise OverflowError
    else Ok (PyFloat (fdiv (ratio tb 1024) (dec 1024 0))).
Proof.
  unfold megabytes. cbn [py_truediv]. rewrite int_truediv_1024.
  destruct (is_inf (ratio tb 1024)); cbn [mbind result_bind]; [done|].
  apply py_truediv_float_1024.
Qed.

Lemma throughput_eq (tb : Z) (wall : float) :
  throughput tb wall
  = if fltb fzero wall
    then if is_inf (ratio tb 1024) then Raise OverflowError
         else if feqb (fdiv wall (dec 1000 0)) fzero then Raise ZeroDivisionError
         else Ok (PyFloat (fdiv (fdiv (ratio tb 1024) (dec 1024 0))
                                (fdiv wall (dec 1000 0))))
    else Ok (PyInt 0).
Proof.
  unfold throughput. rewrite py_gt_zero.
  destruct (fltb fzero wall); [|done].
  rewrite megabytes_eq.
  destruct (is_inf (ratio tb 1024)); cbn [mbind result_bind]; [done|].
  rewrite py_truediv_float_1000. cbn [mbind result_bind].
  apply py_truediv_float.
Qed.

Lemma py_index_0_Ok {A : Type} (l : list A) (x : A) :
  py_index l 0 = Ok x → l !! 0%nat = Some x.
Proof. destruct l as [|y l]; [done|]. rewrite py_index_0. by intros [= ->]. Qed.

Section ThroughputClaims.
Context `{Builtins}.

(** What row 4A read and drew when it returned. *)
Lemma row4_sequential_Ok (seq : RunLog) (m : metrics) (arts : list artist) (tb : Z) :
  row4_sequential seq m = Ok (arts, tb) →
  ∃ curve t0 px v mb,
    progress_sequential seq m = Ok curve
    ∧ threads seq !! 0%nat = Some t0
    ∧ get_int t0 "pixels" = Ok px
    ∧ tb = px * 3
    ∧ throughput tb (wall_seq m) = Ok v
    ∧ megabytes tb = Ok mb
    ∧ arts = curve ++ [throughput_text_sequential (wall_seq m) v mb].
Proof.
  unfold row4_sequential.
  destruct (progress_sequential seq m) as [curve|]; [|done].
  cbn [mbind result_bind].
  destruct (py_index (threads seq) 0) as [t0|] eqn:Ht0; [|done].
  cbn [mbind result_bind].
  destruct (get_int t0 "pixels") as [px|] eqn:Hpx; [|done].
  cbn [mbind result_bind].
  destruct (throughput (px * 3) (wall_seq m)) as [v|] eqn:Hv; [|done].
  cbn [mbind result_bind].
  destruct (megabytes (px * 3)) as [mb|] eqn:Hmb; [|done].
  cbn [mbind result_bind]. intros [= <- <-].
  exists curve, t0, px, v, mb. repeat split; try done.
  by apply py_index_0_Ok.
Qed.

(** What row 4B computed and drew when it returned. *)
Lemma row4_parallel_Ok (par : RunLog) (m : metrics) (tb : Z) (arts : list artist) :
  row4_parallel par m tb = Ok arts →
  ∃ v mb,
    throughput tb (wall_par m) = Ok v
    ∧ megabytes tb = Ok mb
    ∧ throughput_text_parallel m v mb ∈ arts.
Proof.
  unfold row4_parallel.
  destruct (rconcat_map (progress_thread par) (threads par)) as [curves|]; [|done].
  cbn [mbind result_bind].
  destruct (throughput tb (wall_par m)) as [v|]; [|done].
  cbn [mbind result_bind].
  destruct (megabytes tb) as [mb|]; [|done].
  cbn [mbind result_bind]. intros [= <-].
  exists v, mb. split; [done|]. split; [done|].
  apply elem_of_cons. right. apply elem_of_app. right.
  unfold throughput_text_parallel. set_solver.
Qed.

(** The stages of a rendering that returned. *)
Lemma render_Ok (seq par : RunLog) (fig : list artist) :
  render seq par = Ok fig →
  ∃ m a1a a1b a2a a2b a3a a3b a4a tb a4b a5,
    derive seq par = Ok m
    ∧ row1_sequential seq m = Ok a1a
    ∧ row1_parallel par m = Ok a1b
    ∧ row2_sequential seq m = Ok a2a
    ∧ row2_parallel par m = Ok a2b
    ∧ pc_sequential seq m = Ok a3a
    ∧ row3_parallel par m = Ok a3b
    ∧ row4_sequential seq m = Ok (a4a, tb)
    ∧ row4_parallel par m tb = Ok a4b
    ∧ row5 seq m = Ok a5
    ∧ fig = a1a ++ a1b ++ a2a ++ a2b ++ a3a ++ a3b ++ a4a ++ a4b ++ a5.
Proof.
  unfold render.
  destruct (derive seq par) as [m|] eqn:E0; [|done]. cbn [mbind result_bind].
  destruct (row1_sequential seq m) as [a1a|] eqn:E1; [|done]. cbn [mbind result_bind].
  destruct (row1_parallel par m) as [a1b|] eqn:E2; [|done]. cbn [mbind result_bind].
  destruct (row2_sequential seq m) as [a2a|] eqn:E3; [|done]. cbn [mbind result_bind].
  destruct (row2_parallel par m) as [a2b|] eqn:E4; [|done]. cbn [mbind result_bind].
  destruct (pc_sequential seq m) as [a3a|] eqn:E5; [|done]. cbn [mbind result_bind].
  destruct (row3_parallel par m) as [a3b|] eqn:E6; [|done]. cbn [mbind result_bind].
  destruct (row4_sequential seq m) as [[a4a tb]|] eqn:E7; [|done].
  cbn [mbind result_bind fst snd].
  destruct (row4_parallel par m tb) as [a4b|] eqn:E8; [|done]. cbn [mbind result_bind].
  destruct (row5 seq m) as [a5|] eqn:E9; [|done]. cbn [mbind result_bind].
  intros [= <-]. exists m, a1a, a1b, a2a, a2b, a3a, a3b, a4a, tb, a4b, a5.
  by repeat split.
Qed.

(** C7 (amended): [total_bytes] is three times the [pixels] field of the
    first thread of the sequential log, and the same number serves both
    throughputs of a rendering.  A throughput is the int [0] whenever the
    wall time is not greater than 0 (zero, negative or NaN), not only when
    it is 0; when the wall time is positive it is
    [(total_bytes / 1024 / 1024) / (wall / 1000)], the megabyte count being
    computed by two successive divisions by 1024 (1_048_576 in all), as
    long as the kilobyte quotient is in the range of floats and
    [wall / 1000] has not rounded to zero. *)
Theorem throughput_guarded (tb : Z) (wall : float) :
  (fltb fzero wall = false → throughput tb wall = Ok (PyInt 0))
  ∧ (fltb fzero wall = true →
     is_inf (ratio tb 1024) = false →
     feqb (fdiv wall (dec 1000 0)) fzero = false →
     throughput tb wall
     = Ok (PyFloat (fdiv (fdiv (ratio tb 1024) (dec 1024 0))
                         (fdiv wall (dec 1000 0)))))
  ∧ (∀ seq par fig,
       render seq par = Ok fig →
       ∃ m t0 px vs vp mb,
         derive seq par = Ok m
         ∧ threads seq !! 0%nat = Some t0
         ∧ get_int t0 "pixels" = Ok px
         ∧ throughput (px * 3) (wall_seq m) = Ok vs
         ∧ throughput (px * 3) (wall_par m) = Ok vp
         ∧ megabytes (px * 3) = Ok mb
         ∧ throughput_text_sequential (wall_seq m) vs mb ∈ fig
         ∧ throughput_text_parallel m vp mb ∈ fig).
Proof.
  rewrite throughput_eq. repeat split.
  - by intros ->.
  - by intros -> -> ->.
  - intros seq par fig Hfig.
    apply render_Ok in Hfig
      as (m & a1a & a1b & a2a & a2b & a3a & a3b & a4a & tbs & a4b & a5
          & Hm & _ & _ & _ & _ & _ & _ & H4a & H4b & _ & ->).
    apply row4_sequential_Ok in H4a
      as (curve & t0 & px & vs & mb & _ & Ht0 & Hpx & -> & Hvs & Hmb & ->).
    apply row4_parallel_Ok in H4b as (vp & mb' & Hvp & Hmb' & Hin).
    rewrite Hmb in Hmb'. injection Hmb' as <-.
    exists m, t0, px, vs, vp, mb. repeat split; try done.
    + rewrite !elem_of_app. do 6 right. left. right. set_solver.
    + rewrite !elem_of_app. do 7 right. by left.
Qed.

End ThroughputClaims.

(** The spec's throughput example (1_000_000 pixels in 1000 ms, about 2.86
    MB/s), and a wall time of zero. *)
Lemma throughput_guarded_witness :
  throughput 3000000 (dec 1000 0) = Ok (PyFloat (ratio 3000000 1048576))
  ∧ throughput 3000000 fzero = Ok (PyInt 0).
Proof.
  destruct (throughput_guarded (H := Reference.builtins) 3000000 (dec 1000 0))
    as (_ & Hpos & _).
  destruct (throughput_guarded (H := Reference.builtins) 3000000 fzero)
    as (Hzero & _).
  split.
  - rewrite Hpos; vm_compute; reflexivity.
  - apply Hzero. vm_compute. reflexivity.
Defined.

(** C7 as stated fails on a negative wall time: 3 MiB in -1000 ms is a
    throughput of 0 for the code, of -3 MB/s for the claim's formula. *)
Lemma throughput_negative_wall :
  throughput 3145728 (fneg (dec 1000 0)) = Ok (PyInt 0)
  ∧ throughput_claimed 3145728 (fneg (dec 1000 0)) = Ok (PyFloat (fneg (dec 3 0)))
  ∧ throughput 3145728 (fneg (dec 1000 0))
    ≠ throughput_claimed 3145728 (fneg (dec 1000 0)).
Proof.
  split; [vm_compute; reflexivity|]. split; [vm_compute; reflexivity|].
  vm_compute. discriminate.
Qed.

(** ** The first thread of the sequential log *)

Section FirstThread.
Context `{Builtins}.

Lemma get_float_lacks (t : record) (k : string) :
  lacks_number py_float t k → ∃ e, get_float t k = Raise e.
Proof.
  unfold lacks_number, get_float, py_getitem.
  destruct (t !! k) as [s|]; cbn [mbind result_bind]; [|eauto].
  intros ->. simpl. eauto.
Qed.

Lemma get_int_lacks (t : record) (k : string) :
  lacks_number py_int t k → ∃ e, get_int t k = Raise e.
Proof.
  unfold lacks_number, get_int, py_getitem.
  destruct (t !! k) as [s|]; cbn [mbind result_bind]; [|eauto].
  intros ->. simpl. eauto.
Qed.

(** Lines 117-118 are reached whenever line 113 did not raise, and raise
    on an empty thread list or an unreadable CPU time. *)
Lemma row1_sequential_Raise (seq : RunLog) (m : metrics) :
  match threads seq with
  | [] => True
  | t0 :: _ =>
      lacks_number py_float t0 "cpu_user_ms" ∨ lacks_number py_float t0 "cpu_sys_ms"
  end →
  ∃ e, row1_sequential seq m = Raise e.
Proof.
  unfold row1_sequential.
  destruct (py_getitem (meta seq) "pid") as [pid|]; cbn [mbind result_bind]; [|eauto].
  destruct (threads seq) as [|t0 rest]; [eauto|].
  rewrite py_index_0. cbn [mbind result_bind].
  intros [Hu|Hs].
  - destruct (get_float_lacks t0 _ Hu) as [e ->]. eauto.
  - destruct (get_float t0 "cpu_user_ms"); cbn [mbind result_bind]; [|eauto].
    destruct (get_float_lacks t0 _ Hs) as [e ->]. eauto.
Qed.

(** Line 437 is reached whenever the progress panel did not raise, and
    raises on an unreadable pixel count. *)
Lemma row4_sequential_Raise (seq : RunLog) (m : metrics) (t0 : record)
    (rest : list record) :
  threads seq = t0 :: rest →
  lacks_number py_int t0 "pixels" →
  ∃ e, row4_sequential seq m = Raise e.
Proof.
  intros Ht Hpx. unfold row4_sequential.
  destruct (progress_sequential seq m); cbn [mbind result_bind]; [|eauto].
  rewrite Ht, py_index_0. cbn [mbind result_bind].
  destruct (get_int_lacks t0 _ Hpx) as [e ->]. eauto.
Qed.

Lemma render_Raise (seq par : RunLog) :
  first_thread_unusable seq → ∃ e, render seq par = Raise e.
Proof.
  intros Hbad. unfold render.
  destruct (derive seq par) as [m|]; cbn [mbind result_bind]; [|eauto].
  destruct (row1_sequential seq m) as [a1a|] eqn:H1; cbn [mbind result_bind]; [|eauto].
  unfold first_thread_unusable in Hbad.
  destruct (threads seq) as [|t0 rest] eqn:Ht.
  { destruct (row1_sequential_Raise seq m) as [e He]; [by rewrite Ht|congruence]. }
  destruct Hbad as [Hu|[Hs|Hpx]].
  { destruct (row1_sequential_Raise seq m) as [e He]; [rewrite Ht; by left|congruence]. }
  { destruct (row1_sequential_Raise seq m) as [e He]; [rewrite Ht; by right|congruence]. }
  destruct (row1_parallel par m); cbn [mbind result_bind]; [|eauto].
  destruct (row2_sequential seq m); cbn [mbind result_bind]; [|eauto].
  destruct (row2_parallel par m); cbn [mbind result_bind]; [|eauto].
  destruct (pc_sequential seq m); cbn [mbind result_bind]; [|eauto].
  destruct (row3_parallel par m); cbn [mbind result_bind]; [|eauto].
  destruct (row4_sequential_Raise seq m t0 rest Ht Hpx) as [e ->]. eauto.
Qed.

(** C10: when the sequential log has no thread, or its first thread lacks
    [cpu_user_ms], [cpu_sys_ms] or [pixels] or holds there a text that does
    not read as a number, the rendering raises, whatever the parallel log
    and whether or not the log has samples; a run of [generate_gantt] that
    parsed such a sequential log ends in an exception and saves no
    image. *)
Theorem first_thread_required (seq : RunLog) :
  first_thread_unusable seq →
  (∀ par, ∃ e, render seq par = Raise e)
  ∧ (∀ w seq_csv par_csv output_path,
       parse_csv (files w) seq_csv = Ok seq →
       ∃ e, (generate_gantt w seq_csv par_csv output_path).2 = Raise e
            ∧ saved (generate_gantt w seq_csv par_csv output_path) = []).
Proof.
  intros Hbad. split; [intros par; by apply render_Raise|].
  intros w seq_csv par_csv output_path Hseq. unfold generate_gantt.
  destruct (matplotlib_installed w); cbn [negb]; [|eauto].
  rewrite Hseq.
  destruct (parse_csv (files w) par_csv) as [par|]; [|eauto].
  destruct (render_Raise seq par Hbad) as [e ->]. eauto.
Qed.

End FirstThread.

(** A sequential log without thread rows and without samples: the run
    raises [IndexError] and writes nothing. *)
Lemma first_thread_required_witness :
  (generate_gantt (H := Reference.builtins) example_world
     "seq3.csv" "par2.csv" "out.png").2 = Raise IndexError
  ∧ saved (generate_gantt (H := Reference.builtins) example_world
             "seq3.csv" "par2.csv" "out.png") = [].
Proof.
  destruct (first_thread_required (H := Reference.builtins)
              (parsed seq_log_no_threads))
    as (_ & Hrun); [vm_compute; exact I|].
  destruct (Hrun example_world "seq3.csv" "par2.csv" "out.png")
    as (e & He & Hsaved); [vm_compute; reflexivity|].
  split; [|exact Hsaved].
  rewrite He. vm_compute in He. congruence.
Defined.

(** ** The command line *)

Section CommandLine.
Context `{Builtins}.

Lemma generate_gantt_installed (w : world) (a1 a2 a3 : string) :
  matplotlib_installed w = true →
  generate_gantt w a1 a2 a3
  = match parse_csv (files w) a1 with
    | Raise e => ([Open a1], Raise e)
    | Ok seq =>
        match parse_csv (files w) a2 with
        | Raise e => ([Open a1; Open a2], Raise e)
        | Ok par =>
            match render seq par with
            | Raise e => ([Open a1; Open a2], Raise e)
            | Ok fig =>
                ([ Open a1; Open a2; SaveFig a3 fig;
                   Print [Lit nl; Lit "  Diagrama de Gantt generado: "; Str a3] ],
                 Ok ())
            end
        end
    end.
Proof. intros Hw. unfold generate_gantt. by rewrite Hw. Qed.

(** C9 (amended): with fewer than three arguments after the program name,
    [main] prints the usage line naming the program, exits with status 1
    and opens no file.  With three arguments or more it calls
    [generate_gantt] on the first three; provided matplotlib can be
    imported, that run opens the sequential log first, the parallel log
    once the first is parsed, renders once both are parsed, and saves the
    figure when the rendering returns; when matplotlib cannot be imported
    it prints the install hint and exits with status 1 before any file is
    opened. *)
Theorem main_usage (w : world) (prog : string) (args : list string) :
  ((length args < 3)%nat →
   main w (prog :: args)
   = ([Print [Lit "Uso: "; Str prog;
              Lit " <csv_secuencial> <csv_paralelo> <output.png>"]],
      Raise (SystemExit 1))
   ∧ exit_status (main w (prog :: args)) = 1
   ∧ opened (main w (prog :: args)) = [])
  ∧ (∀ a1 a2 a3 more,
       args = a1 :: a2 :: a3 :: more →
       main w (prog :: args) = generate_gantt w a1 a2 a3
       ∧ (matplotlib_installed w = true →
          (∀ e, parse_csv (files w) a1 = Raise e →
                main w (prog :: args) = ([Open a1], Raise e))
          ∧ (∀ seq e, parse_csv (files w) a1 = Ok seq →
                      parse_csv (files w) a2 = Raise e →
                      main w (prog :: args) = ([Open a1; Open a2], Raise e))
          ∧ (∀ seq par e, parse_csv (files w) a1 = Ok seq →
                          parse_csv (files w) a2 = Ok par →
                          render seq par = Raise e →
                          main w (prog :: args) = ([Open a1; Open a2], Raise e))
          ∧ (∀ seq par fig, parse_csv (files w) a1 = Ok seq →
                            parse_csv (files w) a2 = Ok par →
                            render seq par = Ok fig →
                            main w (prog :: args)
                            = ([ Open a1; Open a2; SaveFig a3 fig;
                                 Print [Lit nl; Lit "  Diagrama de Gantt generado: ";
                                        Str a3] ],
                               Ok ())))
       ∧ (matplotlib_installed w = false →
          main w (prog :: args)
          = ([Print [Lit "Error: pip3 install matplotlib"]], Raise (SystemExit 1)))).
Proof.
  split.
  - intros Hlen.
    assert (Hmain : main w (prog :: args)
                    = ([Print [Lit "Uso: "; Str prog;
                               Lit " <csv_secuencial> <csv_paralelo> <output.png>"]],
                       Raise (SystemExit 1))).
    { unfold main. rewrite py_index_0.
      replace (len (prog :: args) <? 4) with true; [done|].
      symmetry. apply Z.ltb_lt. unfold len. simpl length. lia. }
    rewrite Hmain. done.
  - intros a1 a2 a3 more ->.
    assert (Hmain : main w (prog :: a1 :: a2 :: a3 :: more) = generate_gantt w a1 a2 a3).
    { unfold main.
      replace (len (prog :: a1 :: a2 :: a3 :: more) <? 4) with false.
      - rewrite (py_index_lookup _ 1 a1), (py_index_lookup _ 2 a2),
          (py_index_lookup _ 3 a3) by done. done.
      - symmetry. apply Z.ltb_ge. unfold len. simpl length. lia. }
    rewrite Hmain. split; [done|]. split.
    + intros Hw. rewrite (generate_gantt_installed w a1 a2 a3 Hw). repeat split.
      * by intros e ->.
      * by intros seq e -> ->.
      * by intros seq par e -> -> ->.
      * by intros seq par fig -> -> ->.
    + intros Hw. unfold generate_gantt. by rewrite Hw.
Qed.

End CommandLine.

(** Two arguments: usage and status 1; the two example logs: both are
    opened in order, the figure is saved and the status is 0. *)
Lemma main_usage_witness :
  main (H := Reference.builtins) example_world ["prog"; "seq.csv"; "par.csv"]
  = ([Print [Lit "Uso: "; Str "prog";
             Lit " <csv_secuencial> <csv_paralelo> <output.png>"]],
     Raise (SystemExit 1))
  ∧ opened (main (H := Reference.builtins) example_world
              ["prog"; "seq.csv"; "par.csv"; "out.png"])
    = ["seq.csv"; "par.csv"]
  ∧ saved (main (H := Reference.builtins) example_world
             ["prog"; "seq.csv"; "par.csv"; "out.png"])
    = ["out.png"]
  ∧ exit_status (main (H := Reference.builtins) example_world
                   ["prog"; "seq.csv"; "par.csv"; "out.png"]) = 0.
Proof.
  destruct (main_usage (H := Reference.builtins) example_world "prog"
              ["seq.csv"; "par.csv"]) as (Hfew & _).
  destruct (main_usage (H := Reference.builtins) example_world "prog"
              ["seq.csv"; "par.csv"; "out.png"]) as (_ & Hrun).
  destruct (Hrun "seq.csv" "par.csv" "out.png" [] eq_refl) as (Hcall & _).
  split; [apply Hfew; simpl; lia|].
  rewrite Hcall. vm_compute. repeat split; reflexivity.
Defined.

(** C9 as stated fails when matplotlib cannot be imported: with three
    arguments the run opens no log, prints the install hint and exits with
    status 1. *)
Lemma main_without_matplotlib :
  main (H := Reference.builtins) bare_world ["prog"; "seq.csv"; "par.csv"; "out.png"]
  = ([Print [Lit "Error: pip3 install matplotlib"]], Raise (SystemExit 1))
  ∧ opened (main (H := Reference.builtins) bare_world
              ["prog"; "seq.csv"; "par.csv"; "out.png"]) = []
  ∧ saved (main (H := Reference.builtins) bare_world
             ["prog"; "seq.csv"; "par.csv"; "out.png"]) = [].
Proof. vm_compute. repeat split; reflexivity. Qed.

(** ** Logs without a sample trace *)

Section NoSamples.
Context `{Builtins}.


End NoSamples.


(** ** Context-switch markers *)

Lemma rmap_ext {A B : Type} (f : A → result B) (g : A → B) (l : list A) :
  (∀ x, x ∈ l → f x = Ok (g x)) → rmap f l = Ok (g <$> l).
Proof.
  induction l as [|x l IH]; intros Hl; simpl; [done|].
  rewrite Hl by (by left). cbn [mbind result_bind].
  rewrite IH by (intros y Hy; apply Hl; by right). done.
Qed.

Lemma rconcat_map_ext {A B : Type} (f : A → result (list B)) (g : A → list B)
    (l : list A) :
  (∀ x, x ∈ l → f x = Ok (g x)) → rconcat_map f l = Ok (concat (g <$> l)).
Proof. intros Hl. unfold rconcat_map. by rewrite (rmap_ext f g l Hl). Qed.

Lemma elem_of_range (a b k : Z) : k ∈ range a b ↔ a <= k < b.
Proof. unfold range. rewrite elem_of_seqZ. lia. Qed.

Lemma py_index_at {A : Type} (d : A) (l : list A) (j : Z) :
  0 <= j < len l → py_index l j = Ok (default d (l !! Z.to_nat j)).
Proof.
  intros Hj. unfold len in Hj.
  destruct (lookup_lt_is_Some_2 l (Z.to_nat j)) as [x Hx]; [lia|].
  rewrite Hx. simpl. rewrite <- (Z2Nat.id j) by lia. by apply py_index_lookup.
Qed.

Lemma py_index_first {A : Type} (d : A) (l : list A) :
  0 < len l → py_index l 0 = Ok (default d (head l)).
Proof. destruct l as [|x l]; unfold len; simpl; [lia|]. intros _. apply py_index_0. Qed.

Lemma py_index_final {A : Type} (d : A) (l : list A) :
  0 < len l → py_index l (-1) = Ok (default d (last l)).
Proof.
  intros Hl. destruct (last l) as [x|] eqn:Hx.
  - by apply py_index_last.
  - apply last_None in Hx as ->. unfold len in Hl. simpl in Hl. lia.
Qed.

Lemma py_mul_float_4 (x : float) :
  py_mul (PyFloat x) (PyInt 4) = Ok (PyFloat (fmul x (dec 4 0))).
Proof.
  unfold py_mul, arith. cbn [to_float mbind result_bind].
  by replace (float_of_int 4) with (Ok (dec 4 0)) by (vm_compute; reflexivity).
Qed.

Lemma py_add_int_float (z : Z) (c : float) :
  Z.abs z < 2 ^ 1023 →
  py_add (PyInt z) (PyFloat c) = Ok (PyFloat (fadd (int_as_float z) c)).
Proof.
  intros Hz. unfold py_add, arith. cbn [to_float].
  by rewrite float_of_int_small.
Qed.

Lemma py_gt_float (a b : float) : py_gt (PyFloat a) (PyFloat b) = fltb b a.
Proof. done. Qed.

(** The average of line 266 with two samples or more, within the range of
    floats: the span of the timestamps over the number of samples. *)
Lemma average_eq (times : list float) (gap : num) :
  2 <= len times < 2 ^ 1023 →
  average times gap = Ok (PyFloat (average_gap times)).
Proof.
  intros Hlen. unfold average.
  rewrite (proj2 (Z.ltb_lt 1 (len times))) by lia.
  rewrite (py_index_final fzero times), (py_index_first fzero times) by lia.
  cbn [mbind result_bind].
  rewrite py_truediv_float_nonzero, float_of_int_small by lia. done.
Qed.

(** With fewer than two samples it falls back to the gap. *)
Lemma average_fallback (times : list float) (gap : num) :
  len times < 2 → average times gap = Ok gap.
Proof.
  intros Hlen. unfold average.
  by rewrite (proj2 (Z.ltb_ge 1 (len times))) by lia.
Qed.

(** One turn of the loop, for an index the loop reaches. *)
Lemma context_switch_eq (times : list float) (core j : Z) :
  1 <= j < len times → len times < 2 ^ 1023 → Z.abs core < 2 ^ 1023 →
  context_switch times core j
  = Ok (if is_context_switch times j then cs_marker times core j else []).
Proof.
  intros Hj Hlen Hcore. unfold context_switch.
  rewrite (py_index_at fzero times j) by lia. cbn [mbind result_bind].
  rewrite (py_index_at fzero times (j - 1)) by lia. cbn [mbind result_bind].
  rewrite average_eq by lia. cbn [mbind result_bind].
  rewrite py_mul_float_4. cbn [mbind result_bind].
  rewrite py_gt_float, py_gt_zero.
  fold (at_index times j) (at_index times (j - 1)).
  unfold is_context_switch.
  destruct (fltb (fmul (average_gap times) (dec 4 0))
              (fsub (at_index times j) (at_index times (j - 1)))
            && fltb fzero (average_gap times)); [|done].
  rewrite !py_add_int_float by done. done.
Qed.

Lemma rmap_Ok_elem {A B : Type} (f : A → result B) (l : list A) (ys : list B)
    (y : B) :
  rmap f l = Ok ys → y ∈ ys → ∃ a, a ∈ l ∧ f a = Ok y.
Proof.
  revert ys. induction l as [|a l IH]; intros ys; simpl.
  - intros [= <-] ?%elem_of_nil. done.
  - destruct (f a) as [b|] eqn:Hb; cbn [mbind result_bind]; [|done].
    destruct (rmap f l) as [bs|]; cbn [mbind result_bind]; [|done].
    intros [= <-] [->|Hin]%elem_of_cons.
    + exists a. split; [by left|done].
    + destruct (IH bs eq_refl Hin) as (a' & Ha' & Hf). exists a'. split; [by right|done].
Qed.

Lemma elem_of_concat {A : Type} (x : A) (ls : list (list A)) :
  x ∈ concat ls → ∃ l, x ∈ l ∧ l ∈ ls.
Proof.
  induction ls as [|l ls IH]; simpl.
  - by intros ?%elem_of_nil.
  - intros [Hx|Hx]%elem_of_app.
    + exists l. split; [done|by left].
    + destruct (IH Hx) as (l' & Hl' & Hin). exists l'. split; [done|by right].
Qed.

Lemma rconcat_map_elem {A B : Type} (f : A → result (list B)) (l : list A)
    (ys : list B) (y : B) :
  rconcat_map f l = Ok ys → y ∈ ys → ∃ a zs, a ∈ l ∧ f a = Ok zs ∧ y ∈ zs.
Proof.
  unfold rconcat_map. destruct (rmap f l) as [zss|] eqn:Hm; cbn [mbind result_bind]; [|done].
  intros [= <-] (zs & Hy & Hzs)%elem_of_concat.
  destruct (rmap_Ok_elem f l zss zs Hm Hzs) as (a & Ha & Hf). eauto.
Qed.

Lemma int_mod_Ok (a b r : Z) : int_mod a b = Ok r → b ≠ 0 ∧ r = a mod b.
Proof.
  unfold int_mod. destruct (b =? 0) eqn:Hb; [done|].
  apply Z.eqb_neq in Hb. by intros [= <-].
Qed.

Lemma rconcat_map_Ok_incl {A B : Type} (f : A → result (list B)) (l : list A)
    (ys : list B) (a : A) :
  rconcat_map f l = Ok ys → a ∈ l → ∃ zs, f a = Ok zs ∧ ∀ y, y ∈ zs → y ∈ ys.
Proof.
  unfold rconcat_map. destruct (rmap f l) as [zss|] eqn:Hm; cbn [mbind result_bind]; [|done].
  intros [= <-]. revert zss Hm. induction l as [|x l IH]; intros zss Hm Hin.
  - by apply elem_of_nil in Hin.
  - simpl in Hm. destruct (f x) as [zs|] eqn:Hx; cbn [mbind result_bind] in Hm; [|done].
    destruct (rmap f l) as [zss'|]; cbn [mbind result_bind] in Hm; [|done].
    injection Hm as <-. apply elem_of_cons in Hin as [->|Hin].
    + exists zs. split; [done|]. intros y Hy. simpl. apply elem_of_app. by left.
    + destruct (IH zss' eq_refl Hin) as (zs' & Ha & Hsub).
      exists zs'. split; [done|]. intros y Hy. simpl. apply elem_of_app. right. by apply Hsub.
Qed.

Section ContextSwitches.
Context `{Builtins}.

(** The artists of panel 2B: the title, what the loop over the threads
    drew, and four artists that follow the loop. *)
Lemma row2_parallel_Ok (par : RunLog) (m : metrics) (arts : list artist) :
  row2_parallel par m = Ok arts →
  ∃ title bars x1 x2 x3 x4,
    rconcat_map (row2_thread par m) (threads par) = Ok bars
    ∧ arts = title :: bars ++ [x1; x2; x3; x4]
    ∧ (∀ s xy xytext,
         Annotate Ax2b s xy xytext ∈ arts → Annotate Ax2b s xy xytext ∈ bars).
Proof.
  unfold row2_parallel. intros Hrow. bind_ok Hrow. injection Hrow as <-.
  do 6 eexists. split; [reflexivity|]. split; [reflexivity|].
  intros s xy xytext [Hin|[Hin|Hin]%elem_of_app]%elem_of_cons; [done|done|].
  no_elem Hin.
Qed.

(** What one turn of the loop over the threads drew (lines 247-272). *)
Lemma row2_thread_Ok (par : RunLog) (m : metrics) (t : record) (zs : list artist) :
  row2_thread par m t = Ok zs →
  ∃ tid start end_ c cs,
    get_int t "thread_id" = Ok tid
    ∧ get_float t "start_ms" = Ok start
    ∧ get_float t "end_ms" = Ok end_
    ∧ color_of tid = Ok c
    ∧ nt m ≠ 0
    ∧ context_switches par tid (tid mod nt m) = Ok cs
    ∧ zs = [ Barh Ax2b (PyInt (tid mod nt m)) (PyFloat (fsub end_ start))
               (PyFloat start) c;
             Text Ax2b (PyFloat (fadd start (fdiv (fsub end_ start) (dec 2 0))))
               (PyInt (tid mod nt m)) [Lit "H-"; Fmt (PyInt tid) ""] ] ++ cs.
Proof.
  unfold row2_thread. intros Hrow. bind_ok Hrow. injection Hrow as <-.
  match goal with
  | Hm : int_mod _ _ = Ok _ |- _ => apply int_mod_Ok in Hm as (Hnt & ->)
  end.
  do 5 eexists. repeat split; try done.
Qed.

(** C2: for a thread of the parallel log that has samples, with
    timestamps [times], the markers drawn are exactly those of the indices
    [j] of [1 .. len(times) - 1], in order, at which the gap
    [times[j] - times[j-1]] exceeds 4 times the average and the average is
    positive, the average being [(times[-1] - times[0]) / len(times)]: the
    divisor is the number of samples.  The expression of the average falls
    back to the gap itself when there are fewer than two samples; the loop
    then has no turn and nothing is drawn.  In the loop over the threads
    of the parallel log, the turn of such a thread, on the core
    [tid % nt], draws its bar, its label and then exactly these markers;
    all of them are in the figure when the rendering returns; and every
    arrow of panel 2B is a marker of a thread of the log, on that thread's
    core.  (The number of samples and the core are within the range of
    floats: below [2^1023].) *)
Theorem context_switch_rule (par : RunLog) (tid core : Z) (samples : list record)
    (times : list float) :
  od_get tid (pc_samples par) = Some samples →
  timestamps samples = Ok times →
  len times < 2 ^ 1023 →
  Z.abs core < 2 ^ 1023 →
  let markers :=
    concat ((fun j => if is_context_switch times j
                      then cs_marker times core j else [])
            <$> range 1 (len times)) in
  context_switches par tid core = Ok markers
  ∧ (∀ j, 1 <= j < len times →
          context_switch times core j = Ok (cs_marker times core j)
          ↔ is_context_switch times j = true)
  ∧ (∀ gap, 2 <= len times → average times gap = Ok (PyFloat (average_gap times)))
  ∧ (∀ gap, len times < 2 → average times gap = Ok gap)
  ∧ (len times < 2 → context_switches par tid core = Ok [])
  ∧ (∀ m t start end_ c,
       get_int t "thread_id" = Ok tid →
       get_float t "start_ms" = Ok start →
       get_float t "end_ms" = Ok end_ →
       color_of tid = Ok c →
       int_mod tid (nt m) = Ok core →
       row2_thread par m t
       = Ok ([ Barh Ax2b (PyInt core) (PyFloat (fsub end_ start)) (PyFloat start) c;
               Text Ax2b (PyFloat (fadd start (fdiv (fsub end_ start) (dec 2 0))))
                 (PyInt core) [Lit "H-"; Fmt (PyInt tid) ""] ]
             ++ markers))
  ∧ (∀ seq m fig t,
       t ∈ threads par →
       get_int t "thread_id" = Ok tid →
       derive seq par = Ok m →
       core = tid mod nt m →
       render seq par = Ok fig →
       ∀ a, a ∈ markers → a ∈ fig)
  ∧ (∀ m arts s xy xytext,
       row2_parallel par m = Ok arts →
       Annotate Ax2b s xy xytext ∈ arts →
       ∃ t tid' cs,
         t ∈ threads par
         ∧ get_int t "thread_id" = Ok tid'
         ∧ nt m ≠ 0
         ∧ context_switches par tid' (tid' mod nt m) = Ok cs
         ∧ Annotate Ax2b s xy xytext ∈ cs).
Proof.
  intros Hget Htimes Hlen Hcore markers.
  assert (Hall : context_switches par tid core = Ok markers).
  { unfold context_switches. rewrite Hget, Htimes. cbn [mbind result_bind].
    apply rconcat_map_ext. intros j Hj. apply elem_of_range in Hj.
    by apply context_switch_eq. }
  split; [done|]. split; [|split; [|split; [|split; [|split; [|split]]]]].
  - intros j Hj. rewrite (context_switch_eq times core j) by done.
    destruct (is_context_switch times j); split; done.
  - intros gap Hlong. apply average_eq. lia.
  - intros gap. apply average_fallback.
  - intros Hshort. rewrite Hall. unfold markers, range.
    by rewrite seqZ_nil by lia.
  - intros m t start end_ c Htid Hstart Hend Hc Hmod. unfold row2_thread.
    rewrite Htid, Hstart, Hend. cbn [mbind result_bind].
    rewrite Hc. cbn [mbind result_bind]. rewrite Hmod. cbn [mbind result_bind].
    by rewrite Hall.
  - intros seq m fig t Hin Htid Hm Hmod Hfig a Ha.
    apply render_Ok in Hfig
      as (m' & a1a & a1b & a2a & a2b & a3a & a3b & a4a & tb & a4b & a5
          & Hm' & _ & _ & _ & H2b & _ & _ & _ & _ & _ & ->).
    rewrite Hm in Hm'. injection Hm' as <-.
    apply row2_parallel_Ok in H2b
      as (title & bars & x1 & x2 & x3 & x4 & Hbars & -> & _).
    destruct (rconcat_map_Ok_incl _ _ _ t Hbars Hin) as (zs & Hzs & Hsub).
    apply row2_thread_Ok in Hzs
      as (tid' & start & end_ & c & cs & Htid' & _ & _ & _ & _ & Hcs & ->).
    rewrite Htid in Htid'. injection Htid' as <-.
    rewrite <- Hmod, Hall in Hcs. injection Hcs as <-.
    rewrite !elem_of_app. do 3 right. left.
    right. apply elem_of_app. left.
    apply Hsub. apply elem_of_app. by right.
  - intros m arts s xy xytext Hrow Hin.
    apply row2_parallel_Ok in Hrow
      as (title & bars & x1 & x2 & x3 & x4 & Hbars & _ & Hann).
    apply Hann in Hin.
    destruct (rconcat_map_elem _ _ _ _ Hbars Hin) as (t & zs & Ht & Hzs & Hzin).
    apply row2_thread_Ok in Hzs
      as (tid' & start & end_ & c & cs & Htid' & _ & _ & _ & Hnt & Hcs & ->).
    exists t, tid', cs. repeat split; try done.
    apply elem_of_app in Hzin as [Hzin|Hzin]; [|done]. no_elem Hzin.
Qed.

End ContextSwitches.

(** Thread 0 of a parallel log has samples at 0, 1, ..., 6 and 60 ms: the
    average is 60 / 8 = 7.5 ms and only the last gap, 54 ms, exceeds
    30 ms.  Its turn of the loop draws the bar, the label and one marker,
    between samples 6 and 7, and the marker is in the figure. *)
Lemma context_switch_rule_witness :
  row2_thread (H := Reference.builtins) par_cs metrics_2 thread_0
  = Ok ([ Barh Ax2b (PyInt 0) (PyFloat (fsub (dec 20 0) fzero)) (PyFloat fzero)
            "#E74C3C";
          Text Ax2b (PyFloat (fadd fzero (fdiv (fsub (dec 20 0) fzero) (dec 2 0))))
            (PyInt 0) [Lit "H-"; Fmt (PyInt 0) ""] ]
        ++ cs_marker times_cs 0 7)
  ∧ ∃ fig, render (H := Reference.builtins) seq_plain par_cs = Ok fig
           ∧ ∀ a, a ∈ cs_marker times_cs 0 7 → a ∈ fig.
Proof.
  destruct (context_switch_rule (H := Reference.builtins) par_cs 0 0
              samples_cs times_cs)
    as (_ & _ & _ & _ & _ & Hthread & Hfig & _);
    [reflexivity|vm_compute; reflexivity..|].
  split.
  - rewrite (Hthread metrics_2 thread_0 fzero (dec 20 0) "#E74C3C");
      vm_compute; reflexivity.
  - eexists. split; [vm_compute; reflexivity|]. intros a Ha.
    eapply (Hfig seq_plain metrics_2 _ thread_0);
      [by left|vm_compute; reflexivity..|].
    vm_compute. vm_compute in Ha. exact Ha.
Defined.

(** * Further properties *)

(** ** [strip] and the stored keys and values *)

Lemma rstrip_cons_nonspace (c : ascii) (s : string) :
  is_space c = false → rstrip (String c s) = String c (rstrip s).
Proof. intros Hc. simpl. rewrite Hc. by destruct (rstrip s). Qed.

Lemma rstrip_idemp (s : string) : rstrip (rstrip s) = rstrip s.
Proof.
  induction s as [|c s IH]; [done|]. simpl.
  destruct (rstrip s) as [|c' r] eqn:Hr.
  - destruct (is_space c) eqn:Hc; [done|]. simpl. by rewrite Hc.
  - simpl in IH. simpl. destruct (rstrip r) as [|c'' r'] eqn:Hr'.
    + destruct (is_space c'); [done|]. by injection IH as ->.
    + by rewrite IH.
Qed.

Lemma lstrip_head (s : string) :
  lstrip s = EmptyString ∨ ∃ c r, lstrip s = String c r ∧ is_space c = false.
Proof.
  induction s as [|c s IH]; [by left|]. simpl.
  destruct (is_space c) eqn:Hc; [done|]. right. eauto.
Qed.

(** [s.strip().strip() == s.strip()] *)
Lemma strip_idemp (s : string) : strip (strip s) = strip s.
Proof.
  unfold strip. destruct (lstrip_head s) as [->|(c & r & -> & Hc)]; [done|].
  rewrite rstrip_cons_nonspace by done. simpl lstrip. rewrite Hc.
  rewrite rstrip_cons_nonspace by done. by rewrite rstrip_idemp.
Qed.
(** ** The ordered dictionary [pc_samples] *)

Lemma od_set_set {V : Type} (k : Z) (v v' : V) (d : odict V) :
  od_set k v (od_set k v' d) = od_set k v d.
Proof.
  induction d as [|[k' w] d IH]; simpl.
  - by rewrite Z.eqb_refl.
  - destruct (k' =? k) eqn:Hk; simpl; rewrite Hk; [done|]. by rewrite IH.
Qed.

Lemma od_get_elem {V : Type} (k : Z) (v : V) (d : odict V) :
  od_get k d = Some v → (k, v) ∈ d.
Proof.
  induction d as [|[k' w] d IH]; simpl; [done|].
  destruct (k' =? k) eqn:Hk.
  - apply Z.eqb_eq in Hk as ->. intros [= ->]. by left.
  - intros Hg. right. by apply IH.
Qed.

Lemma od_mem_keys {V : Type} (k : Z) (d : odict V) :
  od_mem k d = true ↔ k ∈ d.*1.
Proof.
  unfold od_mem. induction d as [|[k' w] d IH]; simpl.
  - split; [done|]. by intros ?%elem_of_nil.
  - rewrite elem_of_cons. destruct (k' =? k) eqn:Hk.
    + apply Z.eqb_eq in Hk. split; [by left|done].
    + apply Z.eqb_neq in Hk. rewrite IH. split; [by right|]. by intros [->|].
Qed.

Lemma od_set_keys {V : Type} (k : Z) (v : V) (d : odict V) :
  (od_set k v d).*1 = if od_mem k d then d.*1 else d.*1 ++ [k].
Proof.
  unfold od_mem. induction d as [|[k' w] d IH]; csimpl; [done|].
  destruct (k' =? k) eqn:Hk; csimpl; [done|].
  rewrite IH. by destruct (od_get k d).
Qed.

Lemma od_set_NoDup {V : Type} (k : Z) (v : V) (d : odict V) :
  NoDup d.*1 → NoDup (od_set k v d).*1.
Proof.
  intros Hd. rewrite od_set_keys. destruct (od_mem k d) eqn:Hm; [done|].
  apply NoDup_app. split; [done|]. split; [|apply NoDup_singleton].
  intros x Hx ->%list_elem_of_singleton.
  apply od_mem_keys in Hx. congruence.
Qed.

Lemma elem_of_od_set {V : Type} (k k' : Z) (v v' : V) (d : odict V) :
  (k', v') ∈ od_set k v d → (k' = k ∧ v' = v) ∨ (k', v') ∈ d.
Proof.
  induction d as [|[k0 w] d IH]; simpl.
  - intros [=]%list_elem_of_singleton. by left.
  - destruct (k0 =? k) eqn:Hk.
    + apply Z.eqb_eq in Hk as ->.
      intros [[=]|Hin]%elem_of_cons; [by left|]. right. by right.
    + intros [->|Hin]%elem_of_cons; [right; by left|].
      destruct (IH Hin) as [?|?]; [by left|]. right. by right.
Qed.

Lemma sample_count_set (k : Z) (s : record) (d : odict (list record)) :
  sample_count (od_set k (default [] (od_get k d) ++ [s]) d) = S (sample_count d).
Proof.
  unfold sample_count. induction d as [|[k' l] d IH]; csimpl; [done|].
  destruct (k' =? k) eqn:Hk; csimpl.
  - rewrite length_app. simpl. lia.
  - rewrite IH. lia.
Qed.

Lemma od_set_concat (k : Z) (s : record) (d : odict (list record)) :
  concat (od_set k (default [] (od_get k d) ++ [s]) d).*2 ≡ₚ concat d.*2 ++ [s].
Proof.
  induction d as [|[k' l] d IH]; csimpl; [done|].
  destruct (k' =? k) eqn:Hk; csimpl.
  - rewrite <- !(assoc_L (++)). apply Permutation_app_head, Permutation_app_comm.
  - rewrite IH. by rewrite (assoc_L (++)).
Qed.

Section SampleInvariants.
Context `{Builtins}.

(** The body of the loop over the rows stores the row's record at the end
    of the list of its thread, whether the list existed or not. *)
Lemma add_sample_set (header : list string) (pc : odict (list record))
    (line : string) :
  add_sample header pc line
  = (tid ← row_tid header line;
     Ok (od_set tid (default [] (od_get tid pc)
                       ++ [zip_record header (split comma line)]) pc)).
Proof.
  rewrite add_sample_tid. destruct (row_tid header line) as [tid|]; [|done].
  cbn [mbind result_bind]. unfold od_mem.
  destruct (od_get tid pc) as [l|] eqn:Hg; [by rewrite Hg|].
  by rewrite od_get_set_eq, od_set_set.
Qed.

Lemma add_samples_invariant (I : odict (list record) → Prop)
    (header : list string) (rows : list string) :
  (∀ pc tid line,
     I pc → line ∈ rows → row_tid header line = Ok tid →
     I (od_set tid (default [] (od_get tid pc)
                      ++ [zip_record header (split comma line)]) pc)) →
  ∀ pc pc', I pc → add_samples header pc rows = Ok pc' → I pc'.
Proof.
  induction rows as [|line rows IH]; intros Hstep pc pc' Hpc; simpl.
  - by intros [= <-].
  - rewrite add_sample_set.
    destruct (row_tid header line) as [tid|] eqn:Ht; [|done].
    cbn [mbind result_bind]. apply IH.
    + intros pc0 tid0 line0 H0 Hin. apply Hstep; [done|by right].
    + apply Hstep; [done|by left|done].
Qed.

Lemma add_samples_count (header : list string) (rows : list string) :
  ∀ pc pc', add_samples header pc rows = Ok pc' →
            sample_count pc' = (sample_count pc + length rows)%nat.
Proof.
  induction rows as [|line rows IH]; intros pc pc'; simpl.
  - intros [= <-]. lia.
  - rewrite add_sample_set.
    destruct (row_tid header line) as [tid|] eqn:Ht; [|done].
    cbn [mbind result_bind]. intros Hadd. rewrite (IH _ _ Hadd).
    rewrite sample_count_set. lia.
Qed.

Lemma add_samples_rows (header : list string) (rows : list string) :
  ∀ pc pc', add_samples header pc rows = Ok pc' →
            concat pc'.*2
            ≡ₚ concat pc.*2
               ++ ((fun row => zip_record header (split comma row)) <$> rows).
Proof.
  induction rows as [|line rows IH]; intros pc pc'; simpl.
  - intros [= <-]. by rewrite (right_id_L [] (++)).
  - rewrite add_sample_set.
    destruct (row_tid header line) as [tid|] eqn:Ht; [|done].
    cbn [mbind result_bind]. intros Hadd. rewrite (IH _ _ Hadd), od_set_concat.
    by rewrite <- (assoc_L (++)).
Qed.

(** What [parse_samples] returned is what the loop over the rows built. *)
Lemma parse_samples_Ok (s2 : string) (pc : odict (list record)) :
  parse_samples s2 = Ok pc →
  ∃ l0 rows, split nl (strip s2) = l0 :: rows
             ∧ add_samples (split comma l0) [] rows = Ok pc.
Proof.
  destruct (split_cons nl (strip s2)) as (l0 & rows & Hl).
  rewrite (parse_samples_lines s2 l0 rows Hl). eauto.
Qed.

Lemma parse_samples_Forall (P : Z → record → Prop) (s2 : string)
    (pc : odict (list record)) :
  (∀ l0 row tid, row_tid (split comma l0) row = Ok tid →
                 P tid (zip_record (split comma l0) (split comma row))) →
  parse_samples s2 = Ok pc →
  ∀ k l s, (k, l) ∈ pc → s ∈ l → P k s.
Proof.
  intros HP (l0 & rows & _ & Hadd)%parse_samples_Ok.
  apply (add_samples_invariant
           (fun pc => ∀ k l s, (k, l) ∈ pc → s ∈ l → P k s)
           (split comma l0) rows) with (pc := []); [| |done].
  - intros pc0 tid line Hpc0 _ Ht k l s Hkl Hs.
    apply elem_of_od_set in Hkl as [(-> & ->)|Hkl]; [|by eapply Hpc0].
    apply elem_of_app in Hs as [Hs| ->%list_elem_of_singleton]; [|by apply HP].
    destruct (od_get tid pc0) as [l'|] eqn:Hg; simpl in Hs.
    + eapply Hpc0; [by apply od_get_elem|done].
    + by apply elem_of_nil in Hs.
  - by intros k l s ?%elem_of_nil.
Qed.

(** The [pc_samples] of a log that [parse_csv] returned are empty or what
    [parse_samples] returned. *)
Lemma parse_csv_samples (fs : filesystem) (path : string) (log : RunLog) :
  parse_csv fs path = Ok log →
  pc_samples log = [] ∨ ∃ s2, parse_samples s2 = Ok (pc_samples log).
Proof.
  unfold parse_csv. destruct (fs path) as [text|]; [|done].
  intros (s0 & s1 & more & _ & _ & _ & Hp)%parse_text_Ok.
  destruct more; eauto.
Qed.

Lemma parse_csv_lists_nonempty (fs : filesystem) (path : string) (log : RunLog) :
  parse_csv fs path = Ok log → ∀ k l, (k, l) ∈ pc_samples log → l ≠ [].
Proof.
  intros [Hnil|(s2 & Hp)]%parse_csv_samples.
  { rewrite Hnil. by intros k l ?%elem_of_nil. }
  apply parse_samples_Ok in Hp as (l0 & rows & _ & Hadd).
  apply (add_samples_invariant
           (fun pc => ∀ k l, (k, l) ∈ pc → l ≠ []) (split comma l0) rows)
    with (pc := []); [| |done].
  - intros pc0 tid line Hpc0 _ _ k l Hkl.
    apply elem_of_od_set in Hkl as [(-> & ->)|Hkl]; [|by eapply Hpc0].
    by destruct (default [] (od_get tid pc0)).
  - by intros k l ?%elem_of_nil.
Qed.

(** X1: in every log that [parse_csv] returns, the keys of [pc_samples]
    are distinct, no thread has an empty list of samples, and every sample
    stands in the list of the thread that its [thread_id] field names. *)
Theorem pc_samples_well_formed (fs : filesystem) (path : string) (log : RunLog) :
  parse_csv fs path = Ok log →
  NoDup (pc_samples log).*1
  ∧ (∀ k l, (k, l) ∈ pc_samples log →
            l ≠ [] ∧ ∀ s, s ∈ l → get_int s "thread_id" = Ok k).
Proof.
  intros Hlog. split; [|intros k l Hkl; split].
  - apply parse_csv_samples in Hlog as [Hnil|(s2 & Hp)].
    { rewrite Hnil. constructor. }
    apply parse_samples_Ok in Hp as (l0 & rows & _ & Hadd).
    apply (add_samples_invariant (fun pc => NoDup pc.*1) (split comma l0) rows)
      with (pc := []); [| |done].
    + intros pc0 tid line Hpc0 _ _. by apply od_set_NoDup.
    + constructor.
  - by apply (parse_csv_lists_nonempty fs path log Hlog k).
  - apply parse_csv_samples in Hlog as [Hnil|(s2 & Hp)].
    { rewrite Hnil in Hkl. by apply elem_of_nil in Hkl. }
    intros s Hs.
    by apply (parse_samples_Forall (fun k s => get_int s "thread_id" = Ok k)
                s2 (pc_samples log)) with (l := l).
Qed.

(** X2: every row of the third section is stored exactly once: the
    samples held by [pc_samples], over all threads, are the records of the
    lines after the header, each as often as it occurs among them (a
    rearrangement of their list); in particular there are as many. *)
Theorem pc_samples_count (fs : filesystem) (path text s0 s1 s2 l0 : string)
    (more rows : list string) (log : RunLog) :
  fs path = Some text →
  split blank_line (strip text) = s0 :: s1 :: s2 :: more →
  split nl (strip s2) = l0 :: rows →
  parse_csv fs path = Ok log →
  concat (pc_samples log).*2
  ≡ₚ (fun row => zip_record (split comma l0) (split comma row)) <$> rows
  ∧ sample_count (pc_samples log) = length rows.
Proof.
  intros Hf Hs Hl Hlog. rewrite (parse_csv_text fs path text Hf) in Hlog.
  apply parse_text_Ok in Hlog as (s0' & s1' & more' & Hs' & _ & _ & Hp).
  rewrite Hs in Hs'. injection Hs' as <- <- <-.
  rewrite (parse_samples_lines s2 l0 rows Hl) in Hp. split.
  - by rewrite (add_samples_rows _ _ _ _ Hp).
  - by rewrite (add_samples_count _ _ _ _ Hp).
Qed.

(** X3: the keys and the values of every dictionary that [parse_csv] returns
    (the metadata, each thread, each sample) carry no leading or trailing
    whitespace. *)
Theorem parsed_fields_stripped (fs : filesystem) (path : string) (log : RunLog) :
  parse_csv fs path = Ok log →
  (∀ x y, meta log !! x = Some y → stripped x ∧ stripped y)
  ∧ (∀ t x y, t ∈ threads log → t !! x = Some y → stripped x ∧ stripped y)
  ∧ (∀ k l s x y, (k, l) ∈ pc_samples log → s ∈ l → s !! x = Some y →
                  stripped x ∧ stripped y).
Proof.
  assert (Hzip : ∀ ks vs x y, zip_record ks vs !! x = Some y → stripped x ∧ stripped y).
  { intros ks vs x y (i & k & v & _ & _ & <- & <-)%zip_record_entry.
    unfold stripped. by rewrite !strip_idemp. }
  intros Hlog. split; [|split].
  - unfold parse_csv in Hlog. destruct (fs path) as [text|]; [|done].
    apply parse_text_Ok in Hlog as (s0 & s1 & more & _ & Hm & _ & _).
    unfold parse_meta in Hm.
    destruct (py_index (split nl (strip s0)) 0) as [l0|]; [|done].
    cbn [mbind result_bind] in Hm.
    destruct (py_index (split nl (strip s0)) 1) as [l1|]; [|done].
    cbn [mbind result_bind] in Hm. injection Hm as <-. apply Hzip.
  - unfold parse_csv in Hlog. destruct (fs path) as [text|]; [|done].
    apply parse_text_Ok in Hlog as (s0 & s1 & more & _ & _ & Ht & _).
    destruct (split_cons nl (strip s1)) as (l0 & rows & Hl).
    rewrite (parse_threads_lines s1 l0 rows Hl) in Ht. injection Ht as <-.
    intros t x y (row & -> & _)%list_elem_of_fmap. apply Hzip.
  - apply parse_csv_samples in Hlog as [Hnil|(s2 & Hp)].
    { rewrite Hnil. by intros k l s x y ?%elem_of_nil. }
    intros k l s x y Hkl Hs. revert x y.
    apply (parse_samples_Forall
             (fun _ s => ∀ x y, s !! x = Some y → stripped x ∧ stripped y)
             s2 (pc_samples log)) with (k := k) (l := l); [|done..].
    intros l0 row tid _. apply Hzip.
Qed.

End SampleInvariants.

(** ** [parse_csv]: malformed texts *)

Lemma parse_meta_result (section : string) :
  (∃ m, parse_meta section = Ok m) ∨ parse_meta section = Raise IndexError.
Proof.
  destruct (split_cons nl (strip section)) as (l0 & [|l1 rest] & Hl).
  - right. by apply parse_meta_one_line with l0.
  - left. rewrite (parse_meta_lines section l0 l1 rest Hl). eauto.
Qed.

Section Malformed.
Context `{Builtins}.

Lemma row_tid_Raise (header : list string) (line : string) (e : exn) :
  row_tid header line = Raise e → e = KeyError "thread_id" ∨ e = ValueError.
Proof.
  unfold row_tid, get_int, py_getitem.
  destruct (_ !! "thread_id") as [s|]; cbn [mbind result_bind].
  - destruct (py_int s); simpl; [done|]. intros [= <-]. by right.
  - intros [= <-]. by left.
Qed.

Lemma add_samples_exn (header : list string) (rows : list string) (e : exn) :
  ∀ pc, add_samples header pc rows = Raise e →
        e = KeyError "thread_id" ∨ e = ValueError.
Proof.
  induction rows as [|line rows IH]; intros pc; simpl; [done|].
  rewrite add_sample_set.
  destruct (row_tid header line) as [tid|e'] eqn:Ht; cbn [mbind result_bind].
  - apply IH.
  - intros [= <-]. by apply row_tid_Raise in Ht.
Qed.

Lemma parse_samples_exn (s2 : string) (e : exn) :
  parse_samples s2 = Raise e → e = KeyError "thread_id" ∨ e = ValueError.
Proof.
  destruct (split_cons nl (strip s2)) as (l0 & rows & Hl).
  rewrite (parse_samples_lines s2 l0 rows Hl). apply add_samples_exn.
Qed.

Lemma parse_text_one_section (text s0 : string) :
  split blank_line (strip text) = [s0] → parse_text text = Raise IndexError.
Proof.
  intros Hs. unfold parse_text. rewrite Hs, py_index_0.
  cbn [mbind result_bind].
  destruct (parse_meta_result s0) as [[m ->]| ->]; [|done].
  cbn [mbind result_bind]. by rewrite py_index_out_of_range.
Qed.

Lemma parse_text_Raise (text : string) (e : exn) :
  parse_text text = Raise e →
  e = IndexError ∨ e = KeyError "thread_id" ∨ e = ValueError.
Proof.
  destruct (split_cons blank_line (strip text)) as (s0 & [|s1 [|s2 more]] & Hs).
  - rewrite (parse_text_one_section text s0 Hs). intros [= <-]. by left.
  - rewrite (parse_text_two_sections text s0 s1 Hs).
    destruct (parse_meta_result s0) as [[m ->]| ->]; cbn [mbind result_bind].
    + by destruct (parse_threads_total s1) as [ts ->].
    + intros [= <-]. by left.
  - rewrite (parse_text_three_sections text s0 s1 s2 more Hs).
    destruct (parse_meta_result s0) as [[m ->]| ->]; cbn [mbind result_bind].
    + destruct (parse_threads_total s1) as [ts ->]. cbn [mbind result_bind].
      destruct (parse_samples s2) as [pc|e'] eqn:Hp; cbn [mbind result_bind]; [done|].
      intros [= <-]. right. by apply parse_samples_exn with s2.
    + intros [= <-]. by left.
Qed.

(** X4: a text with fewer than two sections (an empty or blank file among
    them), or whose first section has a single line, makes [parse_csv]
    raise [IndexError]. *)
Theorem parse_text_too_short (fs : filesystem) (path text : string) :
  fs path = Some text →
  ((length (split blank_line (strip text)) < 2)%nat →
   parse_csv fs path = Raise IndexError)
  ∧ (strip text = "" → parse_csv fs path = Raise IndexError)
  ∧ (∀ s0 more l0,
       split blank_line (strip text) = s0 :: more →
       split nl (strip s0) = [l0] →
       parse_csv fs path = Raise IndexError).
Proof.
  intros Hf. rewrite (parse_csv_text fs path text Hf). split; [|split].
  - intros Hlen. destruct (split_cons blank_line (strip text)) as (s0 & more & Hs).
    rewrite Hs in Hlen. destruct more; simpl in Hlen; [|lia].
    by apply parse_text_one_section with s0.
  - intros Hempty. apply parse_text_one_section with "". by rewrite Hempty.
  - intros s0 more l0 Hs Hl. unfold parse_text. rewrite Hs, py_index_0.
    cbn [mbind result_bind]. by rewrite (parse_meta_one_line s0 l0 Hl).
Qed.

(** X5: once the file is read, [parse_csv] raises nothing but [IndexError], a
    [KeyError] for [thread_id], or the [ValueError] of [int]. *)
Theorem parse_csv_exceptions (fs : filesystem) (path text : string) (e : exn) :
  fs path = Some text →
  parse_csv fs path = Raise e →
  e = IndexError ∨ e = KeyError "thread_id" ∨ e = ValueError.
Proof.
  intros Hf. rewrite (parse_csv_text fs path text Hf). apply parse_text_Raise.
Qed.

(** X6: the header of the third section is consulted only through its rows:
    with no row [pc_samples] is empty whatever the header, and a first row
    to which the header gives no [thread_id] raises [KeyError]. *)
Theorem samples_need_thread_id (s2 l0 : string) (rows : list string) :
  split nl (strip s2) = l0 :: rows →
  (rows = [] → parse_samples s2 = Ok [])
  ∧ (∀ row rest,
       rows = row :: rest →
       (∀ i k, (i < length (split comma row))%nat →
               split comma l0 !! i = Some k → strip k ≠ "thread_id") →
       parse_samples s2 = Raise (KeyError "thread_id")
       ∧ (∀ text s0 s1 more m,
            split blank_line (strip text) = s0 :: s1 :: s2 :: more →
            parse_meta s0 = Ok m →
            parse_text text = Raise (KeyError "thread_id"))).
Proof.
  intros Hl. rewrite (parse_samples_lines s2 l0 rows Hl). split.
  - by intros ->.
  - intros row rest -> Hmiss.
    assert (Hadd : add_samples (split comma l0) [] (row :: rest)
                   = Raise (KeyError "thread_id")).
    { simpl. rewrite add_sample_set. unfold row_tid, get_int, py_getitem.
      by rewrite zip_record_missing. }
    split; [done|]. intros text s0 s1 more m Hs Hm.
    rewrite (parse_text_three_sections text s0 s1 s2 more Hs), Hm.
    destruct (parse_threads_total s1) as [ts ->]. cbn [mbind result_bind].
    by rewrite (parse_samples_lines s2 l0 (row :: rest) Hl), Hadd.
Qed.

(** X7: [parse_csv] reads the first three sections only: two files whose
    texts agree on them parse alike, whatever follows. *)
Theorem later_sections_ignored (fs : filesystem) (path path' text text' : string)
    (s0 s1 s2 : string) (more more' : list string) :
  fs path = Some text →
  fs path' = Some text' →
  split blank_line (strip text) = s0 :: s1 :: s2 :: more →
  split blank_line (strip text') = s0 :: s1 :: s2 :: more' →
  parse_csv fs path = parse_csv fs path'.
Proof.
  intros Hf Hf' Hs Hs'.
  rewrite (parse_csv_text fs path text Hf), (parse_csv_text fs path' text' Hf').
  by rewrite (parse_text_three_sections text s0 s1 s2 more Hs),
    (parse_text_three_sections text' s0 s1 s2 more' Hs').
Qed.

End Malformed.

(** ** Colours and rows of the parallel panels *)

Lemma color_of_Ok (tid : Z) :
  color_of tid = Ok (default "" (TC !! Z.to_nat (tid mod 16))).
Proof.
  unfold color_of, int_mod. change (len TC) with 16.
  cbn [Z.eqb mbind result_bind]. apply py_index_at.
  change (len TC) with 16. by apply Z.mod_pos_bound.
Qed.

(** X8: [TC[tid % len(TC)]] never raises, for negative thread ids either:
    the colour is the entry of the palette at [tid mod 16], so the sixteen
    colours repeat with period 16. *)
Theorem color_of_cycles (tid : Z) :
  ∃ c, color_of tid = Ok c
       ∧ TC !! Z.to_nat (tid mod 16) = Some c
       ∧ color_of (tid + 16) = Ok c.
Proof.
  destruct (lookup_lt_is_Some_2 TC (Z.to_nat (tid mod 16))) as [c Hl].
  { pose proof (Z.mod_pos_bound tid 16). change (length TC) with 16%nat. lia. }
  exists c. rewrite !color_of_Ok, Hl. split; [done|]. split; [done|].
  replace ((tid + 16) mod 16) with (tid mod 16); [by rewrite Hl|].
  by rewrite <- (Z_mod_plus_full tid 1 16).
Qed.

Section Rows.
Context `{Builtins}.

Lemma context_switch_artists (times : list float) (core j : Z)
    (zs : list artist) (a : artist) :
  context_switch times core j = Ok zs → a ∈ zs →
  match a with Annotate _ _ _ _ | Text _ _ _ _ => True | _ => False end.
Proof.
  unfold context_switch. intros Hcs. bind_ok Hcs.
  destruct (_ && _).
  - bind_ok Hcs. injection Hcs as <-.
    intros [->|[->|?%elem_of_nil]%elem_of_cons]%elem_of_cons; done.
  - injection Hcs as <-. by intros ?%elem_of_nil.
Qed.

Lemma context_switches_artists (par : RunLog) (tid core : Z)
    (cs : list artist) (a : artist) :
  context_switches par tid core = Ok cs → a ∈ cs →
  match a with Annotate _ _ _ _ | Text _ _ _ _ => True | _ => False end.
Proof.
  unfold context_switches. destruct (od_get tid (pc_samples par)) as [samples|].
  - intros Hcs. bind_ok Hcs. intros Ha.
    destruct (rconcat_map_elem _ _ _ _ Hcs Ha) as (j & zs & _ & Hj & Hzs).
    by apply (context_switch_artists _ _ _ _ _ Hj).
  - intros [= <-]. by intros ?%elem_of_nil.
Qed.

(** X9: panel 2B: every thread bar lies on the row [tid mod nt]; for a positive
    thread count that is one of the core rows [0 .. nt - 1] which the panel
    labels. *)
Theorem cores_labelled (par : RunLog) (m : metrics) (arts : list artist) :
  row2_parallel par m = Ok arts →
  YTicks Ax2b (range 0 (nt m)) ∈ arts
  ∧ (∀ y w l c,
       Barh Ax2b y w l c ∈ arts →
       ∃ t tid, t ∈ threads par
                ∧ get_int t "thread_id" = Ok tid
                ∧ nt m ≠ 0
                ∧ y = PyInt (tid mod nt m)
                ∧ (0 < nt m → tid mod nt m ∈ range 0 (nt m))).
Proof.
  unfold row2_parallel. intros Hrow. bind_ok Hrow. injection Hrow as <-. split.
  { find_elem. }
  intros y w l' c [Hin|[Hin|Hin]%elem_of_app]%elem_of_cons.
  - done.
  - destruct (rconcat_map_elem _ _ _ _ E Hin) as (t & zs & Ht & Hzs & Hbar).
    unfold row2_thread in Hzs. bind_ok Hzs. injection Hzs as <-.
    match goal with
    | Hm : int_mod _ _ = Ok _ |- _ => apply int_mod_Ok in Hm as (Hnt & ->)
    end.
    exists t. eexists. split; [done|]. split; [done|]. split; [done|].
    apply elem_of_cons in Hbar as [[= -> _ _ _]|Hbar].
    { split; [done|]. intros Hpos. apply elem_of_range. by apply Z.mod_pos_bound. }
    apply elem_of_cons in Hbar as [?|Hbar]; [done|].
    match goal with
    | Hcs : context_switches _ _ _ = Ok _ |- _ =>
        by apply (context_switches_artists _ _ _ _ _ Hcs) in Hbar
    end.
  - no_elem Hin.
Qed.

(** X10: panel 1B, for a thread count that is not negative: there are as many
    tick labels as ticks ([nt + 1] of each), the bar of a thread lies on
    the row [nt - tid], and when every thread id is in [0 .. nt - 1] every
    bar of the panel lies on a tick, the thread bars above the row 0 of
    the parent. *)
Theorem gantt_rows_labelled (par : RunLog) (m : metrics) (arts : list artist) :
  row1_parallel par m = Ok arts →
  0 <= nt m →
  ∃ labels,
    YTicks Ax1b (range 0 (nt m + 1)) ∈ arts
    ∧ YTickLabels Ax1b labels ∈ arts
    ∧ len labels = nt m + 1
    ∧ len (range 0 (nt m + 1)) = nt m + 1
    ∧ (∀ y w l c,
         Barh Ax1b y w l c ∈ arts →
         (y = PyInt 0 ∧ c = ACC)
         ∨ ∃ t tid, t ∈ threads par
                    ∧ get_int t "thread_id" = Ok tid
                    ∧ y = PyInt (nt m - tid)
                    ∧ (0 <= tid < nt m →
                       nt m - tid ∈ range 0 (nt m + 1) ∧ nt m - tid ≠ 0)).
Proof.
  unfold row1_parallel. intros Hrow Hnt. bind_ok Hrow. injection Hrow as <-.
  eexists. split; [|split; [|split; [|split]]].
  - find_elem.
  - find_elem.
  - unfold len, range. simpl length.
    rewrite length_fmap, length_reverse, length_seqZ. lia.
  - unfold len, range. rewrite length_seqZ. lia.
  - intros y w l' c [Hin|[Hin|Hin]%elem_of_app]%elem_of_cons.
    + done.
    + right. destruct (rconcat_map_elem _ _ _ _ E Hin) as (t & zs & Ht & Hzs & Hbar).
      unfold row1_thread in Hzs. bind_ok Hzs. injection Hzs as <-.
      exists t. eexists. split; [done|]. split; [done|].
      match goal with Hg : get_int t "thread_id" = Ok ?z |- _ => rename z into tid end.
      assert (Hy : y = PyInt (nt m - tid)).
      { apply elem_of_cons in Hbar as [[= -> _ _ _]|Hbar]; [done|].
        apply elem_of_cons in Hbar as [[= -> _ _ _]|Hbar]; [done|].
        by apply list_elem_of_singleton in Hbar. }
      split; [done|]. intros Htid. rewrite elem_of_range. lia.
    + left. apply elem_of_cons in Hin as [[= -> _ _ ->]|Hin]; [done|]. no_elem Hin.
Qed.

End Rows.

(** ** The sampling ticks of panel 2A *)



Section Ticks.
Context `{Builtins}.


End Ticks.

(** ** The base address of panel 3B *)




Section BaseAddress.
Context `{Builtins}.



End BaseAddress.

(** ** Progress and throughput *)

Lemma py_gt_int (a b : Z) : py_gt (PyInt a) (PyInt b) = (b <? a).
Proof. done. Qed.

Lemma percent_result (p total_px : Z) :
  (∃ v, percent p total_px = Ok v) ∨ percent p total_px = Raise OverflowError.
Proof.
  unfold percent. rewrite py_gt_int. destruct (0 <? total_px) eqn:Hpos; [|eauto].
  apply Z.ltb_lt in Hpos. unfold py_truediv, int_truediv.
  destruct (total_px =? 0) eqn:Hz; [apply Z.eqb_eq in Hz; lia|].
  destruct (p =? 0).
  - cbn [mbind result_bind]. rewrite py_mul_float_100. eauto.
  - destruct (is_inf (ratio p total_px)); cbn [mbind result_bind]; [by right|].
    rewrite py_mul_float_100. eauto.
Qed.

Lemma rmap_Raise {A B : Type} (f : A → result B) (l : list A) (e : exn) :
  rmap f l = Raise e → ∃ a, a ∈ l ∧ f a = Raise e.
Proof.
  induction l as [|a l IH]; simpl; [done|].
  destruct (f a) as [b|e'] eqn:Hb; cbn [mbind result_bind].
  - destruct (rmap f l) as [bs|e']; cbn [mbind result_bind]; [done|].
    intros [= <-]. destruct (IH eq_refl) as (a' & Ha' & Hf).
    exists a'. split; [by right|done].
  - intros [= <-]. exists a. split; [by left|done].
Qed.

Section Progress.
Context `{Builtins}.

Lemma get_int_Raise (r : record) (k : string) (e : exn) :
  get_int r k = Raise e → e = KeyError k ∨ e = ValueError.
Proof.
  unfold get_int, py_getitem. destruct (r !! k) as [s|]; cbn [mbind result_bind].
  - destruct (py_int s); simpl; [done|]. intros [= <-]. by right.
  - intros [= <-]. by left.
Qed.

(** X13: the progress curve of a thread (panels 4A and 4B): with a pixel total
    that is not positive every percentage is the int 0; whatever the
    total, the division never raises [ZeroDivisionError]: the comprehension
    fails only on a [pixels_at] that is missing or unreadable, or on a
    quotient beyond the range of floats. *)
Theorem progress_guarded (samples : list record) (total_px : Z) :
  (∀ pixels,
     total_px <= 0 →
     rmap (fun s => get_int s "pixels_at") samples = Ok pixels →
     progress samples total_px = Ok ((fun _ => PyInt 0) <$> pixels))
  ∧ (∀ e, progress samples total_px = Raise e →
          e = KeyError "pixels_at" ∨ e = ValueError ∨ e = OverflowError).
Proof.
  split.
  - intros pixels Hle Hpx. unfold progress. rewrite Hpx. cbn [mbind result_bind].
    apply rmap_ext. intros p _. unfold percent. rewrite py_gt_int.
    by replace (0 <? total_px) with false by (symmetry; apply Z.ltb_ge; lia).
  - intros e. unfold progress.
    destruct (rmap (fun s => get_int s "pixels_at") samples) as [pixels|e'] eqn:Hpx;
      cbn [mbind result_bind].
    + clear Hpx. induction pixels as [|p pixels IH]; simpl; [done|].
      destruct (percent_result p total_px) as [[v ->]| ->]; cbn [mbind result_bind].
      * destruct (rmap _ pixels); cbn [mbind result_bind]; [done|].
        intros [= <-]. by apply IH.
      * intros [= <-]. by right; right.
    + intros [= <-]. apply rmap_Raise in Hpx as (s & _ & Hs).
      apply get_int_Raise in Hs as [->| ->]; [by left|by right; left].
Qed.

End Progress.

(** X14: the guard [wall > 0] of the throughput does not cover every division
    by zero: [throughput] raises [ZeroDivisionError] exactly when the wall
    time is positive but so small that [wall / 1000] rounds to zero (the
    megabyte count being in range). *)
Theorem throughput_underflow (tb : Z) (wall : float) :
  throughput tb wall = Raise ZeroDivisionError
  ↔ fltb fzero wall = true
    ∧ is_inf (ratio tb 1024) = false
    ∧ feqb (fdiv wall (dec 1000 0)) fzero = true.
Proof.
  rewrite throughput_eq.
  destruct (fltb fzero wall), (is_inf (ratio tb 1024)),
    (feqb (fdiv wall (dec 1000 0)) fzero); split; try done; by intros (? & ? & ?).
Qed.

(** 3 MiB in the smallest positive float of milliseconds. *)
Lemma throughput_underflow_witness :
  fltb fzero (S754_finite false 1 (-1074)) = true
  ∧ throughput 3145728 (S754_finite false 1 (-1074)) = Raise ZeroDivisionError.
Proof.
  split; [vm_compute; reflexivity|].
  apply (throughput_underflow 3145728 (S754_finite false 1 (-1074))).
  repeat split; vm_compute; reflexivity.
Defined.

(** ** The exceptions of the renderer *)

Lemma raises_only_Ok {A : Type} (P : exn → Prop) (a : A) : raises_only P (Ok a).
Proof. by intros e. Qed.

Lemma raises_only_Raise {A : Type} (P : exn → Prop) (e : exn) :
  P e → raises_only P (@Raise A e).
Proof. by intros He e' [= <-]. Qed.

Lemma raises_only_bind {A B : Type} (P : exn → Prop) (m : result A)
    (k : A → result B) :
  raises_only P m → (∀ a, m = Ok a → raises_only P (k a)) →
  raises_only P (m ≫= k).
Proof.
  intros Hm Hk e. destruct m as [a|e']; cbn [mbind result_bind].
  - by apply Hk.
  - intros [= <-]. by apply Hm.
Qed.

Lemma raises_only_rmap {A B : Type} (P : exn → Prop) (f : A → result B)
    (l : list A) :
  (∀ a, a ∈ l → raises_only P (f a)) → raises_only P (rmap f l).
Proof.
  intros Hf e (a & Hin & Ha)%rmap_Raise. by apply (Hf a).
Qed.

Lemma raises_only_rconcat_map {A B : Type} (P : exn → Prop)
    (f : A → result (list B)) (l : list A) :
  (∀ a, a ∈ l → raises_only P (f a)) → raises_only P (rconcat_map f l).
Proof.
  intros Hf. unfold rconcat_map. apply raises_only_bind.
  - by apply raises_only_rmap.
  - intros ys _. apply raises_only_Ok.
Qed.

Lemma rmap_length {A B : Type} (f : A → result B) (l : list A) (ys : list B) :
  rmap f l = Ok ys → length ys = length l.
Proof.
  revert ys. induction l as [|a l IH]; intros ys; simpl.
  - by intros [= <-].
  - destruct (f a); cbn [mbind result_bind]; [|done].
    destruct (rmap f l) as [bs|]; cbn [mbind result_bind]; [|done].
    intros [= <-]. simpl. by rewrite (IH bs).
Qed.

(** A computation is split along its binds, loops, conditionals and
    matches; the calls that remain are looked up among the hints. *)
Create HintDb raises.

#[local] Hint Resolve raises_only_Ok raises_only_bind raises_only_rmap
  raises_only_rconcat_map : raises.
#[local] Hint Extern 1 (raises_only _ (Raise _)) =>
  apply raises_only_Raise : raises.
#[local] Hint Extern 3 (raises_only _ (if ?c then _ else _)) =>
  destruct c : raises.
#[local] Hint Extern 3 (raises_only _ (match ?x with _ => _ end)) =>
  destruct x : raises.
#[local] Hint Extern 3 (raises_only _ (let _ := _ in _)) =>
  cbv zeta : raises.

Section Raises.
Context `{Builtins}.
Variable P : exn → Prop.
Hypothesis HK : ∀ k, P (KeyError k).
Hypothesis HV : P ValueError.
Hypothesis HZ : P ZeroDivisionError.
Hypothesis HO : P OverflowError.

Lemma py_getitem_raises {V : Type} (d : gmap string V) (k : string) :
  raises_only P (py_getitem d k).
Proof. unfold py_getitem. auto 40 with raises. Qed.

Lemma conv_raises {A : Type} (o : option A) : raises_only P (conv o).
Proof. unfold conv. auto 40 with raises. Qed.

Lemma float_of_int_raises (z : Z) : raises_only P (float_of_int z).
Proof. unfold float_of_int. auto 40 with raises. Qed.

Lemma int_truediv_raises (a b : Z) : raises_only P (int_truediv a b).
Proof. unfold int_truediv. auto 40 with raises. Qed.

Lemma to_float_raises (x : num) : raises_only P (to_float x).
Proof. destruct x; simpl; [apply float_of_int_raises|apply raises_only_Ok]. Qed.

#[local] Hint Resolve py_getitem_raises conv_raises float_of_int_raises
  int_truediv_raises to_float_raises : raises.

Lemma py_truediv_raises (a b : num) : raises_only P (py_truediv a b).
Proof. unfold py_truediv. destruct a, b; auto 40 with raises. Qed.

Lemma arith_raises (fz : Z → Z → Z) (ff : float → float → float) (a b : num) :
  raises_only P (arith fz ff a b).
Proof. unfold arith. destruct a, b; auto 40 with raises. Qed.

Lemma py_mul_raises (a b : num) : raises_only P (py_mul a b).
Proof. apply arith_raises. Qed.
Lemma py_add_raises (a b : num) : raises_only P (py_add a b).
Proof. apply arith_raises. Qed.
Lemma py_sub_raises (a b : num) : raises_only P (py_sub a b).
Proof. apply arith_raises. Qed.

Lemma int_mod_raises (a b : Z) : raises_only P (int_mod a b).
Proof. unfold int_mod. auto 40 with raises. Qed.
Lemma int_floordiv_raises (a b : Z) : raises_only P (int_floordiv a b).
Proof. unfold int_floordiv. auto 40 with raises. Qed.

Lemma py_min_raises (l : list Z) : raises_only P (py_min l).
Proof. unfold py_min. auto 40 with raises. Qed.
Lemma py_max_raises (l : list Z) : raises_only P (py_max l).
Proof. unfold py_max. auto 40 with raises. Qed.

Lemma color_of_raises (tid : Z) : raises_only P (color_of tid).
Proof. rewrite color_of_Ok. apply raises_only_Ok. Qed.

#[local] Hint Resolve py_truediv_raises py_mul_raises py_add_raises py_sub_raises
  int_mod_raises int_floordiv_raises py_min_raises py_max_raises
  color_of_raises : raises.

Lemma speedup_raises (ws wp : float) : raises_only P (speedup ws wp).
Proof. unfold speedup. auto 40 with raises. Qed.
Lemma efficiency_raises (s : num) (n : Z) : raises_only P (efficiency s n).
Proof. unfold efficiency. auto 40 with raises. Qed.
Lemma megabytes_raises (tb : Z) : raises_only P (megabytes tb).
Proof. unfold megabytes. auto 40 with raises. Qed.
#[local] Hint Resolve speedup_raises efficiency_raises megabytes_raises : raises.
Lemma throughput_raises (tb : Z) (wall : float) : raises_only P (throughput tb wall).
Proof. unfold throughput. auto 40 with raises. Qed.
Lemma percent_raises (p total_px : Z) : raises_only P (percent p total_px).
Proof. unfold percent. auto 40 with raises. Qed.
#[local] Hint Resolve throughput_raises percent_raises : raises.

Lemma get_float_raises (r : record) (k : string) : raises_only P (get_float r k).
Proof. unfold get_float. auto 40 with raises. Qed.
Lemma get_int_raises (r : record) (k : string) : raises_only P (get_int r k).
Proof. unfold get_int. auto 40 with raises. Qed.
Lemma get_hex_raises (r : record) (k : string) : raises_only P (get_hex r k).
Proof. unfold get_hex. auto 40 with raises. Qed.
#[local] Hint Resolve get_float_raises get_int_raises get_hex_raises : raises.

Lemma timestamps_raises (samples : list record) : raises_only P (timestamps samples).
Proof. unfold timestamps. auto 40 with raises. Qed.
Lemma pc_addrs_raises (samples : list record) : raises_only P (pc_addrs samples).
Proof. unfold pc_addrs. auto 40 with raises. Qed.
Lemma derive_raises (seq par : RunLog) : raises_only P (derive seq par).
Proof. unfold derive. auto 40 with raises. Qed.
Lemma progress_raises (samples : list record) (total_px : Z) :
  raises_only P (progress samples total_px).
Proof. unfold progress. auto 40 with raises. Qed.
#[local] Hint Resolve timestamps_raises pc_addrs_raises derive_raises
  progress_raises : raises.

(** *** The loops over the threads of the parallel log, rows 1, 2 and 4 *)

Lemma row1_thread_raises (m : metrics) (t : record) : raises_only P (row1_thread m t).
Proof. unfold row1_thread. auto 40 with raises. Qed.
#[local] Hint Resolve row1_thread_raises : raises.
Lemma row1_parallel_raises (par : RunLog) (m : metrics) :
  raises_only P (row1_parallel par m).
Proof. unfold row1_parallel. auto 40 with raises. Qed.

Lemma sampling_ticks_raises (seq : RunLog) (m : metrics) :
  raises_only P (sampling_ticks seq m).
Proof. unfold sampling_ticks. auto 40 with raises. Qed.
#[local] Hint Resolve row1_parallel_raises sampling_ticks_raises : raises.
Lemma row2_sequential_raises (seq : RunLog) (m : metrics) :
  raises_only P (row2_sequential seq m).
Proof. unfold row2_sequential. auto 40 with raises. Qed.

(** The indices of lines 265-266 are within [times]. *)
Lemma average_raises (times : list float) (gap : num) :
  raises_only P (average times gap).
Proof.
  unfold average. destruct (1 <? len times) eqn:Hlen; [|apply raises_only_Ok].
  apply Z.ltb_lt in Hlen.
  rewrite (py_index_final fzero), (py_index_first fzero) by lia.
  cbn [mbind result_bind]. auto 40 with raises.
Qed.
#[local] Hint Resolve row2_sequential_raises average_raises : raises.

Lemma context_switch_raises (times : list float) (core j : Z) :
  j ∈ range 1 (len times) → raises_only P (context_switch times core j).
Proof.
  intros Hj%elem_of_range. unfold context_switch.
  rewrite (py_index_at fzero times j), (py_index_at fzero times (j - 1)) by lia.
  cbn [mbind result_bind]. auto 40 with raises.
Qed.

Lemma context_switches_raises (par : RunLog) (tid core : Z) :
  raises_only P (context_switches par tid core).
Proof.
  unfold context_switches. destruct (od_get tid (pc_samples par)); [|apply raises_only_Ok].
  apply raises_only_bind; [apply timestamps_raises|]. intros times _.
  apply raises_only_rconcat_map. intros j Hj. by apply context_switch_raises.
Qed.
#[local] Hint Resolve context_switches_raises : raises.
Lemma row2_thread_raises (par : RunLog) (m : metrics) (t : record) :
  raises_only P (row2_thread par m t).
Proof. unfold row2_thread. auto 40 with raises. Qed.
#[local] Hint Resolve row2_thread_raises : raises.
Lemma row2_parallel_raises (par : RunLog) (m : metrics) :
  raises_only P (row2_parallel par m).
Proof. unfold row2_parallel. auto 40 with raises. Qed.

Lemma progress_curve_raises (par : RunLog) (tid total_px : Z) :
  raises_only P (progress_curve par tid total_px).
Proof. unfold progress_curve. auto 40 with raises. Qed.
#[local] Hint Resolve row2_parallel_raises progress_curve_raises : raises.
Lemma progress_thread_raises (par : RunLog) (t : record) :
  raises_only P (progress_thread par t).
Proof. unfold progress_thread. auto 40 with raises. Qed.
#[local] Hint Resolve progress_thread_raises : raises.
Lemma row4_parallel_raises (par : RunLog) (m : metrics) (tb : Z) :
  raises_only P (row4_parallel par m tb).
Proof. unfold row4_parallel. auto 40 with raises. Qed.

Lemma all_pc_base_from_raises (pc : odict (list record)) :
  ∀ base, raises_only P (all_pc_base_from base pc).
Proof.
  induction pc as [|[k samples] pc IH]; intros base; simpl; [apply raises_only_Ok|].
  apply raises_only_bind; [apply pc_addrs_raises|].
  intros [|x l] _; [apply IH|]. apply raises_only_bind; [apply py_min_raises|].
  intros mn _. apply IH.
Qed.

Lemma all_pc_base_raises (par : RunLog) : raises_only P (all_pc_base par).
Proof. apply all_pc_base_from_raises. Qed.

Lemma concept_row_raises (ic : Z * (string * list piece * list piece)) :
  raises_only P (concept_row ic).
Proof. destruct ic as [i [[label sec_val] par_val]]. unfold concept_row. auto 40 with raises. Qed.
#[local] Hint Resolve row4_parallel_raises all_pc_base_raises
  concept_row_raises : raises.
Lemma row5_raises (seq : RunLog) (m : metrics) : raises_only P (row5 seq m).
Proof. unfold row5, concepts. auto 40 with raises. Qed.
#[local] Hint Resolve row5_raises : raises.

(** *** The indices that depend on the logs

    [seq['threads'][0]], and the first and last sample of a thread that
    has samples: an [IndexError] is among [P], or the sequential log has
    a thread and no list of samples is empty. *)

Variables seq par : RunLog.
Hypothesis HI :
  P IndexError
  ∨ (threads seq ≠ [] ∧ samples_nonempty seq ∧ samples_nonempty par).

Lemma first_thread_raises : raises_only P (py_index (threads seq) 0).
Proof.
  destruct HI as [HIdx|(Ht & _)].
  - intros e. unfold py_index.
    repeat (match goal with |- context [if ?c then _ else _] => destruct c end);
      try destruct (_ !! _); intros [= <-]; done.
  - destruct (threads seq); [done|]. rewrite py_index_0. apply raises_only_Ok.
Qed.

Lemma ends_raises {A : Type} (xs : list A) (i : Z) :
  P IndexError ∨ xs ≠ [] → i = 0 ∨ i = -1 → raises_only P (py_index xs i).
Proof.
  intros [HIdx|Hne] Hi.
  - intros e. unfold py_index.
    repeat (match goal with |- context [if ?c then _ else _] => destruct c end);
      try destruct (_ !! _); intros [= <-]; done.
  - destruct xs as [|x xs]; [done|].
    destruct Hi as [-> | ->].
    + rewrite py_index_0. apply raises_only_Ok.
    + rewrite (py_index_final x) by (unfold len; simpl length; lia).
      apply raises_only_Ok.
Qed.

Lemma samples_index (log : RunLog) (k : Z) (samples : list record) :
  log = seq ∨ log = par →
  od_get k (pc_samples log) = Some samples →
  P IndexError ∨ samples ≠ [].
Proof.
  intros Hlog Hg. destruct HI as [HIdx|(_ & Hs & Hp)]; [by left|right].
  destruct Hlog as [-> | ->]; [by apply (Hs k)|by apply (Hp k)].
Qed.

Lemma mapped_index {A B : Type} (f : record → result A) (g : A → B)
    (samples : list record) (xs : list A) (i : Z) :
  P IndexError ∨ samples ≠ [] → rmap f samples = Ok xs → i = 0 ∨ i = -1 →
  raises_only P (py_index xs i) ∧ raises_only P (py_index (g <$> xs) i).
Proof.
  intros Hne Hxs Hi. apply rmap_length in Hxs.
  split; apply ends_raises; try done.
  - destruct Hne as [?|Hne]; [by left|right]. intros ->. by destruct samples.
  - destruct Hne as [?|Hne]; [by left|right]. intros Hnil.
    apply (f_equal length) in Hnil. rewrite length_fmap in Hnil.
    destruct samples; [done|]. simpl in *. lia.
Qed.

#[local] Hint Resolve first_thread_raises : raises.

Lemma row1_sequential_raises (m : metrics) : raises_only P (row1_sequential seq m).
Proof. unfold row1_sequential. auto 40 with raises. Qed.

Lemma progress_sequential_raises (m : metrics) :
  raises_only P (progress_sequential seq m).
Proof. unfold progress_sequential. auto 40 with raises. Qed.
#[local] Hint Resolve row1_sequential_raises progress_sequential_raises : raises.
Lemma row4_sequential_raises (m : metrics) : raises_only P (row4_sequential seq m).
Proof. unfold row4_sequential. auto 40 with raises. Qed.

Lemma pc_sequential_raises (m : metrics) : raises_only P (pc_sequential seq m).
Proof.
  unfold pc_sequential.
  destruct (od_get 0 (pc_samples seq)) as [samples|] eqn:Hg; [|apply raises_only_Ok].
  pose proof (samples_index seq 0 samples (or_introl eq_refl) Hg) as Hne.
  apply raises_only_bind; [apply timestamps_raises|]. intros times Ht.
  apply raises_only_bind; [apply pc_addrs_raises|]. intros pcs_raw Hp.
  apply raises_only_bind; [apply py_min_raises|]. intros pc_base _.
  destruct (mapped_index _ (fun t => t) samples times 0 Hne Ht (or_introl eq_refl))
    as (Ht0 & _).
  destruct (mapped_index _ (fun t => t) samples times (-1) Hne Ht (or_intror eq_refl))
    as (Htl & _).
  destruct (mapped_index _ (fun p => p - pc_base) samples pcs_raw 0 Hne Hp
              (or_introl eq_refl)) as (_ & Ho0).
  destruct (mapped_index _ (fun p => p - pc_base) samples pcs_raw (-1) Hne Hp
              (or_intror eq_refl)) as (_ & Hol).
  cbv zeta. auto 40 with raises.
Qed.

Lemma pc_curve_raises (base : Z) (t : record) (tid : Z) :
  raises_only P (pc_curve par base t tid).
Proof.
  unfold pc_curve.
  destruct (od_get tid (pc_samples par)) as [samples|] eqn:Hg; [|apply raises_only_Ok].
  pose proof (samples_index par tid samples (or_intror eq_refl) Hg) as Hne.
  apply raises_only_bind; [apply timestamps_raises|]. intros times Ht.
  apply raises_only_bind; [apply pc_addrs_raises|]. intros pcs_raw Hp.
  destruct (mapped_index _ (fun t => t) samples times 0 Hne Ht (or_introl eq_refl))
    as (Ht0 & _).
  destruct (mapped_index _ (fun t => t) samples times (-1) Hne Ht (or_intror eq_refl))
    as (Htl & _).
  destruct (mapped_index _ (fun p => p - base) samples pcs_raw 0 Hne Hp
              (or_introl eq_refl)) as (_ & Ho0).
  destruct (mapped_index _ (fun p => p - base) samples pcs_raw (-1) Hne Hp
              (or_intror eq_refl)) as (_ & Hol).
  cbv zeta. auto 40 with raises.
Qed.
#[local] Hint Resolve row4_sequential_raises pc_sequential_raises
  pc_curve_raises : raises.

Lemma pc_thread_raises (base : Z) (t : record) : raises_only P (pc_thread par base t).
Proof. unfold pc_thread. auto 40 with raises. Qed.
#[local] Hint Resolve pc_thread_raises : raises.
Lemma row3_parallel_raises (m : metrics) : raises_only P (row3_parallel par m).
Proof. unfold row3_parallel. auto 40 with raises. Qed.
#[local] Hint Resolve row3_parallel_raises : raises.

Lemma render_raises : raises_only P (render seq par).
Proof. unfold render. auto 40 with raises. Qed.

End Raises.

Section Exceptions.
Context `{Builtins}.

Lemma render_script_error (seq par : RunLog) (e : exn) :
  render seq par = Raise e → script_error e.
Proof.
  apply (render_raises script_error); try done. by left.
Qed.

(** X15: whatever the two logs, the computations of the renderer raise nothing
    but [IndexError], [KeyError], [ValueError], [ZeroDivisionError] or
    [OverflowError]. *)
Theorem render_exceptions (seq par : RunLog) (e : exn) :
  render seq par = Raise e →
  e = IndexError ∨ (∃ k, e = KeyError k) ∨ e = ValueError
  ∨ e = ZeroDivisionError ∨ e = OverflowError.
Proof.
  intros He%render_script_error.
  destruct e; simpl in He; try done; eauto 10.
Qed.

Lemma parse_csv_nonempty (fs : filesystem) (path : string) (log : RunLog) :
  parse_csv fs path = Ok log → samples_nonempty log.
Proof.
  intros Hlog k l Hkl%od_get_elem. by apply (parse_csv_lists_nonempty fs path log Hlog k).
Qed.

(** X16: the renderer indexes the thread table of the sequential log at 0 and
    the samples of a thread at their two ends.  On two logs that
    [parse_csv] returned these are the only places where an index could
    be out of range, and only the first can be: when the sequential log
    has a thread, rendering never raises [IndexError]. *)
Theorem render_no_index_error (fs : filesystem) (seq_csv par_csv : string)
    (seq par : RunLog) :
  parse_csv fs seq_csv = Ok seq →
  parse_csv fs par_csv = Ok par →
  threads seq ≠ [] →
  render seq par ≠ Raise IndexError.
Proof.
  intros Hseq Hpar Ht Hr.
  apply (render_raises (fun e => e ≠ IndexError)) in Hr; try done.
  right. split; [done|]. split; by eapply parse_csv_nonempty.
Qed.

End Exceptions.

(** ** The outcomes of a run *)

Section Outcomes.
Context `{Builtins}.

Lemma parse_csv_Raise (fs : filesystem) (path : string) (e : exn) :
  parse_csv fs path = Raise e → e = OSError ∨ script_error e.
Proof.
  unfold parse_csv. destruct (fs path) as [text|].
  - intros [->|[->| ->]]%parse_text_Raise; by right.
  - intros [= <-]. by left.
Qed.

Lemma exit_status_Raise (evs : list event) (e : exn) :
  e = OSError ∨ script_error e → exit_status (evs, Raise e) = 1.
Proof. intros [->|He]; [done|]. by destruct e. Qed.

(** X17: every run of the command line ends in one of two ways.  Either the
    exit status is 0: then there were at least three arguments, the two
    logs were opened in the order sequential, parallel, and the figure was
    saved once, to the third argument.  Or the exit status is 1: then no
    figure was saved, and no file was opened but the first log, or the
    first and then the second. *)
Theorem run_outcomes (w : world) (argv : list string) :
  let r := main w argv in
  (exit_status r = 0
   ∧ ∃ prog a1 a2 a3 more,
       argv = prog :: a1 :: a2 :: a3 :: more
       ∧ opened r = [a1; a2] ∧ saved r = [a3])
  ∨ (exit_status r = 1
     ∧ saved r = []
     ∧ (opened r = []
        ∨ ∃ prog a1 a2 a3 more,
            argv = prog :: a1 :: a2 :: a3 :: more
            ∧ (opened r = [a1] ∨ opened r = [a1; a2]))).
Proof.
  destruct argv as [|prog [|a1 [|a2 [|a3 more]]]];
    try (right; repeat split; by left).
  assert (Hmain : main w (prog :: a1 :: a2 :: a3 :: more) = generate_gantt w a1 a2 a3).
  { unfold main.
    replace (len (prog :: a1 :: a2 :: a3 :: more) <? 4) with false.
    - rewrite (py_index_lookup _ 1 a1), (py_index_lookup _ 2 a2),
        (py_index_lookup _ 3 a3) by done. done.
    - symmetry. apply Z.ltb_ge. unfold len. simpl length. lia. }
  cbv zeta. rewrite Hmain. unfold generate_gantt.
  destruct (matplotlib_installed w); simpl negb; cbv iota.
  2: { right. repeat split. by left. }
  destruct (parse_csv (files w) a1) as [seq|e] eqn:Hseq.
  2: { right. split; [by apply exit_status_Raise, (parse_csv_Raise (files w) a1)|].
       split; [done|]. right. exists prog, a1, a2, a3, more. split; [done|by left]. }
  destruct (parse_csv (files w) a2) as [par|e] eqn:Hpar.
  2: { right. split; [by apply exit_status_Raise, (parse_csv_Raise (files w) a2)|].
       split; [done|]. right. exists prog, a1, a2, a3, more. split; [done|by right]. }
  destruct (render seq par) as [fig|e] eqn:Hfig.
  - left. split; [done|]. by exists prog, a1, a2, a3, more.
  - right. split.
    + apply exit_status_Raise. right. by apply (render_script_error seq par).
    + split; [done|]. right. exists prog, a1, a2, a3, more. split; [done|by right].
Qed.

End Outcomes.

(** ** What the renderer reads of the metadata *)

Section Unread.
Context `{Builtins}.

Lemma py_getitem_insert_ne (d : record) (k k' v : string) :
  k ≠ k' → py_getitem (<[k := v]> d) k' = py_getitem d k'.
Proof. intros Hk. unfold py_getitem. by rewrite lookup_insert_ne. Qed.

(** X18: the renderer reads three fields of the metadata of each log:
    [num_threads], [wall_ms] and [total_cpu_ms] of the parallel log,
    [pid], [wall_ms] and [total_cpu_ms] of the sequential log.  Setting
    any other field (the [pid] of the parallel log, say) changes nothing
    of the figure nor of the exception raised. *)
Theorem unread_metadata (seq par : RunLog) (k v : string) :
  (k ≠ "num_threads" → k ≠ "wall_ms" → k ≠ "total_cpu_ms" →
   render seq (set_meta par k v) = render seq par)
  ∧ (k ≠ "pid" → k ≠ "wall_ms" → k ≠ "total_cpu_ms" →
     render (set_meta seq k v) par = render seq par).
Proof.
  split; intros H1 H2 H3.
  - assert (Hd : derive seq (set_meta par k v) = derive seq par).
    { unfold derive, get_int, get_float, set_meta. cbn [meta].
      by rewrite !py_getitem_insert_ne. }
    unfold render. by rewrite Hd.
  - assert (Hd : derive (set_meta seq k v) par = derive seq par).
    { unfold derive, get_int, get_float, set_meta. cbn [meta].
      by rewrite !py_getitem_insert_ne. }
    assert (H1a : ∀ m, row1_sequential (set_meta seq k v) m = row1_sequential seq m).
    { intros m. unfold row1_sequential, set_meta. cbn [meta threads].
      by rewrite py_getitem_insert_ne. }
    assert (H5 : ∀ m, row5 (set_meta seq k v) m = row5 seq m).
    { intros m. unfold row5, concepts, set_meta. cbn [meta].
      by rewrite py_getitem_insert_ne. }
    unfold render. rewrite Hd.
    destruct (derive seq par) as [m|]; cbn [mbind result_bind]; [|done].
    by rewrite H1a, H5.
Qed.

End Unread.

(** ** The thread count *)

Section ThreadCount.
Context `{Builtins}.

Lemma efficiency_int_nonzero (n : Z) :
  n ≠ 0 → ∃ v, efficiency (PyInt 0) n = Ok v.
Proof.
  intros Hn. unfold efficiency, py_truediv, int_truediv.
  destruct (n =? 0) eqn:Hz; [apply Z.eqb_eq in Hz; lia|].
  cbn [Z.eqb mbind result_bind]. rewrite py_mul_float_100. eauto.
Qed.

(** X19: the thread count is not validated: with the five metadata fields
    readable, every count other than 0 that is within the range of floats,
    a negative one included, yields the metrics, with [nt] that count. *)
Theorem derive_any_count (seq par : RunLog) (n : Z) (ws wp cs cp : float) :
  get_int (meta par) "num_threads" = Ok n →
  get_float (meta seq) "wall_ms" = Ok ws →
  get_float (meta par) "wall_ms" = Ok wp →
  get_float (meta seq) "total_cpu_ms" = Ok cs →
  get_float (meta par) "total_cpu_ms" = Ok cp →
  n ≠ 0 → Z.abs n < 2 ^ 1023 →
  ∃ s e, derive seq par
         = Ok {| nt := n; wall_seq := ws; wall_par := wp; cpu_seq := cs;
                 cpu_par := cp; m_speedup := s; m_efficiency := e |}.
Proof.
  intros Hn Hws Hwp Hcs Hcp Hnz Hsmall.
  rewrite (derive_fields seq par n ws wp cs cp Hn Hws Hwp Hcs Hcp), speedup_eq.
  destruct (fltb fzero wp); cbn [mbind result_bind].
  - rewrite efficiency_float, float_of_int_small by done.
    cbn [mbind result_bind]. eauto.
  - destruct (efficiency_int_nonzero n Hnz) as [e ->]. cbn [mbind result_bind]. eauto.
Qed.

End ThreadCount.

(** ** The fields shown in the boxes of row 3 *)

Lemma rmap_elem_Raise {A B : Type} (f : A → result B) (l : list A) (a : A) :
  a ∈ l → (∃ e, f a = Raise e) → ∃ e, rmap f l = Raise e.
Proof.
  intros Hin Ha. induction l as [|x l IH]; [by apply elem_of_nil in Hin|].
  simpl. apply elem_of_cons in Hin as [<-|Hin].
  - destruct Ha as [e ->]. eauto.
  - destruct (f x); cbn [mbind result_bind]; [|eauto].
    destruct (IH Hin) as [e ->]. eauto.
Qed.

Section ShownFields.
Context `{Builtins}.

Lemma pc_sequential_Raise (seq : RunLog) (m : metrics) (samples : list record) :
  od_get 0 (pc_samples seq) = Some samples →
  match threads seq with
  | [] => True
  | t0 :: _ => t0 !! "tid" = None ∨ t0 !! "stack_addr" = None
  end →
  ∃ e, pc_sequential seq m = Raise e.
Proof.
  intros Hg Ht. unfold pc_sequential. rewrite Hg.
  destruct (threads seq) as [|t0 rest].
  - replace (py_index (@nil record) 0) with (@Raise record IndexError) by done.
    cbv zeta. bind_raise.
  - rewrite py_index_0. cbv zeta. cbn [mbind result_bind]. unfold py_getitem.
    destruct Ht as [-> | ->]; bind_raise.
Qed.

Lemma pc_thread_Raise (par : RunLog) (base : Z) (t : record) (tid : Z)
    (samples : list record) :
  get_int t "thread_id" = Ok tid →
  od_get tid (pc_samples par) = Some samples →
  t !! "tid" = None →
  ∃ e, pc_thread par base t = Raise e.
Proof.
  intros Htid Hg Hnone. unfold pc_thread, pc_curve.
  rewrite Htid. cbn [mbind result_bind]. rewrite color_of_Ok.
  cbn [mbind result_bind]. rewrite Hg.
  unfold py_getitem. rewrite Hnone. cbv zeta. bind_raise.
Qed.

(** X20: the boxes and the legend of row 3 show fields that are read only when
    there are samples.  If thread 0 of the sequential log has samples, its
    first thread must carry [tid] and [stack_addr]; if a thread of the
    parallel log has samples, it must carry [tid]: otherwise the rendering
    raises, whatever the other log. *)
Theorem tcb_fields_required :
  (∀ seq par samples,
     od_get 0 (pc_samples seq) = Some samples →
     match threads seq with
     | [] => True
     | t0 :: _ => t0 !! "tid" = None ∨ t0 !! "stack_addr" = None
     end →
     ∃ e, render seq par = Raise e)
  ∧ (∀ seq par t tid samples,
       t ∈ threads par →
       get_int t "thread_id" = Ok tid →
       od_get tid (pc_samples par) = Some samples →
       t !! "tid" = None →
       ∃ e, render seq par = Raise e).
Proof.
  split.
  - intros seq par samples Hg Ht. unfold render.
    destruct (derive seq par) as [m|]; cbn [mbind result_bind]; [|eauto].
    destruct (row1_sequential seq m); cbn [mbind result_bind]; [|eauto].
    destruct (row1_parallel par m); cbn [mbind result_bind]; [|eauto].
    destruct (row2_sequential seq m); cbn [mbind result_bind]; [|eauto].
    destruct (row2_parallel par m); cbn [mbind result_bind]; [|eauto].
    destruct (pc_sequential_Raise seq m samples Hg Ht) as [e ->]. eauto.
  - intros seq par t tid samples Hin Htid Hg Hnone. unfold render.
    destruct (derive seq par) as [m|]; cbn [mbind result_bind]; [|eauto].
    destruct (row1_sequential seq m); cbn [mbind result_bind]; [|eauto].
    destruct (row1_parallel par m); cbn [mbind result_bind]; [|eauto].
    destruct (row2_sequential seq m); cbn [mbind result_bind]; [|eauto].
    destruct (row2_parallel par m); cbn [mbind result_bind]; [|eauto].
    destruct (pc_sequential seq m); cbn [mbind result_bind]; [|eauto].
    assert (Hrow : ∃ e, row3_parallel par m = Raise e); [|destruct Hrow as [e ->]; eauto].
    unfold row3_parallel.
    destruct (all_pc_base par) as [base|]; cbn [mbind result_bind]; [|eauto].
    unfold rconcat_map.
    destruct (rmap_elem_Raise (pc_thread par base) (threads par) t Hin) as [e ->];
      [|eauto].
    by apply pc_thread_Raise with tid samples.
Qed.

End ShownFields.

(** ** The fields of the threads of the parallel log *)

Lemma rconcat_map_elem_Raise {A B : Type} (f : A → result (list B)) (l : list A)
    (a : A) :
  a ∈ l → (∃ e, f a = Raise e) → ∃ e, rconcat_map f l = Raise e.
Proof.
  intros Hin Ha. unfold rconcat_map.
  destruct (rmap_elem_Raise f l a Hin Ha) as [e ->]. eauto.
Qed.

Section ThreadFields.
Context `{Builtins}.

Lemma row1_thread_Raise (m : metrics) (t : record) :
  lacks_number py_int t "thread_id" ∨ lacks_number py_float t "start_ms"
  ∨ lacks_number py_float t "end_ms" ∨ lacks_number py_float t "cpu_user_ms" →
  ∃ e, row1_thread m t = Raise e.
Proof.
  unfold row1_thread. intros [Hl|[Hl|[Hl|Hl]]].
  - destruct (get_int_lacks t _ Hl) as [e ->]. eauto.
  - destruct (get_float_lacks t _ Hl) as [e ->]. bind_raise.
  - destruct (get_float_lacks t _ Hl) as [e ->]. bind_raise.
  - destruct (get_float_lacks t _ Hl) as [e ->]. bind_raise.
Qed.

Lemma progress_thread_Raise (par : RunLog) (t : record) :
  lacks_number py_int t "pixels" → ∃ e, progress_thread par t = Raise e.
Proof.
  intros Hl. unfold progress_thread.
  destruct (get_int t "thread_id"); cbn [mbind result_bind]; [|eauto].
  rewrite color_of_Ok. cbn [mbind result_bind].
  destruct (get_int_lacks t _ Hl) as [e ->]. eauto.
Qed.

(** X21: every thread record of the parallel log must carry a
    [thread_id] and a [pixels] that read as ints and a [start_ms], an
    [end_ms] and a [cpu_user_ms] that read as floats, whether or not the
    thread has samples: otherwise the rendering raises, whatever the
    sequential log. *)
Theorem parallel_thread_fields (seq par : RunLog) (t : record) :
  t ∈ threads par →
  lacks_number py_int t "thread_id" ∨ lacks_number py_float t "start_ms"
  ∨ lacks_number py_float t "end_ms" ∨ lacks_number py_float t "cpu_user_ms"
  ∨ lacks_number py_int t "pixels" →
  ∃ e, render seq par = Raise e.
Proof.
  intros Hin Hl. unfold render.
  destruct (derive seq par) as [m|]; cbn [mbind result_bind]; [|eauto].
  destruct (row1_sequential seq m); cbn [mbind result_bind]; [|eauto].
  assert (Hfour : lacks_number py_int t "thread_id" ∨ lacks_number py_float t "start_ms"
                  ∨ lacks_number py_float t "end_ms"
                  ∨ lacks_number py_float t "cpu_user_ms"
                  → ∃ e, row1_parallel par m = Raise e).
  { intros Hf. unfold row1_parallel.
    destruct (rconcat_map_elem_Raise (row1_thread m) (threads par) t Hin) as [e ->];
      [by apply row1_thread_Raise|eauto]. }
  destruct Hl as [Hl|[Hl|[Hl|[Hl|Hl]]]];
    try (destruct Hfour as [e ->]; [tauto|eauto]).
  destruct (row1_parallel par m); cbn [mbind result_bind]; [|eauto].
  destruct (row2_sequential seq m); cbn [mbind result_bind]; [|eauto].
  destruct (row2_parallel par m); cbn [mbind result_bind]; [|eauto].
  destruct (pc_sequential seq m); cbn [mbind result_bind]; [|eauto].
  destruct (row3_parallel par m); cbn [mbind result_bind]; [|eauto].
  destruct (row4_sequential seq m) as [[a4a tb]|]; cbn [mbind result_bind snd];
    [|eauto].
  assert (Hrow : ∃ e, row4_parallel par m tb = Raise e); [|destruct Hrow as [e ->]; eauto].
  unfold row4_parallel.
  destruct (rconcat_map_elem_Raise (progress_thread par) (threads par) t Hin) as [e ->];
    [by apply progress_thread_Raise|eauto].
Qed.

End ThreadFields.

(** ** The process id of the sequential log *)

Section ProcessId.
Context `{Builtins}.

(** X22: the [pid] of the sequential log is only shown, yet it is
    required: once the metrics are derived, a sequential log whose
    metadata has no [pid] makes the rendering raise [KeyError] for [pid],
    before anything is read of the threads. *)
Theorem pid_required (seq par : RunLog) (m : metrics) :
  derive seq par = Ok m →
  meta seq !! "pid" = None →
  render seq par = Raise (KeyError "pid").
Proof.
  intros Hm Hpid. unfold render. rewrite Hm. cbn [mbind result_bind].
  unfold row1_sequential, py_getitem. by rewrite Hpid.
Qed.

End ProcessId.

(** ** The further properties on example logs *)

(** The log a text parses to, when the parse returns. *)
Lemma parsed_Ok (text : string) :
  returned (parse_text (H := Reference.builtins) text) = true →
  parse_text (H := Reference.builtins) text = Ok (parsed text).
Proof. unfold parsed. by destruct (parse_text text). Qed.

Lemma parse_csv_parsed (fs : filesystem) (path text : string) :
  fs path = Some text →
  returned (parse_text (H := Reference.builtins) text) = true →
  parse_csv (H := Reference.builtins) fs path = Ok (parsed text).
Proof. intros Hf Hr. unfold parse_csv. rewrite Hf. by apply parsed_Ok. Qed.

(** A blank file and a file of one section. *)
Lemma parse_text_too_short_witness :
  parse_csv (H := Reference.builtins) edge_files "blank.csv" = Raise IndexError
  ∧ parse_csv (H := Reference.builtins) edge_files "meta.csv" = Raise IndexError.
Proof.
  destruct (parse_text_too_short (H := Reference.builtins) edge_files "blank.csv" "  ")
    as (_ & Hblank & _); [vm_compute; reflexivity|].
  destruct (parse_text_too_short (H := Reference.builtins) edge_files "meta.csv"
              meta_example) as (Hshort & _); [vm_compute; reflexivity|].
  split; [apply Hblank|apply Hshort]; vm_compute; [reflexivity|lia].
Defined.

(** A sample trace without a [thread_id] column. *)
Lemma parse_csv_exceptions_witness :
  parse_csv (H := Reference.builtins) edge_files "untagged.csv"
  = Raise (KeyError "thread_id")
  ∧ (KeyError "thread_id" = IndexError
     ∨ KeyError "thread_id" = KeyError "thread_id"
     ∨ KeyError "thread_id" = ValueError).
Proof.
  split; [vm_compute; reflexivity|].
  apply (parse_csv_exceptions (H := Reference.builtins) edge_files "untagged.csv"
           log_untagged); vm_compute; reflexivity.
Defined.

Lemma samples_need_thread_id_witness :
  parse_samples (H := Reference.builtins) samples_untagged
  = Raise (KeyError "thread_id")
  ∧ parse_samples (H := Reference.builtins) "timestamp_ms,pc_addr,pixels_at" = Ok [].
Proof.
  destruct (samples_need_thread_id (H := Reference.builtins) samples_untagged
              "timestamp_ms,pc_addr,pixels_at" ["0.0,0x1000,0"])
    as (_ & Hrow); [vm_compute; reflexivity|].
  destruct (samples_need_thread_id (H := Reference.builtins)
              "timestamp_ms,pc_addr,pixels_at" "timestamp_ms,pc_addr,pixels_at" [])
    as (Hnone & _); [vm_compute; reflexivity|].
  split; [|by apply Hnone].
  apply (Hrow "0.0,0x1000,0" [] eq_refl).
  intros i k Hi Hk. vm_compute in Hi.
  destruct i as [|[|[|i]]]; try lia; vm_compute in Hk; injection Hk as <-;
    vm_compute; discriminate.
Defined.

(** The small log with a fourth section parses to the same log. *)
Lemma later_sections_ignored_witness :
  parse_csv (H := Reference.builtins) edge_files "notes.csv"
  = parse_csv (H := Reference.builtins) edge_files "small.csv".
Proof.
  eapply (later_sections_ignored (H := Reference.builtins) edge_files
            "notes.csv" "small.csv" log_small_with_notes log_small);
    vm_compute; reflexivity.
Defined.

(** The small log: threads 0 and 1, in this order. *)
Lemma pc_samples_well_formed_witness :
  (pc_samples (parsed log_small)).*1 = [0; 1]
  ∧ NoDup (pc_samples (parsed log_small)).*1.
Proof.
  split; [vm_compute; reflexivity|].
  apply (pc_samples_well_formed (H := Reference.builtins) edge_files "small.csv"
           (parsed log_small)).
  vm_compute. reflexivity.
Defined.

(** The three rows of the small log: the two of thread 0, then the one of
    thread 1. *)
Lemma pc_samples_count_witness :
  (fun s : record => s !! "timestamp_ms") <$> concat (pc_samples (parsed log_small)).*2
  = [Some "0.0"; Some "1.0"; Some "0.5"]
  ∧ concat (pc_samples (parsed log_small)).*2
    ≡ₚ (fun row => zip_record (split comma "thread_id,timestamp_ms") (split comma row))
       <$> ["0,0.0"; "1,0.5"; "0,1.0"]
  ∧ sample_count (pc_samples (parsed log_small)) = 3%nat.
Proof.
  split; [vm_compute; reflexivity|].
  eapply (pc_samples_count (H := Reference.builtins) edge_files "small.csv" log_small
            _ _ _ "thread_id,timestamp_ms" _ ["0,0.0"; "1,0.5"; "0,1.0"]
            (parsed log_small));
    [vm_compute; reflexivity..|].
  apply parse_csv_parsed; vm_compute; reflexivity.
Defined.

(** The header [ pid ] and the value [ 1 ] of the small log are stored
    trimmed. *)
Lemma parsed_fields_stripped_witness :
  meta (parsed log_small) !! "pid" = Some "1" ∧ stripped "pid" ∧ stripped "1".
Proof.
  split; [vm_compute; reflexivity|].
  destruct (parsed_fields_stripped (H := Reference.builtins) edge_files "small.csv"
              (parsed log_small)) as (Hmeta & _); [vm_compute; reflexivity|].
  apply Hmeta. vm_compute. reflexivity.
Defined.

(** Two threads: three ticks, three labels. *)
Lemma gantt_rows_labelled_witness :
  ∃ arts labels,
    row1_parallel (H := Reference.builtins) par_two_threads metrics_2 = Ok arts
    ∧ YTickLabels Ax1b labels ∈ arts
    ∧ len labels = 3.
Proof.
  edestruct (gantt_rows_labelled (H := Reference.builtins) par_two_threads metrics_2)
    as (labels & _ & Hlabels & Hlen & _); [vm_compute; reflexivity|by vm_compute|].
  eexists _, labels. split; [vm_compute; reflexivity|]. split; [exact Hlabels|].
  rewrite Hlen. vm_compute. reflexivity.
Defined.

Lemma cores_labelled_witness :
  ∃ arts,
    row2_parallel (H := Reference.builtins) par_two_threads metrics_2 = Ok arts
    ∧ YTicks Ax2b [0; 1] ∈ arts.
Proof.
  edestruct (cores_labelled (H := Reference.builtins) par_two_threads metrics_2)
    as (Hticks & _); [vm_compute; reflexivity|].
  eexists. split; [vm_compute; reflexivity|]. exact Hticks.
Defined.



(** A pixel total of 0. *)
Lemma progress_guarded_witness :
  progress (H := Reference.builtins)
    [ {[ "pixels_at" := "0" ]}; {[ "pixels_at" := "250000" ]} ] 0
  = Ok [PyInt 0; PyInt 0].
Proof.
  destruct (progress_guarded (H := Reference.builtins)
              [ {[ "pixels_at" := "0" ]}; {[ "pixels_at" := "250000" ]} ] 0)
    as (Hzero & _).
  rewrite (Hzero [0; 250000]); [reflexivity|lia|vm_compute; reflexivity].
Defined.

(** A sequential log without threads. *)
Lemma render_exceptions_witness :
  render (H := Reference.builtins) seq_100 (par_25 "4") = Raise IndexError
  ∧ (IndexError = IndexError ∨ (∃ k, IndexError = KeyError k)
     ∨ IndexError = ValueError ∨ IndexError = ZeroDivisionError
     ∨ IndexError = OverflowError).
Proof.
  split; [vm_compute; reflexivity|].
  apply (render_exceptions (H := Reference.builtins) seq_100 (par_25 "4")).
  vm_compute. reflexivity.
Defined.

(** The two example logs, each with samples: the rendering indexes the
    thread table and the samples of threads 0 and 1 at their ends, and
    returns. *)
Lemma render_no_index_error_witness :
  returned (render (H := Reference.builtins) (parsed seq_log) (parsed par_log)) = true
  ∧ render (H := Reference.builtins) (parsed seq_log) (parsed par_log)
    ≠ Raise IndexError.
Proof.
  split; [vm_compute; reflexivity|].
  apply (render_no_index_error (H := Reference.builtins) example_files
           "seq.csv" "par.csv").
  - apply parse_csv_parsed; vm_compute; reflexivity.
  - apply parse_csv_parsed; vm_compute; reflexivity.
  - intros Hnil. apply (f_equal length) in Hnil. vm_compute in Hnil. discriminate Hnil.
Defined.

(** The [pid] of the parallel log is not read. *)
Lemma unread_metadata_witness :
  render (H := Reference.builtins) seq_100 (set_meta (par_25 "4") "pid" "999")
  = render (H := Reference.builtins) seq_100 (par_25 "4").
Proof.
  destruct (unread_metadata (H := Reference.builtins) seq_100 (par_25 "4")
              "pid" "999") as (Hpar & _).
  apply Hpar; discriminate.
Defined.

(** A thread count of -4. *)
Lemma derive_any_count_witness :
  ∃ s e,
    derive (H := Reference.builtins) seq_100 (par_25 "-4")
    = Ok {| nt := -4; wall_seq := dec 100 0; wall_par := dec 25 0;
            cpu_seq := dec 99 0; cpu_par := dec 98 0;
            m_speedup := s; m_efficiency := e |}.
Proof.
  apply (derive_any_count (H := Reference.builtins) seq_100 (par_25 "-4"));
    [vm_compute; reflexivity..|discriminate|vm_compute; reflexivity].
Defined.

(** Samples for thread 0 and no [tid] in the record of that thread, in
    the sequential log and in the parallel log: rows 1 and 2 are drawn and
    the rendering stops at the [tid] of row 3. *)
Lemma tcb_fields_required_witness :
  render (H := Reference.builtins) seq_samples_no_tid par_cs = Raise (KeyError "tid")
  ∧ render (H := Reference.builtins) seq_plain par_samples_no_tid
    = Raise (KeyError "tid")
  ∧ (∃ e, render (H := Reference.builtins) seq_samples_no_tid par_cs = Raise e)
  ∧ (∃ e, render (H := Reference.builtins) seq_plain par_samples_no_tid = Raise e).
Proof.
  destruct (tcb_fields_required (H := Reference.builtins)) as (Hseq & Hpar).
  split; [vm_compute; reflexivity|]. split; [vm_compute; reflexivity|]. split.
  - apply (Hseq seq_samples_no_tid par_cs [sample_at "0.0"; sample_at "50.0"]);
      [reflexivity|].
    left. vm_compute. reflexivity.
  - apply (Hpar seq_plain par_samples_no_tid (delete "tid" thread_0) 0
             [sample_at "0.0"; sample_at "10.0"]);
      [by left|vm_compute; reflexivity|reflexivity|vm_compute; reflexivity].
Defined.

(** A second thread without [pixels]: rows 1 to 3 are drawn and the
    rendering stops at the [pixels] of that thread in row 4. *)
Lemma parallel_thread_fields_witness :
  render (H := Reference.builtins) seq_plain par_no_pixels = Raise (KeyError "pixels")
  ∧ ∃ e, render (H := Reference.builtins) seq_plain par_no_pixels = Raise e.
Proof.
  split; [vm_compute; reflexivity|].
  apply (parallel_thread_fields (H := Reference.builtins) seq_plain par_no_pixels
           (delete "pixels" thread_1)); [right; by left|].
  do 4 right. vm_compute. exact I.
Defined.

(** A sequential log without [pid]. *)
Lemma pid_required_witness :
  render (H := Reference.builtins) seq_no_pid (par_25 "4") = Raise (KeyError "pid").
Proof.
  eapply (pid_required (H := Reference.builtins) seq_no_pid (par_25 "4"));
    vm_compute; reflexivity.
Defined.
